(* ===== verification/_CoqProject ===== *)
-Q . S2P
Prelude.v
JsString.v
Utf8.v
Base64.v
Json.v
JsValue.v
Encoder.v
Io.v
Semantics.v
Auth.v
Rpc.v
Runtime.v
Config.v
SubmitBlob.v
Scenarios.v
Traces.v
