(* ===== verification/Prelude.v ===== *)
(** * A verification library for the Celestia data-availability plugin

    The program is the Eliza agent plugin under
    [src/packages/plugin-celestia/src/]: one action, [SUBMIT_BLOB], that takes
    a payload extracted from the conversation, encodes it, fetches an
    authentication token from a Celestia light node by shelling into its
    container, sends one JSON-RPC [state.SubmitPayForBlob] call and reports
    the transaction hash as a Celenium explorer link.

    ** Parts of the program and how they interact

    - [environment.ts] ([validateCelestiaConfig]): reads three settings
      (runtime setting, falling back to [process.env]), parses the fee with
      [parseFloat] and validates the record against a zod schema.
    - [functions/encodeDataToBase64String.ts]: [JSON.stringify] of the
      payload, UTF-8 bytes of that text ([Buffer.from]), base64 of the bytes.
    - [functions/fetchAuthKeyFromLightNode.ts]: runs a shell command and
      returns its trimmed standard output, or throws [terminal_error].
    - [functions/celestiaRequest.ts]: checks the endpoint with [isURL]
      (throws [bad_request] before any I/O), fetches the token, POSTs the
      JSON-RPC envelope, parses the JSON body, normalises a falsy [result] to
      [{id:1, jsonrpc:"2.0", result:[]}], and maps every failure after the URL
      check to [fetch_error].
    - [functions/getCeleniumURL.ts]: the explorer link template.
    - [actions/submitBlob.ts]: the action; its handler composes the agent
      state, asks the model for the payload, and runs the pipeline above,
      reporting through a callback.
    - [index.ts]: the plugin record listing the action.

    ** Files of this development (in dependency order)

    - [Prelude] (this file): the [js_scope] of string notations, the [zbits]
      rewrite database and tactic that turn bit operations into arithmetic,
      [zbool], [split_guards], [lor_to_add] and [vm_decide], shared list
      lemmas, and the [codec] record (encoder, decoder, domain, round-trip
      law) with [codec_compose], the interface through which the encoder's
      stages are composed.
    - [JsString] ([Module Utf16]): strings as lists of UTF-16 code units,
      ECMA-262 [StringToCodePoints] ([to_code_points]),
      [UTF16EncodeCodePoint] ([utf16_encode_cp], [from_code_points]) and
      [String.prototype.trim] ([trim], called at
      [fetchAuthKeyFromLightNode.ts:14]).
    - [Utf8] ([Module Utf8]): [Buffer.from(string)] ([buffer_from_string]:
      UTF-8 with U+FFFD for lone surrogates) and a strict decoder.
    - [Base64] ([Module Base64]): [toString('base64')] ([base64_encode],
      groups of three bytes, [=] padding) and a strict decoder.
    - [Json] ([Module Json]): [JSON.stringify] on strings
      ([quote_json_string], ECMA-262 QuoteJSONString) and the string
      literal fragment of [JSON.parse].
    - [JsValue] ([Module JsValue]): JavaScript values (a nested inductive
      with arrays and objects), errors ([exn]), [JSON.stringify]
      ([stringify]), truthiness, property reads with V8's [TypeError]
      messages, and ToString for template literals.
    - [Encoder] ([Module Encoder]): [encodeDataToBase64String]
      ([encodeDataToBase64String.ts:1-9]).
    - [Io] ([Module Io]): the awaited operations of the async code as a
      tree [io A] (log, callback, [composeState],
      [updateRecentMessageState], model generation, [exec], [fetch]) with
      [bind] (await), [catch] (try/catch) and [run], which interprets a tree
      in a [world] of answers and returns the trace of [event]s and the
      outcome; [run_bind], [run_catch], [run_raise] are its laws.
    - [Semantics] ([Module Semantics]): the same programs as a labelled
      small-step relation [step] (one awaited operation and its event) with
      its closure [steps] and the executable [step_fn]; [io_equiv] (same
      trace and outcome in every world) with [Proper] instances for [bind]
      and [catch].
    - [Auth] ([Module Auth]): [execAsync] ([promisify(exec)]) and
      [fetchAuthKeyFromLightNode] ([fetchAuthKeyFromLightNode.ts:4-18]).
    - [Rpc] ([Module Rpc]): [isURL] (modelled from the specification, its
      file [utils/isURL.js] is not among the sources), the JSON-RPC envelope,
      the request and [celestiaRequest] ([celestiaRequest.ts:4-45]); its
      abstract specification [celestiaRequest_spec] gives the trace and the
      outcome as a function of the world's answers.
    - [Runtime] ([Module Runtime]): the runtime record (the character's
      secrets and settings, and [process.env], one environment per
      process), [runtime.getSetting] (the first non-empty value of secrets,
      settings, then [process.env], as the specification's "settings lookup
      plus environment fallback"; [@elizaos/core] is not among the
      sources), [process.env.KEY] and JavaScript's [||].
    - [Config] ([Module Config]): [parseFloat], the zod schema
      ([celestiaEnvSchema_parse], issues in schema order) and
      [validateCelestiaConfig] ([environment.ts:4-34]).
    - [SubmitBlob] ([Module SubmitBlob]): [getCeleniumURL], the handler of
      [actions/submitBlob.ts:47-125] split into the pieces of the source
      ([init_state], [no_data], [submit], [report_success],
      [report_error]), the action record with [validate] and its
      [examples], the plugin record of [index.ts], and the abstract
      specification [handler_spec].
    - [Scenarios] ([Module Scenarios]): concrete runtimes (the
      specification's configuration in the character settings, the same in
      [process.env] only, a missing fee, a fee with a unit) and worlds, and
      the witnesses that instantiate the general theorems at them.
    - [Traces] ([Module Traces]): the executions of [celestiaRequest] and
      of the handler in the small-step semantics, the handler's data path
      end to end composed with the validator, and [handler_once], the
      handler with the transaction hash read once, as a reference.

    ** What the theorems show

    - Encoder (C1, C12, C26, C30-C36): for every JavaScript string the
      encoder returns a text from which base64, UTF-8 and [JSON.parse]
      recover the string, lone surrogates included; the UTF-8 step never
      replaces a character because [JSON.stringify] escapes lone surrogates;
      each stage is a [codec] and the end-to-end law is their composition.
      For every well-formed value the output is a base64 text (C26); the
      encoder throws only on [undefined]; base64 length and alphabet.
    - Token provider (C16): one run of the command in every world, its
      output without the surrounding white space, or [terminal_error].
    - DA client (C2, C4, C5, C9, C13-C15, C29): [celestiaRequest] refines
      [celestiaRequest_spec] in every world; an endpoint [isURL] rejects
      fails before any I/O (C4); [bad_request] and [fetch_error] are the
      only errors; the exact request (headers and body text); soft-success
      normalisation.  In the small-step semantics every reachable
      configuration has done at most the token command and then one POST
      (C9).
    - Handler (C3, C6-C8, C10, C11, C17-C20, C27, C28, C39): the handler
      refines [handler_spec] in every world (start log, pipeline operations
      in source order, exactly one report); it never rejects and resolves
      to [true] exactly when a hash was read; the success path end to end
      for every input (C7); every execution has at most eight operations
      (C10), sends at most one request and only right after the token
      command (C27), and, with a callback, goes on to resolve with exactly
      one callback (C8); without a callback it does the same minus the
      callbacks (C39); the request carries the settings and a [data] text
      that decodes back to the model's string (C11); reading the hash twice
      is equivalent to reading it once (C28); the no-data, empty-result,
      missing-hash and rejected-endpoint runs (C17-C20).
    - Configuration and its use (C21-C25, C37, C38): the validator's
      accepted configurations, its aggregated error with one line per
      failing field, the missing-fee report, [parseFloat] on decimals
      followed by any text; what [validate] accepts is what the handler
      sends, except that the fee is sent as the setting's text (C21); the
      handler sends a request that [validate] rejects (C22) and a fee text
      that differs from the validated number (C37).

    Findings recorded by these theorems: an empty RPC result, which the
    specification calls a soft success, ends in the handler's error report
    (C17); a response without [tx_hash] is reported as a success with a link
    ending in [/tx/undefined] (C18); the handler never validates, and sends
    a request with [gas_price] [null] when no fee is configured (C22); an
    auth failure is reported as [fetch_error] (C15); the fee is sent as the
    raw setting string (C21), so a fee written ["0.002 TIA"] validates as
    [0.002] but is sent verbatim (C37); the schema checks the endpoint only
    for being a non-empty string, not a URL (C23); a missing fee is
    reported as [Expected number, received nan] (C25).

    ** Bounds and modelling choices

    Code units are integers in [0, 2^16), code points in [0, 0x110000),
    bytes in [0, 256); the bit operations of the encoders are written with
    [Z.shiftr], [Z.land] and [Z.lor]. No fuel is used: every function
    recurses structurally on its list or value argument ([list_len_ind]
    gives the induction for the two- and three-element steps). Numbers are
    integers in [JsValue], and [parseFloat] keeps the decimal numeral exact;
    its only rounding, the sign of a value below the smallest double, is
    modelled by [is_negative] (a negative fee below [2^-1075] rounds to
    [-0] and passes [min(0)]). A [world] answers each kind of operation by a
    function of its arguments, which covers one invocation of the handler,
    where each operation is performed at most once.  The [io] trees are
    finite (an inductive type), so every execution terminates; the bound of
    eight operations for the handler counts the awaited operations, logs and
    callbacks of its longest path.

    ** Not modelled

    The agent framework ([@elizaos/core]: the logger's output, the model
    call, [composeContext] and state composition) is external: only the
    answers of its operations appear, as the world's functions.  JSON
    numbers other than integers are not modelled: the plugin builds only the
    integer id [1], and a non-integer [data] from the model would need the
    shortest round-trip [Number.prototype.toString] of doubles, which is
    left out; [JsValue] is therefore partly modelled.  The reordering of
    integer-like object keys and [toJSON] are not modelled either.  [isURL]
    ([utils/isURL.js]) and [runtime.getSetting] are outside the sources and
    follow the specification; the theorems about the handler that depend
    on the endpoint take [isURL]'s answer as a hypothesis, so that they hold
    whatever that file does.  The Node.js
    and V8 built-ins are modelled from their specifications at the lines
    that call them. *)

From stdpp Require Export base list.
From Stdlib Require Export ZArith Lia.
From Stdlib Require String Ascii.
Export (notations) String.

Declare Scope js_scope.
Delimit Scope js_scope with js.

(** JavaScript string values are sequences of UTF-16 code units. *)
Abbreviation jsstring := (list Z).

(** The code units of an ASCII Rocq string literal. *)
Definition js (s : String.string) : jsstring :=
  map (fun a => Z.of_nat (Ascii.nat_of_ascii a)) (String.list_ascii_of_string s).

Notation "‹ s ›" := (js s%string) (format "‹ s ›") : js_scope.

(** The code units of an ASCII literal in which [^] stands for a double
    quote, for texts that contain JSON. *)
Definition jsq (s : String.string) : jsstring :=
  map (fun c => if (c =? 94)%Z then 34%Z else c) (js s).
Open Scope js_scope.

(** ** Bit operations as arithmetic *)

Create Rewrite HintDb zbits.
Create HintDb eliza discriminated.

Section ZBits.
Local Open Scope Z_scope.

Lemma shiftl_mul (x k : Z) : 0 <= k -> Z.shiftl x k = x * 2 ^ k.
Proof. apply Z.shiftl_mul_pow2. Qed.

(** Or-ing a value below [2^k] into a multiple of [2^k] is addition. *)
Lemma lor_mul_pow2 (q b k : Z) :
  0 <= k -> 0 <= b < 2 ^ k -> Z.lor (q * 2 ^ k) b = q * 2 ^ k + b.
Proof.
  intros Hk Hb. rewrite <- Z.add_nocarry_lor; [reflexivity|].
  apply Z.bits_inj'. intros m Hm. rewrite Z.land_spec, Z.bits_0.
  destruct (Z.lt_ge_cases m k).
  - rewrite Z.mul_pow2_bits_low; auto.
  - rewrite <- (Z.mod_small b (2 ^ k)) by lia.
    rewrite Z.mod_pow2_bits_high by lia. apply andb_false_r.
Qed.

Lemma lor_const (c b k : Z) :
  0 <= k -> c mod 2 ^ k = 0 -> 0 <= b < 2 ^ k -> Z.lor c b = c + b.
Proof.
  intros Hk Hc Hb.
  assert (Hp : 0 < 2 ^ k) by (apply Z.pow_pos_nonneg; lia).
  rewrite (Z.div_mod c (2 ^ k)) by lia. rewrite Hc, Z.add_0_r.
  rewrite Z.mul_comm. apply lor_mul_pow2; lia.
Qed.

Lemma land_3 x : Z.land x 3 = x mod 4.
Proof. exact (Z.land_ones x 2 ltac:(lia)). Qed.
Lemma land_7 x : Z.land x 7 = x mod 8.
Proof. exact (Z.land_ones x 3 ltac:(lia)). Qed.
Lemma land_15 x : Z.land x 15 = x mod 16.
Proof. exact (Z.land_ones x 4 ltac:(lia)). Qed.
Lemma land_31 x : Z.land x 31 = x mod 32.
Proof. exact (Z.land_ones x 5 ltac:(lia)). Qed.
Lemma land_63 x : Z.land x 63 = x mod 64.
Proof. exact (Z.land_ones x 6 ltac:(lia)). Qed.
Lemma land_255 x : Z.land x 255 = x mod 256.
Proof. exact (Z.land_ones x 8 ltac:(lia)). Qed.
Lemma land_1023 x : Z.land x 1023 = x mod 1024.
Proof. exact (Z.land_ones x 10 ltac:(lia)). Qed.

Lemma shiftr_lit x k : 0 <= k -> Z.shiftr x k = x / 2 ^ k.
Proof. apply Z.shiftr_div_pow2. Qed.
End ZBits.

#[export] Hint Rewrite land_3 land_7 land_15 land_31 land_63 land_255 land_1023 : zbits.
#[export] Hint Rewrite shiftr_lit using lia : zbits.
#[export] Hint Rewrite shiftl_mul using lia : zbits.

(** Rewrite shifts and masks into division and remainder, compute the
    powers of two, and let [lia] finish. *)
(** Proves a decidable proposition on concrete data by evaluating its
    decision procedure. *)
Ltac vm_decide := apply (bool_decide_unpack _); vm_compute; exact I.

Ltac eval_pow2 :=
  repeat match goal with
  | |- context [(2 ^ ?k)%Z] =>
      let v := eval vm_compute in (2 ^ k)%Z in change (2 ^ k)%Z with v
  | H : context [(2 ^ ?k)%Z] |- _ =>
      let v := eval vm_compute in (2 ^ k)%Z in change (2 ^ k)%Z with v in H
  end.

Ltac zbits :=
  autorewrite with zbits in *; eval_pow2; Z.to_euclidean_division_equations; lia.

(** Turn boolean comparisons of the code into propositions. *)
Ltac zbool :=
  repeat match goal with
  | H : andb _ _ = true |- _ => apply andb_true_iff in H as [? ?]
  | H : orb _ _ = false |- _ => apply orb_false_iff in H as [? ?]
  | H : andb _ _ = false |- _ => apply andb_false_iff in H as [?|?]
  | H : orb _ _ = true |- _ => apply orb_true_iff in H as [?|?]
  | H : negb _ = true |- _ => apply negb_true_iff in H
  | H : negb _ = false |- _ => apply negb_false_iff in H
  | H : (_ <=? _)%Z = true |- _ => apply Z.leb_le in H
  | H : (_ <=? _)%Z = false |- _ => apply Z.leb_gt in H
  | H : (_ <? _)%Z = true |- _ => apply Z.ltb_lt in H
  | H : (_ <? _)%Z = false |- _ => apply Z.ltb_ge in H
  | H : (_ =? _)%Z = true |- _ => apply Z.eqb_eq in H
  | H : (_ =? _)%Z = false |- _ => apply Z.eqb_neq in H
  end.

(** Case on every boolean guard of the goal. *)
Ltac split_guards :=
  repeat match goal with
  | |- context [if ?b then _ else _] =>
      lazymatch b with
      | context [if _ then _ else _] => fail
      | _ => destruct b eqn:?
      end
  end.

(** Rewrite every [Z.lor] of disjoint bit fields into an addition. *)
Ltac lor_to_add :=
  repeat match goal with
  | |- context [Z.lor ?c ?x] =>
      first [ rewrite (lor_const c x 6) by (lia || zbits)
            | rewrite (lor_const c x 4) by (lia || zbits)
            | rewrite (lor_const c x 3) by (lia || zbits)
            | rewrite (lor_const c x 2) by (lia || zbits)
            | rewrite (lor_const c x 8) by (lia || zbits)
            | rewrite (lor_const c x 12) by (lia || zbits)
            | rewrite (lor_const c x 16) by (lia || zbits)
            | rewrite (lor_const c x 18) by (lia || zbits) ]
  end.

(** ** Shared list lemmas *)

Lemma Forall_flat_map {A B} (P : B -> Prop) (f : A -> list B) (l : list A) :
  Forall (fun a => Forall P (f a)) l -> Forall P (flat_map f l).
Proof.
  induction 1 as [|a l Ha _ IH]; cbn; [constructor|].
  apply Forall_app; auto.
Qed.

Lemma flat_map_app_r {A B} (f : A -> list B) (l1 l2 : list A) :
  flat_map f (l1 ++ l2) = flat_map f l1 ++ flat_map f l2.
Proof. apply flat_map_app. Qed.

#[export] Hint Resolve Forall_flat_map : eliza.

(** Induction on the length of a list, for functions that consume several
    elements per step. *)
Lemma list_len_ind {A} (P : list A -> Prop) :
  (forall l, (forall l', (length l' < length l)%nat -> P l') -> P l) ->
  forall l, P l.
Proof.
  intros Hstep l. remember (length l) as n eqn:Hn.
  revert l Hn. induction n as [n IH] using lt_wf_ind.
  intros l ->. apply Hstep. intros l' Hlt. eapply IH; eauto.
Qed.

(** An octet, as the elements of a Node.js [Buffer]. *)
Definition byte (b : Z) : Prop := (0 <= b < 256)%Z.

#[export] Instance byte_dec b : Decision (byte b).
Proof. unfold byte. apply _. Defined.

(** ** Codecs: an encoder, a decoder and the round-trip law

    The interface between the stages of the blob encoder: each stage
    promises that decoding its output on the stage's domain gives the input
    back. *)

Record codec (A B : Type) := {
  cd_enc : A -> B;
  cd_dec : B -> option A;
  cd_dom : A -> Prop;
  cd_law : forall a, cd_dom a -> cd_dec (cd_enc a) = Some a
}.
Arguments cd_enc {A B} _ _.
Arguments cd_dec {A B} _ _.
Arguments cd_dom {A B} _ _.
Arguments cd_law {A B} _ _ _.

Section Compose.
Context {A B C : Type} (c1 : codec A B) (c2 : codec B C).
Hypothesis Hdom : forall a, cd_dom c1 a -> cd_dom c2 (cd_enc c1 a).

Definition codec_compose_dec (z : C) : option A :=
  cd_dec c2 z ≫= cd_dec c1.

Lemma codec_compose_law a :
  cd_dom c1 a -> codec_compose_dec (cd_enc c2 (cd_enc c1 a)) = Some a.
Proof.
  intros Ha. unfold codec_compose_dec.
  rewrite (cd_law c2 _ (Hdom a Ha)). cbn. apply (cd_law c1 _ Ha).
Qed.

Definition codec_compose : codec A C := {|
  cd_enc a := cd_enc c2 (cd_enc c1 a);
  cd_dec := codec_compose_dec;
  cd_dom := cd_dom c1;
  cd_law := codec_compose_law
|}.
End Compose.
