(* ===== verification/JsString.v ===== *)
(** * JavaScript strings: UTF-16 code units and code points

    A JavaScript string is a list of UTF-16 code units.  The built-ins the
    plugin calls ([JSON.stringify] at [encodeDataToBase64String.ts:3],
    [Buffer.from] at line 4, [String.prototype.trim] at
    [fetchAuthKeyFromLightNode.ts:14]) read it as a sequence of code points
    (ECMA-262 [StringToCodePoints], where an unpaired surrogate stands for
    itself) and write code points back with [UTF16EncodeCodePoint].  This
    file models those two conversions, [trim], and proves the round trips. *)

From S2P Require Import Prelude.

Module Utf16.
Local Open Scope Z_scope.

(** ** Classes of code units *)

Definition is_lead (c : Z) : bool := (0xD800 <=? c) && (c <=? 0xDBFF).
Definition is_trail (c : Z) : bool := (0xDC00 <=? c) && (c <=? 0xDFFF).
Definition is_surrogate (c : Z) : bool := (0xD800 <=? c) && (c <=? 0xDFFF).

Definition code_unit (c : Z) : Prop := 0 <= c < 0x10000.
Definition code_point (c : Z) : Prop := 0 <= c < 0x110000.
(** A Unicode scalar value: a code point that is not a surrogate. *)
Definition scalar (c : Z) : Prop := code_point c /\ is_surrogate c = false.

#[export] Instance code_unit_dec c : Decision (code_unit c).
Proof. unfold code_unit. apply _. Defined.
#[export] Instance code_point_dec c : Decision (code_point c).
Proof. unfold code_point. apply _. Defined.
#[export] Instance scalar_dec c : Decision (scalar c).
Proof. unfold scalar. apply _. Defined.

(** ** ECMA-262 CodePointAt / StringToCodePoints *)

Definition combine_pair (lead trail : Z) : Z :=
  (lead - 0xD800) * 0x400 + (trail - 0xDC00) + 0x10000.

Fixpoint to_code_points (s : jsstring) : list Z :=
  match s with
  | [] => []
  | c :: rest =>
      if is_lead c then
        match rest with
        | d :: rest' =>
            if is_trail d then combine_pair c d :: to_code_points rest'
            else c :: to_code_points rest
        | [] => [c]
        end
      else c :: to_code_points rest
  end.

(** ** ECMA-262 UTF16EncodeCodePoint *)

Definition utf16_encode_cp (cp : Z) : jsstring :=
  if cp <? 0x10000 then [cp]
  else [Z.shiftr (cp - 0x10000) 10 + 0xD800;
        Z.land (cp - 0x10000) 0x3FF + 0xDC00].

Definition from_code_points (cps : list Z) : jsstring :=
  flat_map utf16_encode_cp cps.

(** ** String.prototype.trim (ECMA-262 TrimString, both ends)

    WhiteSpace and LineTerminator code points; all lie in the basic
    plane, so the code-unit and code-point readings agree. *)

Definition is_js_space (c : Z) : bool :=
  bool_decide (c ∈ [9; 10; 11; 12; 13; 32; 0xA0; 0x1680; 0x2028; 0x2029;
                    0x202F; 0x205F; 0x3000; 0xFEFF])
  || ((0x2000 <=? c) && (c <=? 0x200A)).

Fixpoint trim_start (s : jsstring) : jsstring :=
  match s with
  | c :: r => if is_js_space c then trim_start r else s
  | [] => []
  end.

Definition trim_end (s : jsstring) : jsstring := reverse (trim_start (reverse s)).

Definition trim (s : jsstring) : jsstring := trim_end (trim_start s).

(** ** Lemmas *)

Lemma combine_pair_range c d :
  is_lead c = true -> is_trail d = true ->
  0x10000 <= combine_pair c d < 0x110000.
Proof.
  unfold is_lead, is_trail, combine_pair. intros ? ?. zbool. lia.
Qed.

Lemma utf16_encode_combine c d :
  is_lead c = true -> is_trail d = true ->
  utf16_encode_cp (combine_pair c d) = [c; d].
Proof.
  intros Hc Hd. pose proof (combine_pair_range c d Hc Hd).
  unfold is_lead, is_trail, combine_pair, utf16_encode_cp in *. zbool.
  rewrite (proj2 (Z.ltb_ge _ _)) by lia.
  f_equal; [|f_equal]; zbits.
Qed.

Lemma utf16_encode_bmp c : 0 <= c < 0x10000 -> utf16_encode_cp c = [c].
Proof. intros H. unfold utf16_encode_cp. rewrite (proj2 (Z.ltb_lt _ _)); auto; lia. Qed.

#[local] Hint Resolve utf16_encode_bmp utf16_encode_combine : eliza.

(** Decoding to code points and encoding back gives the string back,
    unpaired surrogates included. *)
Lemma from_to_code_points (s : jsstring) :
  Forall code_unit s -> from_code_points (to_code_points s) = s.
Proof.
  induction s as [s IH] using list_len_ind.
  destruct s as [|c rest]; [reflexivity|]. intros Hs.
  inversion Hs as [|? ? Hc Hrest]; subst. unfold code_unit in Hc.
  cbn [to_code_points]. destruct (is_lead c) eqn:Hl.
  - destruct rest as [|d rest'].
    + cbn. rewrite utf16_encode_bmp; auto.
    + inversion Hrest as [|? ? Hd Hrest']; subst.
      destruct (is_trail d) eqn:Ht.
      * unfold from_code_points. cbn [flat_map].
        rewrite utf16_encode_combine by auto. cbn [app].
        do 2 f_equal. apply IH; cbn; auto; lia.
      * unfold from_code_points. cbn [flat_map].
        rewrite utf16_encode_bmp by auto. cbn [app]. f_equal.
        apply IH; cbn; auto.
  - unfold from_code_points. cbn [flat_map].
    rewrite utf16_encode_bmp by auto. cbn [app]. f_equal. apply IH; cbn; auto.
Qed.

Lemma lead_surrogate c : is_lead c = true -> is_surrogate c = true.
Proof. unfold is_lead, is_surrogate. intros. zbool. apply andb_true_iff; lia. Qed.

Lemma lead_of_high cp :
  0x10000 <= cp < 0x110000 ->
  is_lead (Z.shiftr (cp - 0x10000) 10 + 0xD800) = true.
Proof. intros. unfold is_lead. apply andb_true_iff; split; apply Z.leb_le; zbits. Qed.

Lemma trail_of_high cp :
  is_trail (Z.land (cp - 0x10000) 0x3FF + 0xDC00) = true.
Proof. unfold is_trail. apply andb_true_iff; split; apply Z.leb_le; zbits. Qed.

Lemma encode_cp_decode (cp : Z) (rest : list Z) :
  scalar cp ->
  to_code_points (utf16_encode_cp cp ++ from_code_points rest) =
  cp :: to_code_points (from_code_points rest).
Proof.
  unfold scalar, code_point. intros [Hr Hs].
  destruct (Z.ltb_spec cp 0x10000).
  - rewrite utf16_encode_bmp by lia. cbn [app to_code_points].
    destruct (is_lead cp) eqn:Hl; [|reflexivity].
    rewrite lead_surrogate in Hs by exact Hl. discriminate.
  - unfold utf16_encode_cp. rewrite (proj2 (Z.ltb_ge _ _)) by lia.
    cbn [app to_code_points].
    rewrite lead_of_high, trail_of_high by lia.
    f_equal. unfold combine_pair. zbits.
Qed.

(** Encoding scalar values and decoding gives the code points back. *)
Lemma to_from_code_points (cps : list Z) :
  Forall scalar cps -> to_code_points (from_code_points cps) = cps.
Proof.
  induction 1 as [|cp cps Hcp _ IH]; [reflexivity|].
  change (from_code_points (cp :: cps))
    with (utf16_encode_cp cp ++ from_code_points cps).
  rewrite encode_cp_decode by auto. f_equal; exact IH.
Qed.

Lemma to_code_points_range (s : jsstring) :
  Forall code_unit s -> Forall code_point (to_code_points s).
Proof.
  induction s as [s IH] using list_len_ind.
  destruct s as [|c rest]; [constructor|]. intros Hs.
  apply Forall_cons in Hs as [Hc Hrest]. unfold code_unit in Hc.
  assert (Hcp : code_point c) by (unfold code_point; lia).
  cbn [to_code_points]. destruct (is_lead c) eqn:Hl.
  - destruct rest as [|d rest']; [constructor; [exact Hcp | constructor]|].
    apply Forall_cons in Hrest as [Hd Hrest'].
    destruct (is_trail d) eqn:Ht; constructor.
    + pose proof (combine_pair_range c d Hl Ht). unfold code_point; lia.
    + apply IH; cbn; auto; lia.
    + exact Hcp.
    + apply IH; cbn; auto.
  - constructor; [exact Hcp|]. apply IH; cbn; auto.
Qed.

Lemma utf16_encode_cp_units cp :
  code_point cp -> Forall code_unit (utf16_encode_cp cp).
Proof.
  unfold code_point, code_unit, utf16_encode_cp. intros H.
  destruct (Z.ltb_spec cp 0x10000); repeat constructor; zbits.
Qed.

Lemma from_code_points_units cps :
  Forall code_point cps -> Forall code_unit (from_code_points cps).
Proof.
  intros H. apply Forall_flat_map. eapply Forall_impl; [exact H|].
  apply utf16_encode_cp_units.
Qed.

#[export] Hint Resolve to_code_points_range from_code_points_units
  utf16_encode_cp_units : eliza.

(** The code units of an ASCII literal are code units. *)
Lemma js_units (s : String.string) : Forall code_unit (js s).
Proof.
  unfold js. apply Forall_fmap, Forall_forall. intros a _. cbn.
  pose proof (Ascii.nat_ascii_bounded a). unfold code_unit. lia.
Qed.

(** *** trim *)

Lemma trim_start_suffix s : exists pre, s = pre ++ trim_start s /\
  Forall (fun c => is_js_space c = true) pre.
Proof.
  induction s as [|c r [pre [Hs Hpre]]]; [exists []; auto|].
  cbn. destruct (is_js_space c) eqn:Hc.
  - exists (c :: pre). cbn. rewrite <- Hs. auto.
  - exists []. auto.
Qed.

Lemma trim_start_head s c r : trim_start s = c :: r -> is_js_space c = false.
Proof.
  induction s as [|c' r' IH]; cbn; [discriminate|].
  destruct (is_js_space c') eqn:Hc; [exact IH|]. intros [= -> _]. exact Hc.
Qed.

Lemma trim_start_idem s : trim_start (trim_start s) = trim_start s.
Proof.
  induction s as [|c r IH]; cbn; [reflexivity|].
  destruct (is_js_space c) eqn:Hc; [exact IH|]. cbn. rewrite Hc. reflexivity.
Qed.

Lemma trim_start_app_nonspace s t :
  trim_start s <> [] -> trim_start (s ++ t) = trim_start s ++ t.
Proof.
  induction s as [|c r IH]; cbn; [congruence|].
  destruct (is_js_space c); auto.
Qed.

Lemma trim_start_nil_spaces s :
  trim_start s = [] -> Forall (fun c => is_js_space c = true) s.
Proof.
  induction s as [|c r IH]; cbn; [constructor|].
  destruct (is_js_space c) eqn:Hc; [|discriminate]. constructor; auto.
Qed.

Definition js_space (c : Z) : Prop := is_js_space c = true.

Lemma trim_start_id s :
  (forall c, head s = Some c -> is_js_space c = false) -> trim_start s = s.
Proof.
  destruct s as [|c r]; [reflexivity|]. intros H. cbn.
  rewrite (H c eq_refl). reflexivity.
Qed.

Lemma trim_start_head_opt s c : head (trim_start s) = Some c -> is_js_space c = false.
Proof.
  destruct (trim_start s) as [|c' r] eqn:E; cbn; [discriminate|].
  intros [= ->]. exact (trim_start_head _ _ _ E).
Qed.

Lemma trim_end_suffix t : exists suf, t = trim_end t ++ suf /\ Forall js_space suf.
Proof.
  destruct (trim_start_suffix (reverse t)) as [pre [Hs Hpre]].
  exists (reverse pre). unfold trim_end. split.
  - rewrite <- reverse_app, <- Hs, reverse_involutive. reflexivity.
  - apply Forall_reverse, Hpre.
Qed.

(** [trim s] is [s] without its leading and trailing white space: the
    removed parts are white space and [trim s] starts and ends with a
    character that is not. *)
Lemma trim_shape (s : jsstring) :
  exists pre suf, s = pre ++ trim s ++ suf /\
    Forall js_space pre /\ Forall js_space suf /\
    (forall c, head (trim s) = Some c -> is_js_space c = false) /\
    (forall c, last (trim s) = Some c -> is_js_space c = false).
Proof.
  destruct (trim_start_suffix s) as [pre [Hs Hpre]].
  destruct (trim_end_suffix (trim_start s)) as [suf [Ht Hsuf]].
  exists pre, suf. unfold trim. split; [|split; [exact Hpre|split; [exact Hsuf|split]]].
  - rewrite <- Ht. exact Hs.
  - intros c Hc. apply (trim_start_head_opt s c).
    rewrite Ht, head_app. destruct (trim_end (trim_start s)); cbn in *;
      [discriminate | exact Hc].
  - intros c Hc. unfold trim_end in Hc. rewrite last_reverse in Hc.
    exact (trim_start_head_opt _ _ Hc).
Qed.

Lemma trim_idem (s : jsstring) : trim (trim s) = trim s.
Proof.
  destruct (trim_shape s) as (pre & suf & _ & _ & _ & Hh & Hl).
  unfold trim at 1. rewrite (trim_start_id (trim s) Hh).
  unfold trim_end. rewrite trim_start_id; [apply reverse_involutive|].
  intros c Hc. rewrite head_reverse in Hc. exact (Hl c Hc).
Qed.

End Utf16.
