(* ===== verification/Utf8.v ===== *)
(** * UTF-8: [Buffer.from(string)]

    [encodeDataToBase64String.ts:4] calls [Buffer.from(dataString)], which
    writes the string's code points as UTF-8 (Node's default encoding); an
    unpaired surrogate is written as U+FFFD, the replacement character.
    [utf8_decode] is a strict decoder (no overlong forms, no surrogates, no
    value above U+10FFFF) used to state the round trip. *)

From S2P Require Import Prelude JsString.

Module Utf8.
Import Utf16.
Local Open Scope Z_scope.

Definition replace_lone (cp : Z) : Z := if is_surrogate cp then 0xFFFD else cp.

Definition utf8_encode_cp (cp : Z) : list Z :=
  if cp <? 0x80 then [cp]
  else if cp <? 0x800 then
    [Z.lor 0xC0 (Z.shiftr cp 6); Z.lor 0x80 (Z.land cp 0x3F)]
  else if cp <? 0x10000 then
    [Z.lor 0xE0 (Z.shiftr cp 12); Z.lor 0x80 (Z.land (Z.shiftr cp 6) 0x3F);
     Z.lor 0x80 (Z.land cp 0x3F)]
  else
    [Z.lor 0xF0 (Z.shiftr cp 18); Z.lor 0x80 (Z.land (Z.shiftr cp 12) 0x3F);
     Z.lor 0x80 (Z.land (Z.shiftr cp 6) 0x3F); Z.lor 0x80 (Z.land cp 0x3F)].

(** [Buffer.from(s)] for a string [s]. *)
Definition buffer_from_string (s : jsstring) : list Z :=
  flat_map (fun cp => utf8_encode_cp (replace_lone cp)) (to_code_points s).

(** ** Strict decoding *)

Definition is_cont (b : Z) : bool := (0x80 <=? b) && (b <? 0xC0).

Definition dec2 (b1 b2 : Z) : Z :=
  Z.lor (Z.shiftl (Z.land b1 0x1F) 6) (Z.land b2 0x3F).
Definition dec3 (b1 b2 b3 : Z) : Z :=
  Z.lor (Z.shiftl (Z.land b1 0x0F) 12)
    (Z.lor (Z.shiftl (Z.land b2 0x3F) 6) (Z.land b3 0x3F)).
Definition dec4 (b1 b2 b3 b4 : Z) : Z :=
  Z.lor (Z.shiftl (Z.land b1 0x07) 18)
    (Z.lor (Z.shiftl (Z.land b2 0x3F) 12)
      (Z.lor (Z.shiftl (Z.land b3 0x3F) 6) (Z.land b4 0x3F))).

Fixpoint utf8_decode (bs : list Z) : option (list Z) :=
  match bs with
  | [] => Some []
  | b1 :: r1 =>
      if (b1 <? 0) then None
      else if b1 <? 0x80 then cons b1 <$> utf8_decode r1
      else if b1 <? 0xC2 then None
      else if b1 <? 0xE0 then
        match r1 with
        | b2 :: r2 =>
            if is_cont b2 then cons (dec2 b1 b2) <$> utf8_decode r2 else None
        | [] => None
        end
      else if b1 <? 0xF0 then
        match r1 with
        | b2 :: b3 :: r3 =>
            let cp := dec3 b1 b2 b3 in
            if is_cont b2 && is_cont b3 && (0x800 <=? cp) && negb (is_surrogate cp)
            then cons cp <$> utf8_decode r3 else None
        | _ => None
        end
      else if b1 <? 0xF5 then
        match r1 with
        | b2 :: b3 :: b4 :: r4 =>
            let cp := dec4 b1 b2 b3 b4 in
            if is_cont b2 && is_cont b3 && is_cont b4 &&
               (0x10000 <=? cp) && (cp <? 0x110000)
            then cons cp <$> utf8_decode r4 else None
        | _ => None
        end
      else None
  end.

(** ** Lemmas *)

Lemma utf8_encode_cp_bytes cp :
  code_point cp -> Forall byte (utf8_encode_cp cp).
Proof.
  unfold code_point, byte, utf8_encode_cp. intros H.
  destruct (Z.ltb_spec cp 0x80); [repeat constructor; lia|].
  destruct (Z.ltb_spec cp 0x800); [lor_to_add; repeat constructor; zbits|].
  destruct (Z.ltb_spec cp 0x10000); lor_to_add; repeat constructor; zbits.
Qed.

Lemma replace_lone_scalar cp : code_point cp -> scalar (replace_lone cp).
Proof.
  unfold replace_lone, scalar, code_point. intros H.
  destruct (is_surrogate cp) eqn:Hs; [split; [lia | reflexivity] | auto].
Qed.

(** Every element of [Buffer.from(s)] is a byte. *)
Lemma buffer_from_string_bytes s :
  Forall code_unit s -> Forall byte (buffer_from_string s).
Proof.
  intros Hs. apply Forall_flat_map.
  eapply Forall_impl; [apply to_code_points_range; exact Hs|].
  intros cp Hcp. apply utf8_encode_cp_bytes.
  apply (replace_lone_scalar cp Hcp).
Qed.

Lemma is_cont_cont x : 0 <= x < 64 -> is_cont (Z.lor 0x80 x) = true.
Proof.
  intros H. lor_to_add. unfold is_cont. apply andb_true_iff.
  split; [apply Z.leb_le | apply Z.ltb_lt]; lia.
Qed.

Ltac decode_case :=
  cbn [app utf8_decode]; unfold dec2, dec3, dec4, is_cont, is_surrogate in *;
  lor_to_add; autorewrite with zbits in *; eval_pow2; split_guards; zbool;
  first [ reflexivity | exfalso; zbits | do 2 f_equal; zbits ].

Lemma decode_encode_cp cp rest :
  scalar cp ->
  utf8_decode (utf8_encode_cp cp ++ rest) = cons cp <$> utf8_decode rest.
Proof.
  unfold scalar, code_point. intros [Hr Hs]. unfold utf8_encode_cp.
  destruct (Z.ltb_spec cp 0x80); [decode_case|].
  destruct (Z.ltb_spec cp 0x800); [decode_case|].
  destruct (Z.ltb_spec cp 0x10000); decode_case.
Qed.

(** Decoding the UTF-8 of scalar values gives them back. *)
Lemma utf8_decode_encode cps :
  Forall scalar cps -> utf8_decode (flat_map utf8_encode_cp cps) = Some cps.
Proof.
  induction 1 as [|cp cps Hcp _ IH]; [reflexivity|].
  cbn [flat_map]. rewrite decode_encode_cp by exact Hcp. rewrite IH. reflexivity.
Qed.

(** The UTF-8 stage as a codec on lists of scalar values. *)
Definition utf8_codec : codec (list Z) (list Z) := {|
  cd_enc := flat_map utf8_encode_cp;
  cd_dec := utf8_decode;
  cd_dom := Forall scalar;
  cd_law := utf8_decode_encode
|}.

(** On a string without unpaired surrogates, [Buffer.from] is the plain
    UTF-8 of its code points. *)
Lemma buffer_from_string_scalars cps :
  Forall scalar cps ->
  buffer_from_string (from_code_points cps) = flat_map utf8_encode_cp cps.
Proof.
  intros H. unfold buffer_from_string. rewrite to_from_code_points by exact H.
  induction H as [|cp cps [_ Hs] _ IH]; [reflexivity|].
  cbn [flat_map]. rewrite IH. unfold replace_lone. rewrite Hs. reflexivity.
Qed.

(** ** Properties *)

(** C32. Round trip of the UTF-8 stage: decoding the UTF-8 bytes of a
    sequence of Unicode scalar values gives the sequence back. *)
Theorem utf8_roundtrip (cps : list Z) :
  Forall scalar cps -> utf8_decode (flat_map utf8_encode_cp cps) = Some cps.
Proof. apply utf8_decode_encode. Qed.

Lemma utf8_roundtrip_witness :
  Forall scalar [0x24; 0xA2; 0x20AC; 0x1F600] /\
  utf8_decode (flat_map utf8_encode_cp [0x24; 0xA2; 0x20AC; 0x1F600])
  = Some [0x24; 0xA2; 0x20AC; 0x1F600].
Proof. split; [vm_decide|]. apply utf8_roundtrip. vm_decide. Defined.
End Utf8.
