(* ===== verification/Base64.v ===== *)
(** * Base64: [Buffer#toString('base64')]

    [encodeDataToBase64String.ts:4] ends with [.toString('base64')] on the
    UTF-8 buffer: RFC 4648 base64 with the standard alphabet and [=]
    padding.  Each group of three bytes is read as a 24-bit integer and cut
    into four 6-bit indices.  [base64_decode] is a strict decoder (padding
    only at the end, unused bits zero) used to state the round trip. *)

From S2P Require Import Prelude.

Module Base64.
Local Open Scope Z_scope.

(** The character of a 6-bit index: [A-Z], [a-z], [0-9], [+], [/]. *)
Definition b64_char (n : Z) : Z :=
  if n <? 26 then 65 + n
  else if n <? 52 then 97 + (n - 26)
  else if n <? 62 then 48 + (n - 52)
  else if n =? 62 then 43
  else 47.

Definition pad : Z := 61.

(** The four characters of a 24-bit group. *)
Definition b64_quad (n : Z) : jsstring :=
  map b64_char [Z.shiftr n 18; Z.land (Z.shiftr n 12) 63;
                Z.land (Z.shiftr n 6) 63; Z.land n 63].

Fixpoint base64_encode (bs : list Z) : jsstring :=
  match bs with
  | b1 :: b2 :: b3 :: rest =>
      b64_quad (Z.lor (Z.shiftl b1 16) (Z.lor (Z.shiftl b2 8) b3))
      ++ base64_encode rest
  | [b1; b2] => take 3 (b64_quad (Z.lor (Z.shiftl b1 16) (Z.shiftl b2 8))) ++ [pad]
  | [b1] => take 2 (b64_quad (Z.shiftl b1 16)) ++ [pad; pad]
  | [] => []
  end.

(** ** Strict decoding *)

Definition b64_val (c : Z) : option Z :=
  if (65 <=? c) && (c <=? 90) then Some (c - 65)
  else if (97 <=? c) && (c <=? 122) then Some (c - 71)
  else if (48 <=? c) && (c <=? 57) then Some (c + 4)
  else if c =? 43 then Some 62
  else if c =? 47 then Some 63
  else None.

Fixpoint base64_decode (s : jsstring) : option (list Z) :=
  match s with
  | [] => Some []
  | c1 :: c2 :: c3 :: c4 :: rest =>
      v1 ← b64_val c1; v2 ← b64_val c2;
      if c3 =? pad then
        if (c4 =? pad) && bool_decide (rest = []) && (Z.land v2 15 =? 0)
        then Some [Z.lor (Z.shiftl v1 2) (Z.shiftr v2 4)] else None
      else
        v3 ← b64_val c3;
        if c4 =? pad then
          if bool_decide (rest = []) && (Z.land v3 3 =? 0)
          then Some [Z.lor (Z.shiftl v1 2) (Z.shiftr v2 4);
                     Z.lor (Z.shiftl (Z.land v2 15) 4) (Z.shiftr v3 2)]
          else None
        else
          v4 ← b64_val c4;
          (fun r => [Z.lor (Z.shiftl v1 2) (Z.shiftr v2 4);
                     Z.lor (Z.shiftl (Z.land v2 15) 4) (Z.shiftr v3 2);
                     Z.lor (Z.shiftl (Z.land v3 3) 6) v4] ++ r)
            <$> base64_decode rest
  | _ => None
  end.

(** ** Lemmas *)

Lemma b64_val_char n : 0 <= n < 64 -> b64_val (b64_char n) = Some n.
Proof.
  intros H. unfold b64_char, b64_val. split_guards; zbool;
    first [ f_equal; lia | exfalso; lia ].
Qed.

Lemma b64_char_not_pad n : 0 <= n < 64 -> (b64_char n =? pad) = false.
Proof. intros H. apply Z.eqb_neq. unfold b64_char, pad. split_guards; zbool; lia. Qed.

Lemma b64_char_ascii n : 0 <= n < 64 -> 43 <= b64_char n <= 122.
Proof. intros H. unfold b64_char. split_guards; zbool; lia. Qed.

Ltac b64_simpl :=
  repeat first [ rewrite b64_val_char by zbits
               | rewrite b64_char_not_pad by zbits
               | rewrite Z.eqb_refl
               | rewrite bool_decide_eq_true_2 by reflexivity
               | progress cbn [mbind option_bind andb pad] ].

(** Close a goal about one decoded group: case on the decoder's guards and
    finish with arithmetic on the bit fields. *)
Ltac b64_group :=
  split_guards; zbool; try (exfalso; zbits);
  repeat (f_equal; try (lor_to_add; zbits)).

Lemma base64_decode_encode bs :
  Forall byte bs -> base64_decode (base64_encode bs) = Some bs.
Proof.
  induction bs as [bs IH] using list_len_ind.
  destruct bs as [|b1 [|b2 [|b3 rest]]]; intros Hb; [reflexivity| | |].
  all: pose proof Hb as Hall;
       repeat (apply Forall_cons in Hb as [? Hb]); unfold byte in *.
  all: cbn [base64_encode b64_quad map take app base64_decode];
       lor_to_add; autorewrite with zbits; eval_pow2; b64_simpl.
  - b64_group.
  - b64_group.
  - rewrite IH by (cbn; lia || exact Hb). cbn [fmap option_fmap option_map app].
    b64_group.
Qed.

(** The base64 stage as a codec on byte lists. *)
Definition base64_codec : codec (list Z) jsstring := {|
  cd_enc := base64_encode;
  cd_dec := base64_decode;
  cd_dom := Forall byte;
  cd_law := base64_decode_encode
|}.

(** Four characters for every started group of three bytes. *)
Lemma base64_encode_length bs :
  length (base64_encode bs) = (4 * ((length bs + 2) / 3))%nat.
Proof.
  induction bs as [bs IH] using list_len_ind.
  destruct bs as [|b1 [|b2 [|b3 rest]]]; [reflexivity..|].
  cbn [base64_encode]. rewrite length_app, IH by (cbn; lia).
  cbn [length b64_quad map].
  replace (S (S (S (length rest))) + 2)%nat with (1 * 3 + (length rest + 2))%nat
    by lia.
  rewrite Nat.div_add_l by lia. lia.
Qed.

(** A base64 character: a member of the alphabet or the padding [=]. *)
Definition b64_alphabet (c : Z) : Prop := is_Some (b64_val c) \/ c = pad.

Lemma b64_quad_alphabet n :
  0 <= n < 2 ^ 24 -> Forall b64_alphabet (b64_quad n).
Proof.
  intros Hn. unfold b64_quad.
  do 4 (constructor; [left; rewrite b64_val_char by zbits; eexists; reflexivity|]).
  constructor.
Qed.

(** Every character of the output is in the alphabet or is [=]. *)
Lemma base64_alphabet_bytes bs :
  Forall byte bs -> Forall b64_alphabet (base64_encode bs).
Proof.
  induction bs as [bs IH] using list_len_ind.
  destruct bs as [|b1 [|b2 [|b3 rest]]]; intros Hb; [constructor| | |].
  all: pose proof Hb as Hall;
       repeat (apply Forall_cons in Hb as [? Hb]); unfold byte in *.
  all: cbn [base64_encode]; apply Forall_app; split.
  all: try (apply Forall_take); try (apply b64_quad_alphabet; lor_to_add; zbits).
  - repeat constructor; right; reflexivity.
  - repeat constructor; right; reflexivity.
  - apply IH; [cbn; lia | exact Hb].
Qed.

(** ** Properties *)

(** C31. Round trip of [Buffer.toString('base64')]: decoding the base64
    text of a byte sequence gives the bytes back. *)
Theorem base64_roundtrip (bs : list Z) :
  Forall byte bs -> base64_decode (base64_encode bs) = Some bs.
Proof. apply base64_decode_encode. Qed.

Lemma base64_roundtrip_witness :
  Forall byte [0; 255; 128; 34] /\
  base64_decode (base64_encode [0; 255; 128; 34]) = Some [0; 255; 128; 34].
Proof. split; [vm_decide|]. apply base64_roundtrip. vm_decide. Defined.

(** C35. Four characters for every started group of three bytes. *)
Theorem base64_length bs :
  length (base64_encode bs) = (4 * ((length bs + 2) / 3))%nat.
Proof. apply base64_encode_length. Qed.

(** C36. Every character of the output is in the base64 alphabet or is [=]. *)
Theorem base64_encode_alphabet bs :
  Forall byte bs -> Forall b64_alphabet (base64_encode bs).
Proof. apply base64_alphabet_bytes. Qed.

Lemma base64_encode_alphabet_witness :
  Forall byte [0; 255; 251] /\ Forall b64_alphabet (base64_encode [0; 255; 251]).
Proof. split; [vm_decide|]. apply base64_encode_alphabet. vm_decide. Defined.
End Base64.
