(* ===== verification/Json.v ===== *)
(** * JSON strings: [JSON.stringify] on a string and its parser

    [encodeDataToBase64String.ts:3] calls [JSON.stringify(data)]; for a
    string this is ECMA-262 [QuoteJSONString]: a double quote, each code
    point of the string escaped or copied, a double quote.  Unpaired
    surrogates are written as [\uXXXX] escapes (lower-case hex), so the
    result never contains one.  [json_parse_string] is the string-literal
    fragment of [JSON.parse], used to state the round trip. *)

From S2P Require Import Prelude JsString.

Module Json.
Import Utf16.
Local Open Scope Z_scope.

(** ** QuoteJSONString *)

Definition hex_digit (n : Z) : Z := if n <? 10 then 48 + n else 87 + n.

(** ECMA-262 UnicodeEscape: [\u] and four lower-case hex digits. *)
Definition unicode_escape (c : Z) : jsstring :=
  [92; 117; hex_digit (Z.land (Z.shiftr c 12) 15);
   hex_digit (Z.land (Z.shiftr c 8) 15);
   hex_digit (Z.land (Z.shiftr c 4) 15); hex_digit (Z.land c 15)].

Definition quote_cp (c : Z) : jsstring :=
  if c =? 0x08 then [92; 98]
  else if c =? 0x09 then [92; 116]
  else if c =? 0x0A then [92; 110]
  else if c =? 0x0C then [92; 102]
  else if c =? 0x0D then [92; 114]
  else if c =? 0x22 then [92; 34]
  else if c =? 0x5C then [92; 92]
  else if (c <? 0x20) || is_surrogate c then unicode_escape c
  else utf16_encode_cp c.

Definition quote_json_string (s : jsstring) : jsstring :=
  [34] ++ flat_map quote_cp (to_code_points s) ++ [34].

(** ** The string-literal fragment of JSON.parse *)

Definition hex_val (c : Z) : option Z :=
  if (48 <=? c) && (c <=? 57) then Some (c - 48)
  else if (97 <=? c) && (c <=? 102) then Some (c - 87)
  else if (65 <=? c) && (c <=? 70) then Some (c - 55)
  else None.

Definition simple_escape (e : Z) : option Z :=
  if e =? 34 then Some 34
  else if e =? 92 then Some 92
  else if e =? 47 then Some 47
  else if e =? 98 then Some 8
  else if e =? 102 then Some 12
  else if e =? 110 then Some 10
  else if e =? 114 then Some 13
  else if e =? 116 then Some 9
  else None.

(** The characters after the opening quote, up to the closing quote,
    which must end the text. *)
Fixpoint parse_string_body (s : jsstring) : option jsstring :=
  match s with
  | [] => None
  | c :: r =>
      if c =? 34 then (if bool_decide (r = []) then Some [] else None)
      else if c =? 92 then
        match r with
        | e :: r' =>
            if e =? 117 then
              match r' with
              | h1 :: h2 :: h3 :: h4 :: r'' =>
                  d1 ← hex_val h1; d2 ← hex_val h2; d3 ← hex_val h3; d4 ← hex_val h4;
                  cons (Z.lor (Z.shiftl d1 12)
                          (Z.lor (Z.shiftl d2 8) (Z.lor (Z.shiftl d3 4) d4)))
                    <$> parse_string_body r''
              | _ => None
              end
            else ch ← simple_escape e; cons ch <$> parse_string_body r'
        | [] => None
        end
      else if c <? 32 then None
      else cons c <$> parse_string_body r
  end.

Definition json_parse_string (s : jsstring) : option jsstring :=
  match s with
  | c :: r => if c =? 34 then parse_string_body r else None
  | [] => None
  end.

(** ** Lemmas *)

Lemma hex_val_digit n : 0 <= n < 16 -> hex_val (hex_digit n) = Some n.
Proof.
  intros H. unfold hex_digit, hex_val. split_guards; zbool;
    first [ f_equal; lia | exfalso; lia ].
Qed.

Lemma parse_unicode_escape c rest :
  0 <= c < 0x10000 ->
  parse_string_body (unicode_escape c ++ rest) = cons c <$> parse_string_body rest.
Proof.
  intros H. unfold unicode_escape. cbn [app parse_string_body Z.eqb Pos.eqb].
  rewrite !hex_val_digit by zbits. cbn [mbind option_bind].
  do 2 f_equal. lor_to_add. zbits.
Qed.

Lemma parse_literal c rest :
  32 <= c -> c <> 34 -> c <> 92 ->
  parse_string_body (c :: rest) = cons c <$> parse_string_body rest.
Proof.
  intros H1 H2 H3. cbn [parse_string_body].
  rewrite (proj2 (Z.eqb_neq c 34)), (proj2 (Z.eqb_neq c 92)),
    (proj2 (Z.ltb_ge c 32)) by lia.
  reflexivity.
Qed.

(** Parsing the quoted form of one code point gives its UTF-16 units. *)
Lemma parse_quote_cp c rest :
  code_point c ->
  parse_string_body (quote_cp c ++ rest) =
  app (utf16_encode_cp c) <$> parse_string_body rest.
Proof.
  unfold code_point. intros Hc. unfold quote_cp.
  split_guards; zbool; subst;
    try (cbn; destruct (parse_string_body rest); reflexivity).
  - rewrite parse_unicode_escape by lia. rewrite utf16_encode_bmp by lia.
    reflexivity.
  - rewrite parse_unicode_escape by (unfold is_surrogate in *; zbool; lia).
    rewrite utf16_encode_bmp by (unfold is_surrogate in *; zbool; lia).
    reflexivity.
  - unfold utf16_encode_cp. destruct (Z.ltb_spec c 0x10000).
    + cbn [app]. rewrite parse_literal by lia.
      destruct (parse_string_body rest); reflexivity.
    + cbn [app]. rewrite !parse_literal by zbits.
      destruct (parse_string_body rest); reflexivity.
Qed.

Lemma parse_quote_json_string (s : jsstring) :
  Forall code_unit s -> json_parse_string (quote_json_string s) = Some s.
Proof.
  intros Hs. unfold quote_json_string. cbn [app json_parse_string Z.eqb Pos.eqb].
  rewrite <- (from_to_code_points s) at 2 by exact Hs.
  pose proof (to_code_points_range s Hs) as Hr.
  induction Hr as [|c cps Hc _ IH]; [reflexivity|].
  cbn [flat_map]. rewrite <- app_assoc, parse_quote_cp by exact Hc.
  rewrite IH. reflexivity.
Qed.
(** ** The quoted text is well formed

    The code points of [QuoteJSONString]'s output: escapes are ASCII,
    everything else is the code point itself, which is then a scalar. *)

Definition quote_points (c : Z) : list Z :=
  if (c <? 0x20) || (c =? 0x22) || (c =? 0x5C) || is_surrogate c then quote_cp c
  else [c].

Definition json_points (s : jsstring) : list Z :=
  [34] ++ flat_map quote_points (to_code_points s) ++ [34].

Definition ascii (c : Z) : Prop := 0 <= c < 128.

Lemma from_code_points_ascii l : Forall ascii l -> from_code_points l = l.
Proof.
  unfold ascii. induction 1 as [|x l Hx _ IH]; [reflexivity|].
  unfold from_code_points in *. cbn [flat_map].
  rewrite utf16_encode_bmp by lia. cbn [app]. f_equal. exact IH.
Qed.

Lemma ascii_scalar c : ascii c -> scalar c.
Proof.
  unfold ascii, scalar, code_point, is_surrogate. intros H.
  split; [lia|]. apply andb_false_iff. left. apply Z.leb_gt. lia.
Qed.

Lemma hex_digit_ascii n : 0 <= n < 16 -> ascii (hex_digit n).
Proof. unfold ascii, hex_digit. intros. split_guards; zbool; lia. Qed.

Lemma unicode_escape_ascii c : Forall ascii (unicode_escape c).
Proof.
  unfold unicode_escape.
  do 2 (constructor; [unfold ascii; lia|]).
  do 4 (constructor; [apply hex_digit_ascii; zbits|]). constructor.
Qed.

Lemma quote_points_spec c :
  code_point c ->
  quote_cp c = from_code_points (quote_points c) /\ Forall scalar (quote_points c).
Proof.
  unfold code_point. intros Hc.
  assert (Hesc : Forall ascii (quote_cp c) -> Forall scalar (quote_cp c) /\
            quote_cp c = from_code_points (quote_cp c)).
  { intros Ha. split; [eapply Forall_impl; [exact Ha | apply ascii_scalar]|].
    symmetry. apply from_code_points_ascii, Ha. }
  unfold quote_points.
  destruct ((c <? 0x20) || (c =? 0x22) || (c =? 0x5C) || is_surrogate c) eqn:He.
  - enough (Forall ascii (quote_cp c)) by (destruct (Hesc H); auto).
    unfold quote_cp. split_guards;
      first [ apply unicode_escape_ascii
            | repeat constructor; unfold ascii; lia
            | exfalso; zbool; unfold is_surrogate in *; zbool; lia ].
  - zbool. unfold quote_cp.
    rewrite (proj2 (Z.eqb_neq c 8)), (proj2 (Z.eqb_neq c 9)),
      (proj2 (Z.eqb_neq c 10)), (proj2 (Z.eqb_neq c 12)),
      (proj2 (Z.eqb_neq c 13)), (proj2 (Z.eqb_neq c 34)),
      (proj2 (Z.eqb_neq c 92)), (proj2 (Z.ltb_ge c 32)) by lia.
    cbn [orb]. match goal with H : is_surrogate c = false |- _ => rewrite H end.
    unfold from_code_points. cbn [flat_map]. rewrite app_nil_r.
    split; [reflexivity|]. constructor; [split; [unfold code_point; lia | assumption]|].
    constructor.
Qed.

Lemma quote_json_string_points (s : jsstring) :
  Forall code_unit s ->
  quote_json_string s = from_code_points (json_points s) /\
  Forall scalar (json_points s).
Proof.
  intros Hs. pose proof (to_code_points_range s Hs) as Hr.
  unfold quote_json_string, json_points, from_code_points.
  rewrite !flat_map_app. cbn [flat_map]. rewrite utf16_encode_bmp by lia.
  assert (flat_map quote_cp (to_code_points s) =
          flat_map utf16_encode_cp (flat_map quote_points (to_code_points s)) /\
          Forall scalar (flat_map quote_points (to_code_points s))) as [Heq Hsc].
  { induction Hr as [|c cps Hc _ [IH1 IH2]]; [split; constructor|].
    destruct (quote_points_spec c Hc) as [Hq Hqs].
    cbn [flat_map]. rewrite flat_map_app, Hq, IH1.
    split; [reflexivity | apply Forall_app; auto]. }
  rewrite Heq. split; [reflexivity|].
  apply Forall_app; split; [|apply Forall_app; split]; auto;
    repeat constructor; apply ascii_scalar; unfold ascii; lia.
Qed.

Lemma quote_json_string_units (s : jsstring) :
  Forall code_unit s -> Forall code_unit (quote_json_string s).
Proof.
  intros Hs. destruct (quote_json_string_points s Hs) as [-> Hsc].
  apply from_code_points_units. eapply Forall_impl; [exact Hsc|]. by intros c [].
Qed.

(** C34. [JSON.stringify] of a string never produces an unpaired surrogate:
    every code point of its result is a Unicode scalar value. *)
Theorem quote_json_string_scalars (s : jsstring) :
  Forall code_unit s -> Forall scalar (to_code_points (quote_json_string s)).
Proof.
  intros Hs. destruct (quote_json_string_points s Hs) as [-> Hsc].
  rewrite to_from_code_points by exact Hsc. exact Hsc.
Qed.

(** C33. [JSON.parse] inverts [JSON.stringify] on every string,
    unpaired surrogates included (they travel as [\\uXXXX] escapes). *)
Theorem json_string_roundtrip (s : jsstring) :
  Forall code_unit s -> json_parse_string (quote_json_string s) = Some s.
Proof. apply parse_quote_json_string. Qed.

Lemma json_string_roundtrip_witness :
  Forall code_unit [34; 92; 10; 0xD800; 97] /\
  json_parse_string (quote_json_string [34; 92; 10; 0xD800; 97])
  = Some [34; 92; 10; 0xD800; 97].
Proof. split; [vm_decide|]. apply json_string_roundtrip. vm_decide. Defined.

Lemma quote_json_string_scalars_witness :
  Forall code_unit [0xDC00; 97] /\
  Forall scalar (to_code_points (quote_json_string [0xDC00; 97])).
Proof. split; [vm_decide|]. apply quote_json_string_scalars. vm_decide. Defined.
End Json.
