(* ===== verification/JsValue.v ===== *)
(** * JavaScript values, exceptions and the operations the plugin applies

    The values the plugin handles come from [JSON.parse] (the RPC response,
    [celestiaRequest.ts:32]), from the model ([generateObjectDeprecated],
    [submitBlob.ts:66]) and from object literals of the source.  This file
    models them as an inductive type of JSON-like values plus [undefined],
    the exceptions the code throws and catches, and the built-in operations
    the code applies to values: [JSON.stringify] ([SerializeJSONProperty]),
    property reads [v.k] and [v[i]], truthiness ([!v], [if (v)]), and the
    string conversion of template literals.  It ends with the well-formed
    values (strings of code units), an induction principle through arrays
    and objects, and decidable equality ([value_eqb], [EqDecision]). *)

From S2P Require Import Prelude JsString Json.
From Stdlib Require DecimalString.

Module JsValue.
Import Utf16 Json.
Local Open Scope Z_scope.

(** ** Exceptions: [Error] objects with a name and a message *)

Record exn := mk_exn { ex_name : jsstring; ex_message : jsstring }.

Definition Error (msg : jsstring) : exn := mk_exn ‹"Error"› msg.
Definition TypeError (msg : jsstring) : exn := mk_exn ‹"TypeError"› msg.

(** [Error.prototype.toString]. *)
Definition exn_to_string (e : exn) : jsstring :=
  if bool_decide (ex_message e = []) then ex_name e
  else if bool_decide (ex_name e = []) then ex_message e
  else ex_name e ++ ‹": "› ++ ex_message e.

#[export] Instance exn_eq_dec : EqDecision exn.
Proof. solve_decision. Defined.

(** ** Values

    Numbers are integers (the only numbers the plugin builds are the
    request id [1] and array indices); objects are their own properties
    in enumeration order. *)

Scheme All for list.
Scheme All for prod.

Inductive value :=
| VUndefined
| VNull
| VBool (b : bool)
| VNum (n : Z)
| VStr (s : jsstring)
| VArr (xs : list value)
| VObj (props : list (jsstring * value)).

(** [Number.prototype.toString] on an integer: its decimal numeral. *)
Definition number_to_string (n : Z) : jsstring :=
  js (DecimalString.NilZero.string_of_int (Z.to_int n)).

(** [Array.prototype.join]. *)
Fixpoint js_join (sep : jsstring) (parts : list jsstring) : jsstring :=
  match parts with
  | [] => []
  | [p] => p
  | p :: ps => p ++ sep ++ js_join sep ps
  end.

(** ** JSON.stringify (SerializeJSONProperty); [None] is [undefined] *)

Fixpoint stringify (v : value) : option jsstring :=
  match v with
  | VUndefined => None
  | VNull => Some ‹"null"›
  | VBool b => Some (if b then ‹"true"› else ‹"false"›)
  | VNum n => Some (number_to_string n)
  | VStr s => Some (quote_json_string s)
  | VArr xs =>
      Some ([91] ++ js_join [44]
        ((fix go (xs : list value) : list jsstring :=
            match xs with
            | [] => []
            | x :: r => default ‹"null"› (stringify x) :: go r
            end) xs) ++ [93])
  | VObj ps =>
      Some ([123] ++ js_join [44]
        ((fix go (ps : list (jsstring * value)) : list jsstring :=
            match ps with
            | [] => []
            | (k, x) :: r =>
                match stringify x with
                | Some t => (quote_json_string k ++ [58] ++ t) :: go r
                | None => go r
                end
            end) ps) ++ [125])
  end.

(** ** ToBoolean *)

Definition truthy (v : value) : bool :=
  match v with
  | VUndefined | VNull => false
  | VBool b => b
  | VNum n => negb (n =? 0)
  | VStr s => negb (bool_decide (s = []))
  | VArr _ | VObj _ => true
  end.

(** ** Property reads

    [get_prop v k] is [v[k]] for the keys the plugin reads ([result],
    [0], [tx_hash], [data]): none of them names a property of the
    built-in prototypes, so only own properties, array and string indices
    and [length] matter.  Reading from [undefined] or [null] throws V8's
    [TypeError]. *)

Fixpoint digits_value (k : jsstring) (acc : Z) : option Z :=
  match k with
  | [] => Some acc
  | c :: r =>
      if (48 <=? c) && (c <=? 57) then digits_value r (acc * 10 + (c - 48)) else None
  end.

(** A canonical array index: ["0"] or digits without a leading zero. *)
Definition array_index (k : jsstring) : option nat :=
  match k with
  | [] => None
  | c :: r =>
      if c =? 48 then (if bool_decide (r = []) then Some 0%nat else None)
      else Z.to_nat <$> digits_value k 0
  end.

Fixpoint prop_lookup (k : jsstring) (ps : list (jsstring * value)) : option value :=
  match ps with
  | [] => None
  | (k', v) :: r => if bool_decide (k = k') then Some v else prop_lookup k r
  end.

Definition read_error (what k : jsstring) : exn :=
  TypeError (‹"Cannot read properties of "› ++ what ++ ‹" (reading '"› ++ k ++ ‹"')"›).

Definition get_prop (v : value) (k : jsstring) : exn + value :=
  match v with
  | VUndefined => inl (read_error ‹"undefined"› k)
  | VNull => inl (read_error ‹"null"› k)
  | VObj ps => inr (default VUndefined (prop_lookup k ps))
  | VArr xs =>
      inr (match array_index k with
           | Some i => default VUndefined (xs !! i)
           | None =>
               if bool_decide (k = ‹"length"›) then VNum (Z.of_nat (length xs))
               else VUndefined
           end)
  | VStr s =>
      inr (match array_index k with
           | Some i => from_option (fun c => VStr [c]) VUndefined (s !! i)
           | None =>
               if bool_decide (k = ‹"length"›) then VNum (Z.of_nat (length s))
               else VUndefined
           end)
  | VBool _ | VNum _ => inr VUndefined
  end.

(** Optional chaining [v?.k]. *)
Definition get_opt (v : value) (k : jsstring) : exn + value :=
  match v with
  | VUndefined | VNull => inr VUndefined
  | _ => get_prop v k
  end.

(** ** ToString, as used by template literals *)

Fixpoint to_js_string (v : value) : jsstring :=
  match v with
  | VUndefined => ‹"undefined"›
  | VNull => ‹"null"›
  | VBool b => if b then ‹"true"› else ‹"false"›
  | VNum n => number_to_string n
  | VStr s => s
  | VArr xs =>
      js_join [44]
        ((fix go (xs : list value) : list jsstring :=
            match xs with
            | [] => []
            | (VUndefined | VNull) :: r => [] :: go r
            | x :: r => to_js_string x :: go r
            end) xs)
  | VObj _ => ‹"[object Object]"›
  end.
(** ** Well-formed values

    The values the plugin meets hold code units in their strings and
    keys: [JSON.parse] and the model's answers produce nothing else. *)

Fixpoint wf_value (v : value) : bool :=
  match v with
  | VStr s => bool_decide (Forall code_unit s)
  | VArr xs => forallb wf_value xs
  | VObj ps => forallb (fun '(k, x) => bool_decide (Forall code_unit k) && wf_value x) ps
  | VUndefined | VNull | VBool _ | VNum _ => true
  end.

(** Induction on values through their arrays and objects. *)
Section ValueInd.
Variable P : value -> Prop.
Hypothesis H_undefined : P VUndefined.
Hypothesis H_null : P VNull.
Hypothesis H_bool : forall b, P (VBool b).
Hypothesis H_num : forall n, P (VNum n).
Hypothesis H_str : forall s, P (VStr s).
Hypothesis H_arr : forall xs, Forall P xs -> P (VArr xs).
Hypothesis H_obj : forall ps, Forall (fun kx => P kx.2) ps -> P (VObj ps).

Fixpoint value_ind' (v : value) : P v :=
  match v with
  | VUndefined => H_undefined
  | VNull => H_null
  | VBool b => H_bool b
  | VNum n => H_num n
  | VStr s => H_str s
  | VArr xs =>
      H_arr xs ((fix go (xs : list value) : Forall P xs :=
                   match xs with
                   | [] => List.Forall_nil _
                   | x :: r => List.Forall_cons _ x r (value_ind' x) (go r)
                   end) xs)
  | VObj ps =>
      H_obj ps ((fix go (ps : list (jsstring * value)) : Forall (fun kx => P kx.2) ps :=
                   match ps with
                   | [] => List.Forall_nil _
                   | (k, x) :: r => List.Forall_cons _ (k, x) r (value_ind' x) (go r)
                   end) ps)
  end.
End ValueInd.

Lemma js_join_units sep parts :
  Forall code_unit sep -> Forall (Forall code_unit) parts ->
  Forall code_unit (js_join sep parts).
Proof.
  intros Hs. induction 1 as [|p ps Hp Hps IH]; [constructor|].
  destruct ps; cbn; [exact Hp|]. repeat (apply Forall_app; split); auto.
Qed.

Lemma bracket_units (l r : Z) (body : jsstring) :
  0 <= l < 128 -> 0 <= r < 128 -> Forall code_unit body ->
  Forall code_unit ([l] ++ body ++ [r]).
Proof.
  intros Hl Hr Hb. apply Forall_app; split; [repeat constructor; unfold code_unit; lia|].
  apply Forall_app; split; [exact Hb|repeat constructor; unfold code_unit; lia].
Qed.

(** [JSON.stringify] of a well-formed value is a string of code units. *)
Lemma stringify_units v t : wf_value v = true -> stringify v = Some t -> Forall code_unit t.
Proof.
  revert t. induction v as [| | b | n | s | xs IH | ps IH] using value_ind';
    intros t Hwf Ht; cbn [stringify] in Ht; simplify_eq; cbn [wf_value] in Hwf.
  - apply js_units.
  - destruct b; apply js_units.
  - apply js_units.
  - apply quote_json_string_units. by apply bool_decide_eq_true in Hwf.
  - apply bracket_units; [lia..|].
    apply js_join_units; [repeat constructor; unfold code_unit; lia|].
    induction IH as [|x r Hx _ IHr]; [constructor|].
    apply andb_true_iff in Hwf as [Hx' Hr]. constructor; [|by apply IHr].
    destruct (stringify x) eqn:E; cbn [default]; [by apply Hx|apply js_units].
  - apply bracket_units; [lia..|].
    apply js_join_units; [repeat constructor; unfold code_unit; lia|].
    induction IH as [|[k x] r Hx _ IHr]; [constructor|].
    apply andb_true_iff in Hwf as [Hkx Hr].
    apply andb_true_iff in Hkx as [Hk%bool_decide_eq_true Hx'].
    cbn -[stringify quote_json_string js]. destruct (stringify x) eqn:E; [|by apply IHr].
    constructor; [|by apply IHr].
    apply Forall_app; split; [by apply quote_json_string_units|].
    constructor; [unfold code_unit; lia|]. by apply Hx.
Qed.

(** ** Decidable equality of values *)

Fixpoint value_eqb (v1 v2 : value) : bool :=
  match v1, v2 with
  | VUndefined, VUndefined | VNull, VNull => true
  | VBool a, VBool b => Bool.eqb a b
  | VNum a, VNum b => Z.eqb a b
  | VStr a, VStr b => bool_decide (a = b)
  | VArr xs, VArr ys =>
      (fix go (xs ys : list value) : bool :=
         match xs, ys with
         | [], [] => true
         | x :: xs', y :: ys' => value_eqb x y && go xs' ys'
         | _, _ => false
         end) xs ys
  | VObj ps, VObj qs =>
      (fix go (ps qs : list (jsstring * value)) : bool :=
         match ps, qs with
         | [], [] => true
         | (k, x) :: ps', (k', y) :: qs' => bool_decide (k = k') && value_eqb x y && go ps' qs'
         | _, _ => false
         end) ps qs
  | _, _ => false
  end.

Lemma value_eqb_spec v1 v2 : value_eqb v1 v2 = true <-> v1 = v2.
Proof.
  revert v2. induction v1 as [| | b | n | s | xs IH | ps IH] using value_ind';
    intros []; cbn; split; intros H; simplify_eq; try done.
  - by apply Bool.eqb_prop in H as ->.
  - apply Bool.eqb_reflx.
  - by apply Z.eqb_eq in H as ->.
  - apply Z.eqb_refl.
  - by apply bool_decide_eq_true in H as ->.
  - by apply bool_decide_eq_true.
  - f_equal. revert xs0 H. induction IH as [|x xs Hx _ IHxs]; intros [|y ys] H; try done.
    apply andb_true_iff in H as [Hxy Hr]. apply Hx in Hxy as ->. f_equal. by apply IHxs.
  - induction IH as [|x xs Hx _ IHxs]; [done|]. apply andb_true_iff; split; [by apply Hx|done].
  - f_equal. revert props H. induction IH as [|[k x] ps Hx _ IHps]; intros [|[k' y] qs] H; try done.
    cbn [snd] in Hx. apply andb_true_iff in H as [[Hk Hxy]%andb_true_iff Hr].
    apply bool_decide_eq_true in Hk as ->. apply Hx in Hxy as ->. f_equal. by apply IHps.
  - induction IH as [|[k x] ps Hx _ IHps]; [done|]. cbn [snd] in Hx.
    apply andb_true_iff; split; [|done]. apply andb_true_iff; split; [by apply bool_decide_eq_true|].
    by apply Hx.
Qed.

#[export] Instance value_eq_dec : EqDecision value.
Proof.
  intros v1 v2. destruct (value_eqb v1 v2) eqn:E.
  - left. by apply value_eqb_spec.
  - right. intros H%value_eqb_spec. congruence.
Defined.

(** [v?.k] agrees with [v.k] wherever [v.k] is defined. *)
Lemma get_opt_prop v k x : get_prop v k = inr x -> get_opt v k = inr x.
Proof. by destruct v. Qed.

End JsValue.
