(* ===== verification/Encoder.v ===== *)
(** * The blob encoder: [encodeDataToBase64String]

    [functions/encodeDataToBase64String.ts]:
    [JSON.stringify(data)], then [Buffer.from(dataString).toString('base64')],
    inside a [try] whose [catch] rethrows [new Error(error.toString())].
    The only way the body can throw is [Buffer.from(undefined)], when
    [JSON.stringify] returns [undefined].

    The round trip is proved by composing three codecs (JSON string,
    UTF-8, base64) with [codec_compose] from the prelude. *)

From S2P Require Import Prelude JsString Utf8 Base64 Json JsValue.

Module Encoder.
Import Utf16 Utf8 Base64 Json JsValue.
Local Open Scope Z_scope.

(** Node's message for [Buffer.from(undefined)]. *)
Definition buffer_from_undefined : exn :=
  mk_exn ‹"TypeError [ERR_INVALID_ARG_TYPE]"›
    ‹"The first argument must be of type string or an instance of Buffer, ArrayBuffer, or Array or an Array-like Object. Received undefined"›.

Definition encodeDataToBase64String (data : value) : exn + jsstring :=
  match stringify data with
  | Some dataString => inr (base64_encode (buffer_from_string dataString))
  | None => inl (Error (exn_to_string buffer_from_undefined))
  end.

(** ** Decoding, for the statement of the round trip *)

(** base64, then UTF-8: the text the encoder started from. *)
Definition decode_text (t : jsstring) : option jsstring :=
  from_code_points <$> (base64_decode t ≫= utf8_decode).

(** ... then [JSON.parse] of that text. *)
Definition decode_payload (t : jsstring) : option jsstring :=
  decode_text t ≫= json_parse_string.

(** ** The JSON stage as a codec *)

Lemma json_stage_law (s : jsstring) :
  Forall code_unit s -> json_parse_string (from_code_points (json_points s)) = Some s.
Proof.
  intros Hs. destruct (quote_json_string_points s Hs) as [<- _].
  apply parse_quote_json_string, Hs.
Qed.

Definition json_codec : codec jsstring (list Z) := {|
  cd_enc := json_points;
  cd_dec := fun cps => json_parse_string (from_code_points cps);
  cd_dom := Forall code_unit;
  cd_law := json_stage_law
|}.

Lemma json_utf8_dom s : cd_dom json_codec s -> cd_dom utf8_codec (cd_enc json_codec s).
Proof. intros Hs. apply (quote_json_string_points s Hs). Qed.

Lemma utf8_base64_dom cps :
  cd_dom utf8_codec cps -> cd_dom base64_codec (cd_enc utf8_codec cps).
Proof.
  cbn. intros H. apply Forall_flat_map. eapply Forall_impl; [exact H|].
  intros cp [Hcp _]. apply utf8_encode_cp_bytes, Hcp.
Qed.

Definition payload_codec : codec jsstring jsstring :=
  codec_compose (codec_compose json_codec utf8_codec json_utf8_dom)
    base64_codec
    (fun s Hs => utf8_base64_dom _ (json_utf8_dom s Hs)).

(** The encoder computes the composed codec's encoding. *)
Lemma encode_string_codec (s : jsstring) :
  Forall code_unit s ->
  encodeDataToBase64String (VStr s) = inr (cd_enc payload_codec s).
Proof.
  intros Hs. unfold encodeDataToBase64String. cbn [stringify].
  destruct (quote_json_string_points s Hs) as [-> Hsc].
  rewrite buffer_from_string_scalars by exact Hsc. reflexivity.
Qed.

Lemma decode_payload_codec t : decode_payload t = cd_dec payload_codec t.
Proof.
  unfold decode_payload, decode_text. cbn.
  unfold codec_compose_dec. cbn.
  destruct (base64_decode t) as [bs|]; cbn; [|reflexivity].
  destruct (utf8_decode bs); reflexivity.
Qed.
(** A string payload is encoded, and decodes back. *)
Lemma encode_string_payload (s : jsstring) :
  Forall code_unit s ->
  exists t, encodeDataToBase64String (VStr s) = inr t /\ decode_payload t = Some s.
Proof.
  intros Hs. exists (cd_enc payload_codec s). split.
  - apply encode_string_codec, Hs.
  - rewrite decode_payload_codec. apply (cd_law payload_codec), Hs.
Qed.

(** ** Properties *)

(** C1. Round trip of the blob encoder: for every JavaScript string,
    [encodeDataToBase64String] returns (does not throw) a text from which
    base64 decoding, UTF-8 decoding and [JSON.parse] recover the string,
    lone surrogates included. *)
Theorem encodeDataToBase64String_roundtrip (s : jsstring) :
  Forall code_unit s ->
  exists t, encodeDataToBase64String (VStr s) = inr t /\ decode_payload t = Some s.
Proof. apply encode_string_payload. Qed.

Lemma encodeDataToBase64String_roundtrip_witness :
  Forall code_unit ‹"Hello World!"› /\
  exists t, encodeDataToBase64String (VStr ‹"Hello World!"›) = inr t /\
            decode_payload t = Some ‹"Hello World!"›.
Proof.
  split; [repeat constructor; unfold code_unit; lia|].
  apply encodeDataToBase64String_roundtrip.
  repeat constructor; unfold code_unit; lia.
Defined.

(** C12. Decoding base64 and then UTF-8 gives back exactly the text of
    [JSON.stringify(s)]: the UTF-8 step never replaces a character. *)
Theorem encodeDataToBase64String_decodes_to_json (s : jsstring) :
  Forall code_unit s ->
  exists t, encodeDataToBase64String (VStr s) = inr t /\
            decode_text t = Some (quote_json_string s).
Proof.
  intros Hs. destruct (quote_json_string_points s Hs) as [Hq Hsc].
  exists (cd_enc payload_codec s). split; [apply encode_string_codec, Hs|].
  change (cd_enc payload_codec s)
    with (base64_encode (flat_map utf8_encode_cp (json_points s))).
  unfold decode_text.
  rewrite base64_decode_encode by exact (utf8_base64_dom _ Hsc). cbn [mbind option_bind].
  rewrite utf8_decode_encode by exact Hsc. cbn [fmap option_fmap option_map].
  rewrite Hq. reflexivity.
Qed.

Lemma encodeDataToBase64String_decodes_to_json_witness :
  Forall code_unit [97; 0xD800; 98] /\
  exists t, encodeDataToBase64String (VStr [97; 0xD800; 98]) = inr t /\
            decode_text t = Some (quote_json_string [97; 0xD800; 98]).
Proof.
  split; [repeat constructor; unfold code_unit; lia|].
  apply encodeDataToBase64String_decodes_to_json.
  repeat constructor; unfold code_unit; lia.
Defined.

(** C30. The encoder throws exactly when its argument is [undefined]
    ([JSON.stringify] returns [undefined] and [Buffer.from] rejects it);
    the rethrown error's message is the [toString] of Node's error. *)
Theorem encodeDataToBase64String_throws_iff (v : value) :
  (exists e, encodeDataToBase64String v = inl e) <-> v = VUndefined.
Proof.
  unfold encodeDataToBase64String.
  split; [|intros ->; eexists; reflexivity].
  intros [e He]. destruct v; cbn in He; try discriminate. reflexivity.
Qed.

(** C26. The type of the encoder's output: for every well-formed value
    that serialises, the result is a base64 text, made of alphabet
    characters and padding, whose length is a multiple of four. *)
Theorem encodeDataToBase64String_base64 (v : value) (t : jsstring) :
  wf_value v = true -> encodeDataToBase64String v = inr t ->
  Forall b64_alphabet t /\ (length t mod 4 = 0)%nat.
Proof.
  unfold encodeDataToBase64String. intros Hwf Ht.
  destruct (stringify v) as [s|] eqn:Hs; [|discriminate]. injection Ht as <-.
  split; [apply base64_alphabet_bytes, buffer_from_string_bytes, (stringify_units v s Hwf Hs)|].
  rewrite base64_encode_length, Nat.mul_comm. apply Nat.Div0.mod_mul.
Qed.

Lemma encodeDataToBase64String_base64_witness :
  let v := VObj [(‹"data"›, VArr [VStr [0xD800; 97]; VNum 42; VNull])] in
  wf_value v = true /\
  encodeDataToBase64String v = inr ‹"eyJkYXRhIjpbIlx1ZDgwMGEiLDQyLG51bGxdfQ=="› /\
  Forall b64_alphabet ‹"eyJkYXRhIjpbIlx1ZDgwMGEiLDQyLG51bGxdfQ=="› /\
  (length ‹"eyJkYXRhIjpbIlx1ZDgwMGEiLDQyLG51bGxdfQ=="› mod 4 = 0)%nat.
Proof.
  intros v. assert (Hw : wf_value v = true) by (vm_compute; reflexivity).
  assert (He : encodeDataToBase64String v = inr ‹"eyJkYXRhIjpbIlx1ZDgwMGEiLDQyLG51bGxdfQ=="›)
    by (vm_compute; reflexivity).
  split; [exact Hw|]. split; [exact He|].
  exact (encodeDataToBase64String_base64 v _ Hw He).
Defined.

(** The scenario of the specification: the payload [Hello World!]. *)
Example encode_hello_world :
  encodeDataToBase64String (VStr ‹"Hello World!"›) = inr ‹"IkhlbGxvIFdvcmxkISI="›.
Proof. vm_compute. reflexivity. Qed.

(** A lone surrogate is escaped, a surrogate pair becomes four bytes. *)
Example encode_surrogates :
  encodeDataToBase64String (VStr [97; 0xD800; 98; 0xD83D; 0xDE00])
  = inr ‹"ImFcdWQ4MDBi8J+YgCI="›.
Proof. vm_compute. reflexivity. Qed.
End Encoder.
