(* ===== verification/Io.v ===== *)
(** * Effects: the asynchronous operations of the plugin

    The plugin's functions are [async] and await five kinds of operations:
    the agent runtime's state composition ([runtime.composeState],
    [runtime.updateRecentMessageState]), the model call
    ([generateObjectDeprecated] on [composeContext]'s prompt), the shell
    ([execAsync], [fetchAuthKeyFromLightNode.ts:13]) and HTTP ([fetch] and
    [response.json()], [celestiaRequest.ts:18-32]).  They also log and call
    the action's callback, which they do not await.

    A program is a tree [io A] of these operations ending in a value or a
    thrown exception; [bind] is [await] sequencing and [catch] is
    [try]/[catch].  A [world] answers each operation; [run] interprets a
    program in a world and returns the trace of operations performed with
    the outcome.  A world is a function per kind of operation, which is
    general for one invocation of the handler: it performs each kind of
    request at most once, except logging and callbacks, which get no
    answer. *)

From S2P Require Import Prelude JsString JsValue.

Module Io.
Import JsValue.

Inductive level := LInfo | LSuccess | LError.

(** The [init] argument of [fetch(url, init)]. *)
Record fetch_init := mk_init {
  fi_method : jsstring;
  fi_headers : list (jsstring * jsstring);
  fi_body : jsstring
}.

(** What [await fetch(..)] and [await response.json()] give: a rejected
    fetch, or a response whose body is JSON ([Some v]) or is not
    ([None], where [response.json()] rejects). *)
Inductive http_answer :=
| HttpFailed (e : exn)
| HttpResponse (body : option value).

Inductive io (A : Type) : Type :=
| Ret (a : A)
| Throw (e : exn)
| Log (lvl : level) (msg : jsstring) (k : io A)
| Callback (text : jsstring) (content : value) (k : io A)
| ComposeState (memory : value) (k : exn + value -> io A)
| UpdateState (st : value) (k : exn + value -> io A)
| Generate (st : value) (template : jsstring) (k : exn + value -> io A)
| Exec (cmd : jsstring) (k : exn + jsstring -> io A)
| Fetch (url : jsstring) (init : fetch_init) (k : http_answer -> io A).

Arguments Ret {A} a.
Arguments Throw {A} e.
Arguments Log {A} lvl msg k.
Arguments Callback {A} text content k.
Arguments ComposeState {A} memory k.
Arguments UpdateState {A} st k.
Arguments Generate {A} st template k.
Arguments Exec {A} cmd k.
Arguments Fetch {A} url init k.

Fixpoint bind {A B} (p : io A) (f : A -> io B) : io B :=
  match p with
  | Ret a => f a
  | Throw e => Throw e
  | Log l m k => Log l m (bind k f)
  | Callback t c k => Callback t c (bind k f)
  | ComposeState m k => ComposeState m (fun r => bind (k r) f)
  | UpdateState s k => UpdateState s (fun r => bind (k r) f)
  | Generate s t k => Generate s t (fun r => bind (k r) f)
  | Exec c k => Exec c (fun r => bind (k r) f)
  | Fetch u i k => Fetch u i (fun r => bind (k r) f)
  end.

(** [try { p } catch (e) { h(e) }]. *)
Fixpoint catch {A} (p : io A) (h : exn -> io A) : io A :=
  match p with
  | Ret a => Ret a
  | Throw e => h e
  | Log l m k => Log l m (catch k h)
  | Callback t c k => Callback t c (catch k h)
  | ComposeState m k => ComposeState m (fun r => catch (k r) h)
  | UpdateState s k => UpdateState s (fun r => catch (k r) h)
  | Generate s t k => Generate s t (fun r => catch (k r) h)
  | Exec c k => Exec c (fun r => catch (k r) h)
  | Fetch u i k => Fetch u i (fun r => catch (k r) h)
  end.

Declare Scope io_scope.
Delimit Scope io_scope with io.
Notation "x <- c1 ;; c2" := (bind c1 (fun x => c2))
  (at level 100, c1 at next level, right associativity) : io_scope.
Notation "c1 ;; c2" := (bind c1 (fun _ => c2))
  (at level 100, right associativity) : io_scope.
Open Scope io_scope.

(** A settled promise: its value, or its rejection rethrown. *)
Definition raise {A} (r : exn + A) : io A :=
  match r with inl e => Throw e | inr a => Ret a end.

Definition log (l : level) (m : jsstring) : io unit := Log l m (Ret tt).
Definition callback (t : jsstring) (c : value) : io unit := Callback t c (Ret tt).

(** The rejection of [response.json()] on a body that is not JSON. *)
Definition json_syntax_error : exn :=
  mk_exn ‹"SyntaxError"› ‹"Unexpected token in JSON"›.

Definition await_fetch (url : jsstring) (init : fetch_init) : io value :=
  Fetch url init (fun a =>
    match a with
    | HttpFailed e => Throw e
    | HttpResponse None => Throw json_syntax_error
    | HttpResponse (Some v) => Ret v
    end).

(** ** Worlds and traces *)

Record world := {
  w_compose_state : value -> exn + value;
  w_update_state : value -> exn + value;
  w_generate : value -> jsstring -> exn + value;
  w_exec : jsstring -> exn + jsstring;
  w_fetch : jsstring -> fetch_init -> http_answer
}.

Inductive event :=
| EvLog (lvl : level) (msg : jsstring)
| EvCallback (text : jsstring) (content : value)
| EvComposeState
| EvUpdateState
| EvGenerate (template : jsstring)
| EvExec (cmd : jsstring)
| EvFetch (url : jsstring) (init : fetch_init).

#[export] Instance level_eq_dec : EqDecision level.
Proof. solve_decision. Defined.
#[export] Instance fetch_init_eq_dec : EqDecision fetch_init.
Proof. solve_decision. Defined.
#[export] Instance event_eq_dec : EqDecision event.
Proof. solve_decision. Defined.

Fixpoint run {A} (w : world) (p : io A) : list event * (exn + A) :=
  match p with
  | Ret a => ([], inr a)
  | Throw e => ([], inl e)
  | Log l m k => let '(tr, r) := run w k in (EvLog l m :: tr, r)
  | Callback t c k => let '(tr, r) := run w k in (EvCallback t c :: tr, r)
  | ComposeState m k =>
      let '(tr, r) := run w (k (w_compose_state w m)) in (EvComposeState :: tr, r)
  | UpdateState s k =>
      let '(tr, r) := run w (k (w_update_state w s)) in (EvUpdateState :: tr, r)
  | Generate s t k =>
      let '(tr, r) := run w (k (w_generate w s t)) in (EvGenerate t :: tr, r)
  | Exec c k => let '(tr, r) := run w (k (w_exec w c)) in (EvExec c :: tr, r)
  | Fetch u i k => let '(tr, r) := run w (k (w_fetch w u i)) in (EvFetch u i :: tr, r)
  end.

(** ** The laws of [run] *)

Section RunLaws.
Context (w : world).

Lemma run_bind {A B} (p : io A) (f : A -> io B) :
  run w (bind p f) =
  let '(tr1, r) := run w p in
  match r with
  | inl e => (tr1, inl e)
  | inr a => let '(tr2, r2) := run w (f a) in (tr1 ++ tr2, r2)
  end.
Proof.
  induction p; cbn;
    repeat match goal with
    | H : forall _ : _, run w (bind _ f) = _ |- _ => rewrite H
    | IH : run w (bind ?k f) = _ |- context [run w (bind ?k f)] => rewrite IH
    end;
    repeat (case_match; simplify_eq/=); auto.
Qed.

Lemma run_catch {A} (p : io A) (h : exn -> io A) :
  run w (catch p h) =
  let '(tr1, r) := run w p in
  match r with
  | inl e => let '(tr2, r2) := run w (h e) in (tr1 ++ tr2, r2)
  | inr a => (tr1, inr a)
  end.
Proof.
  induction p; cbn;
    repeat match goal with
    | H : forall _ : _, run w (catch _ h) = _ |- _ => rewrite H
    | IH : run w (catch ?k h) = _ |- context [run w (catch ?k h)] => rewrite IH
    end;
    repeat (case_match; simplify_eq/=); rewrite ?app_nil_r; auto.
Qed.

Lemma run_raise {A} (r : exn + A) : run w (raise r) = ([], r).
Proof. destruct r; reflexivity. Qed.
End RunLaws.
End Io.
