(* ===== verification/Semantics.v ===== *)
(** * Small-step semantics of the awaited operations

    [Io.run] interprets a program in one go.  This file gives the
    operational reading of the same programs: a configuration is the
    program that remains to run, a [step] performs one awaited operation
    (labelled with its [event]) and continues with the world's answer, and
    [steps] chains steps while collecting their trace.  [step_fn] is the
    executable form of [step].

    The theorems relate the two readings: the steps of a program are
    deterministic, every configuration that has not ended can step, every
    trace of steps is a prefix of the trace [run] computes, and [run]
    returns exactly the traces and outcomes of the terminated executions.

    [io_equiv] (same trace and outcome in every world) is the equivalence of
    programs under which [bind] and [catch] are [Proper], so that a part of
    a program can be replaced by an equivalent one by setoid rewriting. *)

From Stdlib Require Import Morphisms.
From S2P Require Import Prelude JsString JsValue Io.

Module Semantics.
Import JsValue Io.

Section Step.
Context (w : world) {A : Type}.

(** One awaited operation: the event it performs and what remains. *)
Inductive step : io A -> event -> io A -> Prop :=
| step_log l m k : step (Log l m k) (EvLog l m) k
| step_callback t c k : step (Callback t c k) (EvCallback t c) k
| step_compose m k : step (ComposeState m k) EvComposeState (k (w_compose_state w m))
| step_update s k : step (UpdateState s k) EvUpdateState (k (w_update_state w s))
| step_generate s t k : step (Generate s t k) (EvGenerate t) (k (w_generate w s t))
| step_exec c k : step (Exec c k) (EvExec c) (k (w_exec w c))
| step_fetch u i k : step (Fetch u i k) (EvFetch u i) (k (w_fetch w u i)).

(** Finitely many steps and the trace of their events. *)
Inductive steps : io A -> list event -> io A -> Prop :=
| steps_refl p : steps p [] p
| steps_cons p e p' tr p'' : step p e p' -> steps p' tr p'' -> steps p (e :: tr) p''.

(** The executable step. *)
Definition step_fn (p : io A) : option (event * io A) :=
  match p with
  | Ret _ | Throw _ => None
  | Log l m k => Some (EvLog l m, k)
  | Callback t c k => Some (EvCallback t c, k)
  | ComposeState m k => Some (EvComposeState, k (w_compose_state w m))
  | UpdateState s k => Some (EvUpdateState, k (w_update_state w s))
  | Generate s t k => Some (EvGenerate t, k (w_generate w s t))
  | Exec c k => Some (EvExec c, k (w_exec w c))
  | Fetch u i k => Some (EvFetch u i, k (w_fetch w u i))
  end.

(** The outcome of a configuration that has ended. *)
Definition final (p : io A) : option (exn + A) :=
  match p with Ret a => Some (inr a) | Throw e => Some (inl e) | _ => None end.

(** An execution that has ended with trace [tr] and outcome [r]. *)
Definition terminates_with (p : io A) (tr : list event) (r : exn + A) : Prop :=
  exists q, steps p tr q /\ final q = Some r.

(** ** The step relation *)

Lemma step_fn_spec p e q : step p e q <-> step_fn p = Some (e, q).
Proof.
  split; [by destruct 1|].
  destruct p; cbn; intros H; simplify_eq; constructor.
Qed.

Lemma step_det p e1 q1 e2 q2 : step p e1 q1 -> step p e2 q2 -> e1 = e2 /\ q1 = q2.
Proof. rewrite !step_fn_spec. intros H1 H2. rewrite H1 in H2. by simplify_eq. Qed.

Lemma final_stuck p r e q : final p = Some r -> ~ step p e q.
Proof. intros Hf Hs. destruct Hs; discriminate. Qed.

Lemma progress p : final p = None -> exists e q, step p e q.
Proof. destruct p; cbn; try discriminate; intros _; eexists _, _; constructor. Qed.

Lemma steps_app p tr1 q tr2 r :
  steps p tr1 q -> steps q tr2 r -> steps p (tr1 ++ tr2) r.
Proof. induction 1; [done|]. intros. econstructor; eauto. Qed.

Lemma run_step p e q : step p e q -> run w p = let '(tr, r) := run w q in (e :: tr, r).
Proof. destruct 1; cbn; reflexivity. Qed.

(** ** [run] and the steps *)

(** The trace of [run] is the trace of a terminated execution. *)
Lemma run_terminates p : terminates_with p (fst (run w p)) (snd (run w p)).
Proof.
  unfold terminates_with.
  induction p as [a|e|l m k IH|t c k IH|m k IH|s k IH|s t k IH|c k IH|u i k IH];
    [exists (Ret a); split; [constructor|reflexivity]
    |exists (Throw e); split; [constructor|reflexivity]|..];
    cbn [run];
    repeat match goal with
    | IH : forall _, exists _, steps (?k _) _ _ /\ _ |- context [run w (?k ?x)] =>
        specialize (IH x)
    end;
    destruct (run w _) as [tr r]; destruct IH as (q & Hs & Hq);
    exists q; (split; [econstructor; [constructor|exact Hs]|exact Hq]).
Qed.

(** Every execution is a prefix of the one [run] computes, and [run]
    continues it with the rest of that trace. *)
Lemma steps_run p tr q :
  steps p tr q -> run w p = (tr ++ fst (run w q), snd (run w q)).
Proof.
  induction 1 as [p|p e p' tr p'' Hs _ IH]; [by destruct (run w p)|].
  rewrite (run_step _ _ _ Hs), IH. reflexivity.
Qed.

Lemma run_final q r : final q = Some r -> run w q = ([], r).
Proof. destruct q; cbn; intros; simplify_eq; reflexivity. Qed.

Lemma steps_prefix p tr q : steps p tr q -> tr `prefix_of` fst (run w p).
Proof. intros H. rewrite (steps_run _ _ _ H). cbn. by eexists. Qed.

Lemma terminates_run p tr r : terminates_with p tr r -> run w p = (tr, r).
Proof.
  intros (q & Hs & Hq). rewrite (steps_run _ _ _ Hs), (run_final _ _ Hq).
  cbn. by rewrite app_nil_r.
Qed.

(** ** The two readings agree *)

(** The interpreter and the small-step semantics agree: [run]
    returns trace [tr] and outcome [r] exactly when the program has a
    terminated execution with that trace and outcome. *)
Lemma run_iff_terminates p tr r : run w p = (tr, r) <-> terminates_with p tr r.
Proof.
  split; [|apply terminates_run].
  intros H. pose proof (run_terminates p) as Ht. by rewrite H in Ht.
Qed.

(** Executions are deterministic: a program has at most one terminated
    execution in a given world. *)
Lemma terminates_deterministic p tr1 r1 tr2 r2 :
  terminates_with p tr1 r1 -> terminates_with p tr2 r2 -> tr1 = tr2 /\ r1 = r2.
Proof.
  intros H1%terminates_run H2%terminates_run. rewrite H1 in H2. by simplify_eq.
Qed.
End Step.

Arguments step _ {_}.
Arguments steps _ {_}.
Arguments final {_}.
Arguments terminates_with _ {_}.

(** ** Equivalent programs *)

Definition io_equiv {A} (p q : io A) : Prop := forall w, run w p = run w q.

Infix "≡io" := io_equiv (at level 70).

Section Equiv.
Context {A B : Type}.

#[export] Instance io_equiv_equivalence : Equivalence (@io_equiv A).
Proof.
  split; [intros p w; reflexivity | intros p q H w; by rewrite H |
          intros p q r H1 H2 w; by rewrite H1, H2].
Qed.

#[export] Instance bind_proper :
  Proper (io_equiv ==> pointwise_relation A io_equiv ==> io_equiv) (@bind A B).
Proof.
  intros p p' Hp f f' Hf w. rewrite !run_bind, Hp.
  destruct (run w p') as [tr [e|a]]; [reflexivity|]. by rewrite Hf.
Qed.

#[export] Instance catch_proper :
  Proper (io_equiv ==> pointwise_relation exn io_equiv ==> io_equiv) (@catch A).
Proof.
  intros p p' Hp h h' Hh w. rewrite !run_catch, Hp.
  destruct (run w p') as [tr [e|a]]; [|reflexivity]. by rewrite Hh.
Qed.
End Equiv.
End Semantics.
