(* ===== verification/Auth.v ===== *)
(** * The auth token provider: [fetchAuthKeyFromLightNode]

    [functions/fetchAuthKeyFromLightNode.ts]: runs a fixed shell command
    in the light node's container ([execAsync(GET_AUTH_KEY_COMMAND)]) and
    returns its standard output trimmed; any failure of the command becomes
    [Error('terminal_error')].  The token is fetched afresh on every call. *)

From S2P Require Import Prelude JsString JsValue Io.

Module Auth.
Import Utf16 JsValue Io.
Local Open Scope Z_scope.

(** The template literal of lines 4-6, a newline at each end.  [$NODE_TYPE]
    and [$CHAIN_ID] are not template substitutions: they reach the shell. *)
Definition GET_AUTH_KEY_COMMAND : jsstring :=
  [10] ++ ‹"    docker exec zkvote-node-celestia bash -c 'celestia $NODE_TYPE auth admin --p2p.network $CHAIN_ID'"› ++ [10].

Definition terminal_error : exn := Error ‹"terminal_error"›.

(** [promisify(exec)] (line 9): resolves with the command's standard
    output, rejects when the command fails. *)
Definition execAsync (cmd : jsstring) : io jsstring := Exec cmd raise.

Definition fetchAuthKeyFromLightNode : io jsstring :=
  catch
    (stdout <- execAsync GET_AUTH_KEY_COMMAND ;;
     Ret (trim stdout))
    (fun _ => Throw terminal_error).

(** The behaviour in a world: one [exec] of the command, then the trimmed
    output or [terminal_error]. *)
Definition auth_outcome (r : exn + jsstring) : exn + jsstring :=
  match r with
  | inl _ => inl terminal_error
  | inr out => inr (trim out)
  end.

Lemma run_fetchAuthKey w :
  run w fetchAuthKeyFromLightNode =
  ([EvExec GET_AUTH_KEY_COMMAND], auth_outcome (w_exec w GET_AUTH_KEY_COMMAND)).
Proof.
  unfold fetchAuthKeyFromLightNode, execAsync. rewrite run_catch. cbn [run bind].
  destruct (w_exec w GET_AUTH_KEY_COMMAND); reflexivity.
Qed.

(** ** Properties *)

(** C16. In every world the token provider runs the fixed command exactly
    once and never retries.  When the command succeeds with output [out],
    the token is [out] without the white space around it (the shell's
    final newline): [out] is [pre ++ token ++ suf] with [pre] and [suf]
    white space and [token] neither starting nor ending with white space.
    When the command fails, whatever the cause, the error is
    [terminal_error]. *)
Theorem fetchAuthKeyFromLightNode_spec w :
  fst (run w fetchAuthKeyFromLightNode) = [EvExec GET_AUTH_KEY_COMMAND] /\
  (forall e, w_exec w GET_AUTH_KEY_COMMAND = inl e ->
     snd (run w fetchAuthKeyFromLightNode) = inl terminal_error) /\
  (forall out, w_exec w GET_AUTH_KEY_COMMAND = inr out ->
     exists pre token suf, snd (run w fetchAuthKeyFromLightNode) = inr token /\
       out = pre ++ token ++ suf /\ Forall js_space pre /\ Forall js_space suf /\
       (forall c, head token = Some c -> is_js_space c = false) /\
       (forall c, last token = Some c -> is_js_space c = false)).
Proof.
  rewrite run_fetchAuthKey. split; [reflexivity|].
  split; intros r Hr; cbn [snd]; rewrite Hr; [reflexivity|].
  destruct (trim_shape r) as (pre & suf & Heq & Hpre & Hsuf & Hh & Hl).
  exists pre, (trim r), suf. repeat split; auto.
Qed.

End Auth.
