(* ===== verification/Rpc.v ===== *)
(** * The DA client: [celestiaRequest]

    [functions/celestiaRequest.ts]: rejects an endpoint that [isURL]
    refuses with [Error('bad_request')] before any I/O; otherwise, inside a
    [try], fetches the auth token, POSTs the JSON-RPC 2.0 envelope with
    [Content-Type: application/json] and [Authorization: Bearer <token>],
    parses the body as JSON, and returns it, or the normalised
    [{id: 1, jsonrpc: '2.0', result: []}] when its [result] is falsy.  The
    [catch] turns every failure inside the [try] into
    [Error('fetch_error')].

    [isURL] lives in [utils/isURL.js], which is not part of the sources: it
    is modelled from the specification (scheme, [://], non-empty host).

    [celestiaRequest_spec] states, as a function of the world's answers,
    the trace and outcome of a call; [celestiaRequest_refines] proves that
    the code implements it, and the other properties are read off it. *)

From S2P Require Import Prelude JsString Json JsValue Io Auth.

Module Rpc.
Import Utf16 Json JsValue Io Auth.
Local Open Scope Z_scope.

(** ** [isURL] (specification-modelled) *)

Definition is_alpha (c : Z) : bool :=
  ((65 <=? c) && (c <=? 90)) || ((97 <=? c) && (c <=? 122)).
Definition is_ascii_digit (c : Z) : bool := (48 <=? c) && (c <=? 57).
Definition is_scheme_char (c : Z) : bool :=
  is_alpha c || is_ascii_digit c || (c =? 43) || (c =? 45) || (c =? 46).

(** The scheme and what follows [://]. *)
Fixpoint split_scheme (s : jsstring) : option (jsstring * jsstring) :=
  match s with
  | [] => None
  | c :: r =>
      if c =? 58 then
        match r with
        | a :: b :: rest => if (a =? 47) && (b =? 47) then Some ([], rest) else None
        | _ => None
        end
      else if is_scheme_char c then
        (fun '(sc, rest) => (c :: sc, rest)) <$> split_scheme r
      else None
  end.

Fixpoint host_part (rest : jsstring) : jsstring :=
  match rest with
  | [] => []
  | c :: r => if (c =? 47) || (c =? 63) || (c =? 35) then [] else c :: host_part r
  end.

Definition isURL_string (s : jsstring) : bool :=
  match split_scheme s with
  | Some (c :: _, rest) =>
      is_alpha c && negb (bool_decide (host_part rest = [])) &&
      forallb (fun c => negb (is_js_space c)) s
  | _ => false
  end.

Definition isURL (v : value) : bool :=
  match v with VStr s => isURL_string s | _ => false end.

(** ** The request *)

Definition bad_request : exn := Error ‹"bad_request"›.
Definition fetch_error : exn := Error ‹"fetch_error"›.

Definition rpc_envelope (method : jsstring) (params : value) : value :=
  VObj [(‹"jsonrpc"›, VStr ‹"2.0"›); (‹"id"›, VNum 1);
        (‹"method"›, VStr method); (‹"params"›, params)].

(** [JSON.stringify] of the envelope; an object always serialises, the
    default is never used ([envelope_body_stringify]). *)
Definition envelope_body (method : jsstring) (params : value) : jsstring :=
  default [] (stringify (rpc_envelope method params)).

Definition request_init (key body : jsstring) : fetch_init :=
  mk_init ‹"POST"›
    [(‹"Content-Type"›, ‹"application/json"›); (‹"Authorization"›, ‹"Bearer "› ++ key)]
    body.

Definition normalized_empty : value :=
  VObj [(‹"id"›, VNum 1); (‹"jsonrpc"›, VStr ‹"2.0"›); (‹"result"›, VArr [])].

Definition celestiaRequest (light_node_rpc_url : value) (method : jsstring)
    (params : value) : io value :=
  if negb (isURL light_node_rpc_url) then Throw bad_request
  else
    catch
      (celestiaAuthKey <- fetchAuthKeyFromLightNode ;;
       jsonResponse <- await_fetch (to_js_string light_node_rpc_url)
                         (request_init celestiaAuthKey (envelope_body method params)) ;;
       result <- raise (get_prop jsonResponse ‹"result"›) ;;
       if negb (truthy result) then Ret normalized_empty else Ret jsonResponse)
      (fun _ => Throw fetch_error).

(** ** The abstract specification *)

(** What the client returns for the answer of the HTTP exchange. *)
Definition response_outcome (a : http_answer) : exn + value :=
  match a with
  | HttpResponse (Some v) =>
      match get_prop v ‹"result"› with
      | inr r => inr (if truthy r then v else normalized_empty)
      | inl _ => inl fetch_error
      end
  | _ => inl fetch_error
  end.

Definition celestiaRequest_spec (w : world) (url : value) (method : jsstring)
    (params : value) : list event * (exn + value) :=
  if negb (isURL url) then ([], inl bad_request)
  else
    match w_exec w GET_AUTH_KEY_COMMAND with
    | inl _ => ([EvExec GET_AUTH_KEY_COMMAND], inl fetch_error)
    | inr out =>
        let init := request_init (trim out) (envelope_body method params) in
        ([EvExec GET_AUTH_KEY_COMMAND; EvFetch (to_js_string url) init],
         response_outcome (w_fetch w (to_js_string url) init))
    end.

Lemma envelope_body_stringify method params :
  stringify (rpc_envelope method params) = Some (envelope_body method params).
Proof. reflexivity. Qed.

Lemma celestiaRequest_run w url method params :
  run w (celestiaRequest url method params) = celestiaRequest_spec w url method params.
Proof.
  unfold celestiaRequest, celestiaRequest_spec.
  destruct (isURL url); cbn [negb]; [|reflexivity].
  rewrite run_catch, run_bind, run_fetchAuthKey.
  destruct (w_exec w GET_AUTH_KEY_COMMAND) as [e|out]; [reflexivity|].
  cbn -[GET_AUTH_KEY_COMMAND envelope_body trim to_js_string get_prop request_init js].
  destruct (w_fetch w _ _) as [e|[v|]]; try reflexivity.
  cbn -[GET_AUTH_KEY_COMMAND envelope_body trim to_js_string get_prop request_init js].
  destruct (get_prop v ‹"result"›) as [e|r]; [reflexivity|].
  cbn -[GET_AUTH_KEY_COMMAND envelope_body trim to_js_string get_prop request_init js].
  destruct (truthy r); reflexivity.
Qed.

(** C2. Refinement: in every world, the trace and the outcome of
    [celestiaRequest] are those of its specification
    [celestiaRequest_spec]: no I/O and [bad_request] for a rejected
    endpoint; else the token command, then (if it succeeded) one POST,
    then the parsed and normalised answer or [fetch_error]. *)
Theorem celestiaRequest_refines w url method params :
  run w (celestiaRequest url method params) = celestiaRequest_spec w url method params.
Proof. apply celestiaRequest_run. Qed.

(** ** A sample world, for the witnesses *)

Definition sample_response : value :=
  VObj [(‹"jsonrpc"›, VStr ‹"2.0"›); (‹"id"›, VNum 1);
        (‹"result"›, VArr [VObj [(‹"tx_hash"›, VStr ‹"ABC123"›)]])].

Definition sample_world (exec : exn + jsstring) (answer : http_answer) : world := {|
  w_compose_state := fun m => inr m;
  w_update_state := fun s => inr s;
  w_generate := fun _ _ => inr (VObj [(‹"data"›, VStr ‹"Hello World!"›)]);
  w_exec := fun _ => exec;
  w_fetch := fun _ _ => answer
|}.

Definition ok_world : world :=
  sample_world (inr (‹"TOKEN"› ++ [10])) (HttpResponse (Some sample_response)).

Definition node_url : value := VStr ‹"http://localhost:26658"›.

(** ** Properties *)

(** C4. Fail fast: when [isURL] rejects the endpoint, [celestiaRequest]
    throws [bad_request] without running the command or sending any
    request. *)
Theorem celestiaRequest_bad_url w url method params :
  isURL url = false ->
  run w (celestiaRequest url method params) = ([], inl bad_request).
Proof. intros H. rewrite celestiaRequest_run. unfold celestiaRequest_spec. now rewrite H. Qed.

Lemma celestiaRequest_bad_url_witness :
  isURL (VStr ‹"not a url"›) = false /\
  run ok_world (celestiaRequest (VStr ‹"not a url"›) ‹"m"› VNull) = ([], inl bad_request).
Proof.
  split; [reflexivity|]. apply celestiaRequest_bad_url. reflexivity.
Defined.

(** C5. Error taxonomy: the only exceptions [celestiaRequest] throws are
    [bad_request] and [fetch_error]. *)
Theorem celestiaRequest_errors w url method params e :
  snd (run w (celestiaRequest url method params)) = inl e ->
  e = bad_request \/ e = fetch_error.
Proof.
  rewrite celestiaRequest_run. unfold celestiaRequest_spec.
  destruct (isURL url); cbn [negb snd]; [|intros [= <-]; auto].
  destruct (w_exec w GET_AUTH_KEY_COMMAND); cbn [snd]; [intros [= <-]; auto|].
  unfold response_outcome.
  repeat case_match; intros; simplify_eq; auto.
Qed.

Lemma celestiaRequest_errors_witness :
  snd (run (sample_world (inl (Error ‹"exit 1"›)) (HttpFailed (Error ‹"x"›)))
         (celestiaRequest node_url ‹"m"› VNull)) = inl fetch_error /\
  (fetch_error = bad_request \/ fetch_error = fetch_error).
Proof.
  split; [vm_compute; reflexivity|].
  apply (celestiaRequest_errors (sample_world (inl (Error ‹"exit 1"›)) (HttpFailed (Error ‹"x"›)))
           node_url ‹"m"› VNull). vm_compute. reflexivity.
Defined.

(** C15. A failure of the auth command is reported as [fetch_error], like
    a network failure, and no HTTP request is sent. *)
Theorem celestiaRequest_auth_failure w url method params e :
  isURL url = true -> w_exec w GET_AUTH_KEY_COMMAND = inl e ->
  run w (celestiaRequest url method params) =
  ([EvExec GET_AUTH_KEY_COMMAND], inl fetch_error).
Proof.
  intros Hu He. rewrite celestiaRequest_run. unfold celestiaRequest_spec.
  now rewrite Hu, He.
Qed.

Lemma celestiaRequest_auth_failure_witness :
  isURL node_url = true /\
  w_exec (sample_world (inl (Error ‹"exit 1"›)) (HttpResponse None))
    GET_AUTH_KEY_COMMAND = inl (Error ‹"exit 1"›) /\
  run (sample_world (inl (Error ‹"exit 1"›)) (HttpResponse None))
      (celestiaRequest node_url ‹"m"› VNull) =
  ([EvExec GET_AUTH_KEY_COMMAND], inl fetch_error).
Proof.
  split; [reflexivity|]. split; [reflexivity|].
  apply (celestiaRequest_auth_failure _ _ _ _ (Error ‹"exit 1"›)); reflexivity.
Defined.

(** C13. The request that is sent: after the token command succeeds with
    output [out], exactly one POST goes to the endpoint, with the JSON
    content type, the header [Bearer] followed by the trimmed output, and
    the JSON text of the envelope as body. *)
Theorem celestiaRequest_request w url method params out :
  isURL url = true -> w_exec w GET_AUTH_KEY_COMMAND = inr out ->
  fst (run w (celestiaRequest url method params)) =
  [EvExec GET_AUTH_KEY_COMMAND;
   EvFetch (to_js_string url)
     (mk_init ‹"POST"›
        [(‹"Content-Type"›, ‹"application/json"›);
         (‹"Authorization"›, ‹"Bearer "› ++ trim out)]
        (default [] (stringify (rpc_envelope method params))))].
Proof.
  intros Hu He. rewrite celestiaRequest_run. unfold celestiaRequest_spec.
  now rewrite Hu, He.
Qed.

Lemma celestiaRequest_request_witness :
  isURL node_url = true /\
  w_exec ok_world GET_AUTH_KEY_COMMAND = inr (‹"TOKEN"› ++ [10]) /\
  fst (run ok_world (celestiaRequest node_url ‹"m"› VNull)) =
  [EvExec GET_AUTH_KEY_COMMAND;
   EvFetch (to_js_string node_url)
     (mk_init ‹"POST"›
        [(‹"Content-Type"›, ‹"application/json"›);
         (‹"Authorization"›, ‹"Bearer "› ++ trim (‹"TOKEN"› ++ [10]))]
        (default [] (stringify (rpc_envelope ‹"m"› VNull))))].
Proof.
  split; [reflexivity|]. split; [reflexivity|].
  apply celestiaRequest_request; reflexivity.
Defined.

(** C14. Soft success: a response whose [result] is falsy (absent, [null],
    [0], [false] or the empty string) is replaced by
    [{id: 1, jsonrpc: '2.0', result: []}]; a truthy one is returned as
    it is. *)
Theorem celestiaRequest_normalizes w url method params out v r :
  isURL url = true -> w_exec w GET_AUTH_KEY_COMMAND = inr out ->
  w_fetch w (to_js_string url) (request_init (trim out) (envelope_body method params))
    = HttpResponse (Some v) ->
  get_prop v ‹"result"› = inr r ->
  snd (run w (celestiaRequest url method params)) =
  inr (if truthy r then v else normalized_empty).
Proof.
  intros Hu He Hf Hr. rewrite celestiaRequest_run. unfold celestiaRequest_spec.
  rewrite Hu, He. cbn [negb snd]. rewrite Hf. cbn [response_outcome]. now rewrite Hr.
Qed.

Definition no_result_response : value :=
  VObj [(‹"jsonrpc"›, VStr ‹"2.0"›); (‹"id"›, VNum 1)].

Lemma celestiaRequest_normalizes_witness :
  let w := sample_world (inr ‹"TOKEN"›) (HttpResponse (Some no_result_response)) in
  isURL node_url = true /\ w_exec w GET_AUTH_KEY_COMMAND = inr ‹"TOKEN"› /\
  w_fetch w (to_js_string node_url)
    (request_init (trim ‹"TOKEN"›) (envelope_body ‹"m"› VNull))
    = HttpResponse (Some no_result_response) /\
  get_prop no_result_response ‹"result"› = inr VUndefined /\
  snd (run w (celestiaRequest node_url ‹"m"› VNull)) = inr normalized_empty.
Proof.
  intros w. do 4 (split; [reflexivity|]).
  apply (celestiaRequest_normalizes w node_url ‹"m"› VNull ‹"TOKEN"›
           no_result_response VUndefined); reflexivity.
Defined.

(** C29. The request body: the envelope's JSON text is
    [{"jsonrpc":"2.0","id":1,"method":] followed by the quoted method and
    the parameters, whatever they are; in particular the id is always
    [1], so concurrent requests cannot be told apart by id. *)
Theorem envelope_body_text method params :
  envelope_body method params =
    jsq "{^jsonrpc^:^2.0^,^id^:1,^method^:" ++ quote_json_string method ++
    match stringify params with
    | Some t => jsq ",^params^:" ++ t
    | None => []
    end ++ [125].
Proof.
  unfold envelope_body, rpc_envelope. cbn [stringify default].
  destruct (stringify params); cbn [js_join]; rewrite <- !app_assoc; reflexivity.
Qed.
End Rpc.
