(* ===== verification/Runtime.v ===== *)
(** * The agent runtime's settings and the process environment

    [runtime.getSetting(key)] ([@elizaos/core], outside the sources) is
    modelled from the specification's "settings lookup plus environment
    fallback": it returns the first non-empty value of the character's
    [settings.secrets], then of its [settings], then of the process
    environment (core's [settings] object, which it loads from
    [process.env]), and [null] when none has one.  The plugin reads the
    same [process.env] directly in [environment.ts], so the model keeps one
    environment per process, as a field of the runtime record. *)

From stdpp Require Import gmap.
From S2P Require Import Prelude JsString JsValue.

Module Runtime.
Import JsValue.

Record runtime := mk_runtime {
  rt_secrets : gmap jsstring jsstring;
  rt_settings : gmap jsstring jsstring;
  process_env : gmap jsstring jsstring
}.

(** [obj[key]] when it is a truthy string. *)
Definition truthy_lookup (m : gmap jsstring jsstring) (key : jsstring) : option jsstring :=
  match m !! key with
  | Some v => if bool_decide (v = []) then None else Some v
  | None => None
  end.

(** The first truthy value among secrets, settings and environment:
    stdpp's [∪] on options keeps its left argument when it is [Some]. *)
Definition getSetting (rt : runtime) (key : jsstring) : value :=
  from_option VStr VNull
    (truthy_lookup (rt_secrets rt) key ∪ truthy_lookup (rt_settings rt) key ∪
     truthy_lookup (process_env rt) key).

(** [process.env[key]]. *)
Definition env_get (env : gmap jsstring jsstring) (key : jsstring) : value :=
  match env !! key with
  | Some v => VStr v
  | None => VUndefined
  end.

(** JavaScript's [a || b]. *)
Definition js_or (a b : value) : value := if truthy a then a else b.

(** ** Lemmas *)

Lemma truthy_lookup_Some m key v : truthy_lookup m key = Some v <-> m !! key = Some v /\ v <> [].
Proof.
  unfold truthy_lookup. destruct (m !! key) as [v'|]; [case_bool_decide|];
    split; intros Hl; intuition congruence.
Qed.

Lemma truthy_lookup_None m key :
  truthy_lookup m key = None <-> m !! key = None \/ m !! key = Some [].
Proof.
  unfold truthy_lookup. destruct (m !! key) as [v'|]; [case_bool_decide|];
    split; intros Hl; intuition congruence.
Qed.

(** [getSetting] returns [null] or a non-empty string. *)
Lemma getSetting_cases rt key :
  getSetting rt key = VNull \/ exists v, getSetting rt key = VStr v /\ v <> [].
Proof.
  unfold getSetting.
  destruct (truthy_lookup (rt_secrets rt) key) as [v|] eqn:E1,
    (truthy_lookup (rt_settings rt) key) as [v2|] eqn:E2,
    (truthy_lookup (process_env rt) key) as [v3|] eqn:E3; cbn; [..|by left];
    right; eexists; (split; [reflexivity|]);
    match goal with H : truthy_lookup _ _ = Some ?x |- ?x <> [] =>
      apply truthy_lookup_Some in H; apply H end.
Qed.

(** A key present in none of the three sources. *)
Lemma getSetting_none rt key :
  rt_secrets rt !! key = None -> rt_settings rt !! key = None ->
  process_env rt !! key = None -> getSetting rt key = VNull.
Proof. intros H1 H2 H3. unfold getSetting, truthy_lookup. by rewrite H1, H2, H3. Qed.

(** When [getSetting] finds nothing, [process.env] holds no truthy value
    either: the environment fallback of [environment.ts] adds nothing but
    an empty string or [undefined]. *)
Lemma getSetting_null_env rt key :
  getSetting rt key = VNull ->
  env_get (process_env rt) key = VUndefined \/ env_get (process_env rt) key = VStr [].
Proof.
  unfold getSetting. intros H.
  destruct (truthy_lookup (rt_secrets rt) key), (truthy_lookup (rt_settings rt) key),
    (truthy_lookup (process_env rt) key) eqn:E; cbn in H; try discriminate.
  apply truthy_lookup_None in E. unfold env_get. destruct E as [-> | ->]; auto.
Qed.

(** [getSetting(key) || process.env[key]] is [getSetting(key)] whenever
    it is a non-empty string. *)
Lemma setting_or_env_str rt key u :
  js_or (getSetting rt key) (env_get (process_env rt) key) = VStr u -> u <> [] ->
  getSetting rt key = VStr u.
Proof.
  intros H Hu. destruct (getSetting_cases rt key) as [Hn | (v & Hv & Hv')].
  - unfold js_or in H. rewrite Hn in H. cbn in H.
    destruct (getSetting_null_env rt key Hn) as [He | He]; rewrite He in H; congruence.
  - unfold js_or in H. rewrite Hv in H. cbn in H. rewrite bool_decide_false in H by exact Hv'; cbn in H.
    congruence.
Qed.
End Runtime.
