(* ===== verification/Config.v ===== *)
(** * The configuration validator: [validateCelestiaConfig]

    [environment.ts]: each of the three settings is
    [runtime.getSetting(KEY) || process.env.KEY]; the fee goes through
    [parseFloat]; the record is checked by the zod schema
    [celestiaEnvSchema] (two non-empty strings and a number at least 0).
    Zod checks every key and collects all issues in schema order; the
    [catch] turns them into one [Error] whose message lists
    [path: message] per issue.

    Numbers are the results of [parseFloat]: [NaN], an infinity, or the
    decimal the string spells, [±m·10^e]; the rounding to a double matters
    only for the sign test, where a negative value too small to be
    represented rounds to [-0] and passes [min(0)]: [is_negative] models
    that underflow exactly. *)

From stdpp Require Import gmap.
From S2P Require Import Prelude JsString JsValue Runtime.

Module Config.
Import Utf16 JsValue Runtime.
Local Open Scope Z_scope.

(** ** parseFloat *)

Inductive jsnum :=
| NaN
| Infinity (neg : bool)
| Dec (neg : bool) (mant : Z) (exp : Z).

Definition is_digit (c : Z) : bool := (48 <=? c) && (c <=? 57).

Fixpoint take_digits (s : jsstring) : list Z * jsstring :=
  match s with
  | c :: r =>
      if is_digit c then let '(ds, rest) := take_digits r in ((c - 48) :: ds, rest)
      else ([], s)
  | [] => ([], [])
  end.

Definition digits_to_Z (ds : list Z) : Z := fold_left (fun acc d => acc * 10 + d) ds 0.

(** An exponent part [e], [E], an optional sign and at least one digit;
    otherwise no exponent. *)
Definition parse_exponent (s : jsstring) : Z :=
  match s with
  | e :: r =>
      if (e =? 101) || (e =? 69) then
        let '(neg, r') :=
          match r with
          | c :: r' => if c =? 45 then (true, r') else if c =? 43 then (false, r') else (false, r)
          | [] => (false, [])
          end in
        let '(ds, _) := take_digits r' in
        if bool_decide (ds = []) then 0
        else if neg then - digits_to_Z ds else digits_to_Z ds
      else 0
  | [] => 0
  end.

Definition parse_sign (s : jsstring) : bool * jsstring :=
  match s with
  | c :: r => if c =? 45 then (true, r) else if c =? 43 then (false, r) else (false, s)
  | [] => (false, [])
  end.

(** [parseFloat(string)]: the longest prefix of the trimmed string that
    is a decimal literal. *)
Definition parseFloat (input : jsstring) : jsnum :=
  let '(neg, s) := parse_sign (trim_start input) in
  if bool_decide (take (length ‹"Infinity"›) s = ‹"Infinity"›) then Infinity neg
  else
    let '(ip, r1) := take_digits s in
    let '(fp, r2) :=
      match r1 with
      | c :: r => if c =? 46 then take_digits r else ([], r1)
      | [] => ([], [])
      end in
    if bool_decide (ip = []) && bool_decide (fp = []) then NaN
    else Dec neg (digits_to_Z (ip ++ fp)) (parse_exponent r2 - Z.of_nat (length fp)).

(** The double is below zero: not [NaN], not [-0], not a negative value
    that underflows to [-0] (magnitude at most [2^-1075]). *)
Definition is_negative (n : jsnum) : bool :=
  match n with
  | NaN => false
  | Infinity neg => neg
  | Dec neg m e =>
      neg && negb (m =? 0) &&
      (if 0 <=? e then true else negb (m * 2 ^ 1075 <=? 10 ^ (- e)))
  end.

(** ** The zod schema *)

Record issue := mk_issue { iss_path : jsstring; iss_message : jsstring }.

(** Zod's name of a value's type in [invalid_type] messages. *)
Definition zod_type (v : value) : jsstring :=
  match v with
  | VUndefined => ‹"undefined"›
  | VNull => ‹"null"›
  | VBool _ => ‹"boolean"›
  | VNum _ => ‹"number"›
  | VStr _ => ‹"string"›
  | VArr _ => ‹"array"›
  | VObj _ => ‹"object"›
  end.

(** [z.string().min(1, msg)] at key [key]. *)
Definition check_string_min1 (key msg : jsstring) (v : value) : list issue * option jsstring :=
  match v with
  | VStr s => if bool_decide (s = []) then ([mk_issue key msg], None) else ([], Some s)
  | VUndefined => ([mk_issue key ‹"Required"›], None)
  | _ => ([mk_issue key (‹"Expected string, received "› ++ zod_type v)], None)
  end.

(** [z.number().min(0, msg)] at key [key]. *)
Definition check_number_min0 (key msg : jsstring) (n : jsnum) : list issue * option jsnum :=
  match n with
  | NaN => ([mk_issue key ‹"Expected number, received nan"›], None)
  | _ => if is_negative n then ([mk_issue key msg], None) else ([], Some n)
  end.

Definition URL_KEY : jsstring := ‹"CELESTIA_LIGHT_NODE_RPC_URL"›.
Definition NAMESPACE_KEY : jsstring := ‹"CELESTIA_AI_AGENT_NAMESPACE"›.
Definition FEE_KEY : jsstring := ‹"CELESTIA_DEFAULT_TX_FEE"›.

Record celestiaConfig := mk_config {
  CELESTIA_LIGHT_NODE_RPC_URL : jsstring;
  CELESTIA_AI_AGENT_NAMESPACE : jsstring;
  CELESTIA_DEFAULT_TX_FEE : jsnum
}.

(** [celestiaEnvSchema.parse(config)]: all issues, in schema order. *)
Definition celestiaEnvSchema_parse (url ns : value) (fee : jsnum)
    : list issue + celestiaConfig :=
  let '(i1, r1) := check_string_min1 URL_KEY ‹"Celestia Light Node RPC URL is required"› url in
  let '(i2, r2) := check_string_min1 NAMESPACE_KEY ‹"Celestia AI Agent Namespace is required"› ns in
  let '(i3, r3) := check_number_min0 FEE_KEY ‹"Default Transaction Fee is required"› fee in
  match r1, r2, r3 with
  | Some u, Some n, Some f => inr (mk_config u n f)
  | _, _, _ => inl (i1 ++ i2 ++ i3)
  end.

Definition format_issue (i : issue) : jsstring := iss_path i ++ ‹": "› ++ iss_message i.

Definition validation_error (issues : list issue) : exn :=
  Error (‹"Celestia configuration validation failed:"› ++ [10] ++
         js_join [10] (map format_issue issues)).

(** [runtime.getSetting(KEY) || process.env.KEY] (lines 17-19). *)
Definition raw_setting (rt : runtime) (key : jsstring) : value :=
  js_or (getSetting rt key) (env_get (process_env rt) key).

Definition validateCelestiaConfig (rt : runtime) : exn + celestiaConfig :=
  let url := raw_setting rt URL_KEY in
  let ns := raw_setting rt NAMESPACE_KEY in
  let fee := parseFloat (to_js_string (raw_setting rt FEE_KEY)) in
  match celestiaEnvSchema_parse url ns fee with
  | inr cfg => inr cfg
  | inl issues => inl (validation_error issues)
  end.

(** The action's [validate]: [true] once the configuration validates. *)
Definition validate (rt : runtime) : exn + bool :=
  match validateCelestiaConfig rt with
  | inl e => inl e
  | inr _ => inr true
  end.

(** ** Lemmas on the schema checks *)

Lemma check_string_min1_some key msg v i s :
  check_string_min1 key msg v = (i, Some s) <-> i = [] /\ v = VStr s /\ s <> [].
Proof.
  unfold check_string_min1. split.
  - destruct v; try discriminate. case_bool_decide; intros; simplify_eq; auto.
  - intros (-> & -> & Hs). rewrite bool_decide_false by exact Hs. reflexivity.
Qed.

Lemma check_string_min1_none key msg v i :
  check_string_min1 key msg v = (i, None) -> i <> [].
Proof.
  unfold check_string_min1. destruct v; try case_bool_decide; intros; simplify_eq; discriminate.
Qed.

Lemma check_number_min0_some key msg n i f :
  check_number_min0 key msg n = (i, Some f) <->
  i = [] /\ n = f /\ n <> NaN /\ is_negative n = false.
Proof.
  unfold check_number_min0. split.
  - destruct n; [discriminate| |]; destruct (is_negative _) eqn:E; intros; simplify_eq; auto.
  - intros (-> & -> & Hn & Hneg). destruct f; [congruence| |]; rewrite Hneg; reflexivity.
Qed.

Lemma check_number_min0_none key msg n i :
  check_number_min0 key msg n = (i, None) -> i <> [].
Proof.
  unfold check_number_min0. destruct n; try destruct (is_negative _); intros; simplify_eq;
    discriminate.
Qed.

(** The three raw values of [environment.ts:16-20]. *)
Definition raw_url rt := raw_setting rt URL_KEY.
Definition raw_ns rt := raw_setting rt NAMESPACE_KEY.
Definition raw_fee rt := parseFloat (to_js_string (raw_setting rt FEE_KEY)).

Definition url_issues rt :=
  fst (check_string_min1 URL_KEY ‹"Celestia Light Node RPC URL is required"› (raw_url rt)).
Definition ns_issues rt :=
  fst (check_string_min1 NAMESPACE_KEY ‹"Celestia AI Agent Namespace is required"› (raw_ns rt)).
Definition fee_issues rt :=
  fst (check_number_min0 FEE_KEY ‹"Default Transaction Fee is required"› (raw_fee rt)).

(** Whether a field passes its check: a non-empty string, a number not
    below zero. *)
Definition string_field_ok (v : value) : bool :=
  match v with VStr s => negb (bool_decide (s = [])) | _ => false end.

Definition fee_ok (n : jsnum) : bool :=
  match n with NaN => false | _ => negb (is_negative n) end.

Lemma check_string_min1_paths key msg v :
  map iss_path (fst (check_string_min1 key msg v)) = if string_field_ok v then [] else [key].
Proof. unfold check_string_min1, string_field_ok. destruct v; try reflexivity. by destruct (bool_decide _). Qed.

Lemma check_number_min0_paths key msg n :
  map iss_path (fst (check_number_min0 key msg n)) = if fee_ok n then [] else [key].
Proof. unfold check_number_min0, fee_ok. destruct n; try reflexivity; by destruct (is_negative _). Qed.

Lemma validateCelestiaConfig_inl rt e :
  validateCelestiaConfig rt = inl e ->
  url_issues rt ++ ns_issues rt ++ fee_issues rt <> [] /\
  e = validation_error (url_issues rt ++ ns_issues rt ++ fee_issues rt).
Proof.
  unfold validateCelestiaConfig, celestiaEnvSchema_parse, url_issues, ns_issues, fee_issues.
  fold (raw_url rt) (raw_ns rt) (raw_fee rt).
  destruct (check_string_min1 _ _ (raw_url rt)) as [i1 [u'|]] eqn:E1;
  destruct (check_string_min1 _ _ (raw_ns rt)) as [i2 [n'|]] eqn:E2;
  destruct (check_number_min0 _ _ (raw_fee rt)) as [i3 [f'|]] eqn:E3;
    cbn [fst]; intros H; try discriminate; injection H as <-; split; auto;
    repeat match goal with
    | E : check_string_min1 _ _ _ = (_, None) |- _ => apply check_string_min1_none in E
    | E : check_number_min0 _ _ _ = (_, None) |- _ => apply check_number_min0_none in E
    end;
    intros Happ; apply app_nil in Happ as [? Happ]; try apply app_nil in Happ as [? ?];
    congruence.
Qed.

(** ** Properties *)

(** Acceptance, read in both directions. *)
Lemma validateCelestiaConfig_elim rt cfg :
  validateCelestiaConfig rt = inr cfg ->
  (raw_url rt = VStr (CELESTIA_LIGHT_NODE_RPC_URL cfg) /\
     CELESTIA_LIGHT_NODE_RPC_URL cfg <> []) /\
  (raw_ns rt = VStr (CELESTIA_AI_AGENT_NAMESPACE cfg) /\
     CELESTIA_AI_AGENT_NAMESPACE cfg <> []) /\
  (raw_fee rt = CELESTIA_DEFAULT_TX_FEE cfg /\
     raw_fee rt <> NaN /\ is_negative (raw_fee rt) = false).
Proof.
  unfold validateCelestiaConfig, celestiaEnvSchema_parse.
  fold (raw_url rt) (raw_ns rt) (raw_fee rt).
  destruct cfg as [u n f]; cbn [CELESTIA_LIGHT_NODE_RPC_URL CELESTIA_AI_AGENT_NAMESPACE
                                CELESTIA_DEFAULT_TX_FEE].
  destruct (check_string_min1 _ _ (raw_url rt)) as [i1 [u'|]] eqn:E1;
  destruct (check_string_min1 _ _ (raw_ns rt)) as [i2 [n'|]] eqn:E2;
  destruct (check_number_min0 _ _ (raw_fee rt)) as [i3 [f'|]] eqn:E3;
    intros H; try discriminate.
  apply check_string_min1_some in E1 as (_ & ? & ?).
  apply check_string_min1_some in E2 as (_ & ? & ?).
  apply check_number_min0_some in E3 as (_ & ? & ? & ?).
  simplify_eq. auto.
Qed.

Lemma validateCelestiaConfig_intro rt u n f :
  raw_url rt = VStr u -> u <> [] -> raw_ns rt = VStr n -> n <> [] ->
  raw_fee rt = f -> f <> NaN -> is_negative f = false ->
  validateCelestiaConfig rt = inr (mk_config u n f).
Proof.
  intros Hu Hu' Hn Hn' <- Hf' Hf''.
  unfold validateCelestiaConfig, celestiaEnvSchema_parse.
  fold (raw_url rt) (raw_ns rt) (raw_fee rt).
  rewrite (proj2 (check_string_min1_some _ _ _ [] u) (conj eq_refl (conj Hu Hu'))).
  rewrite (proj2 (check_string_min1_some _ _ _ [] n) (conj eq_refl (conj Hn Hn'))).
  rewrite (proj2 (check_number_min0_some _ _ _ [] (raw_fee rt))
             (conj eq_refl (conj eq_refl (conj Hf' Hf'')))).
  reflexivity.
Qed.

(** A setting that [getSetting] finds is the raw value. *)
Lemma raw_setting_str rt key u :
  getSetting rt key = VStr u -> u <> [] -> raw_setting rt key = VStr u.
Proof.
  intros H Hu. unfold raw_setting, js_or. rewrite H. cbn.
  by rewrite bool_decide_false by exact Hu.
Qed.

(** A fee that parses to a number was found by [getSetting]:
    [process.env] alone can only add [undefined] or [""], both [NaN]. *)
Lemma raw_fee_getSetting rt :
  raw_fee rt <> NaN -> exists f, getSetting rt FEE_KEY = VStr f /\ raw_fee rt = parseFloat f.
Proof.
  unfold raw_fee. destruct (getSetting_cases rt FEE_KEY) as [Hn | (v & Hv & Hv')].
  - intros Hf. exfalso. apply Hf. unfold raw_setting, js_or. rewrite Hn. cbn [truthy negb].
    destruct (getSetting_null_env rt FEE_KEY Hn) as [-> | ->]; vm_compute; reflexivity.
  - intros _. exists v. split; [exact Hv|]. by rewrite (raw_setting_str _ _ _ Hv Hv').
Qed.

(** What the validator accepted is what [getSetting] returns: the URL and
    the namespace as they are, the fee as a string that parses to the
    validated number. *)
Lemma validated_settings rt cfg :
  validateCelestiaConfig rt = inr cfg ->
  getSetting rt URL_KEY = VStr (CELESTIA_LIGHT_NODE_RPC_URL cfg) /\
  getSetting rt NAMESPACE_KEY = VStr (CELESTIA_AI_AGENT_NAMESPACE cfg) /\
  exists fee, getSetting rt FEE_KEY = VStr fee /\ parseFloat fee = CELESTIA_DEFAULT_TX_FEE cfg.
Proof.
  intros ((Hu & Hu') & (Hn & Hn') & (Hf & Hf' & _))%validateCelestiaConfig_elim.
  split; [exact (setting_or_env_str _ _ _ Hu Hu')|].
  split; [exact (setting_or_env_str _ _ _ Hn Hn')|].
  destruct (raw_fee_getSetting rt Hf') as (fee & Hfee & Hp).
  exists fee. split; [exact Hfee|]. congruence.
Qed.

(** A fee set in none of the three sources is [parseFloat(undefined)]. *)
Lemma raw_fee_missing rt :
  rt_secrets rt !! FEE_KEY = None -> rt_settings rt !! FEE_KEY = None ->
  process_env rt !! FEE_KEY = None -> raw_fee rt = NaN.
Proof.
  intros Hs1 Hs2 He. unfold raw_fee, raw_setting, env_get.
  rewrite (getSetting_none rt FEE_KEY Hs1 Hs2 He), He. vm_compute. reflexivity.
Qed.

(** [validate] rejects a configuration whose fee is not a number. *)
Lemma validate_rejects_nan rt : raw_fee rt = NaN -> exists e, validate rt = inl e.
Proof.
  intros Hf. unfold validate. destruct (validateCelestiaConfig rt) as [e|cfg] eqn:E; [by eexists|].
  apply validateCelestiaConfig_elim in E as (_ & _ & _ & Hf' & _). congruence.
Qed.

(** C23. The validator accepts exactly the configurations whose URL and
    namespace are non-empty strings ([getSetting] first, then
    [process.env]) and whose fee parses to a number that is not below
    zero; it returns them unchanged. *)
Theorem validateCelestiaConfig_ok rt cfg :
  validateCelestiaConfig rt = inr cfg <->
  (raw_url rt = VStr (CELESTIA_LIGHT_NODE_RPC_URL cfg) /\
     CELESTIA_LIGHT_NODE_RPC_URL cfg <> []) /\
  (raw_ns rt = VStr (CELESTIA_AI_AGENT_NAMESPACE cfg) /\
     CELESTIA_AI_AGENT_NAMESPACE cfg <> []) /\
  (raw_fee rt = CELESTIA_DEFAULT_TX_FEE cfg /\
     raw_fee rt <> NaN /\ is_negative (raw_fee rt) = false).
Proof.
  split; [apply validateCelestiaConfig_elim|]. intros ((? & ?) & (? & ?) & (? & ? & ?)).
  destruct cfg as [u n f]; cbn in *. apply validateCelestiaConfig_intro; congruence.
Qed.

(** C24. Aggregated report: when the validator fails, its error lists
    one [path: message] line for each field that fails its check and for
    no other, in schema order (URL, namespace, fee), after the header line
    ["Celestia configuration validation failed:"], joined by newlines
    (lines 24-30); at least one field fails. *)
Theorem validateCelestiaConfig_error rt e :
  validateCelestiaConfig rt = inl e ->
  exists issues, issues <> [] /\
    map iss_path issues =
      (if string_field_ok (raw_url rt) then [] else [URL_KEY]) ++
      (if string_field_ok (raw_ns rt) then [] else [NAMESPACE_KEY]) ++
      (if fee_ok (raw_fee rt) then [] else [FEE_KEY]) /\
    e = Error (‹"Celestia configuration validation failed:"› ++ [10] ++
               js_join [10] (map (fun i => iss_path i ++ ‹": "› ++ iss_message i) issues)).
Proof.
  intros (Hne & ->)%validateCelestiaConfig_inl.
  exists (url_issues rt ++ ns_issues rt ++ fee_issues rt).
  split; [exact Hne|]. split; [|reflexivity].
  unfold url_issues, ns_issues, fee_issues. rewrite !map_app.
  by rewrite !check_string_min1_paths, check_number_min0_paths.
Qed.

Definition empty_runtime : runtime := mk_runtime ∅ ∅ ∅.

Lemma validateCelestiaConfig_error_witness :
  let e := Error (‹"Celestia configuration validation failed:"› ++ [10] ++
                  ‹"CELESTIA_LIGHT_NODE_RPC_URL: Required"› ++ [10] ++
                  ‹"CELESTIA_AI_AGENT_NAMESPACE: Required"› ++ [10] ++
                  ‹"CELESTIA_DEFAULT_TX_FEE: Expected number, received nan"›) in
  validateCelestiaConfig empty_runtime = inl e /\
  exists issues, issues <> [] /\
    map iss_path issues =
      (if string_field_ok (raw_url empty_runtime) then [] else [URL_KEY]) ++
      (if string_field_ok (raw_ns empty_runtime) then [] else [NAMESPACE_KEY]) ++
      (if fee_ok (raw_fee empty_runtime) then [] else [FEE_KEY]) /\
    e = Error (‹"Celestia configuration validation failed:"› ++ [10] ++
               js_join [10] (map (fun i => iss_path i ++ ‹": "› ++ iss_message i) issues)).
Proof.
  intros e. assert (H : validateCelestiaConfig empty_runtime = inl e)
    by (vm_compute; reflexivity).
  split; [exact H|]. exact (validateCelestiaConfig_error _ _ H).
Defined.

(** C25. A fee set in none of the three sources (secrets, settings,
    [process.env]) is reported as its own line,
    ["Expected number, received nan"]: [parseFloat(undefined)] is [NaN]. *)
Theorem validateCelestiaConfig_missing_fee rt u n :
  raw_url rt = VStr u -> u <> [] -> raw_ns rt = VStr n -> n <> [] ->
  rt_secrets rt !! FEE_KEY = None -> rt_settings rt !! FEE_KEY = None ->
  process_env rt !! FEE_KEY = None ->
  validateCelestiaConfig rt =
  inl (Error (‹"Celestia configuration validation failed:"› ++ [10] ++
              ‹"CELESTIA_DEFAULT_TX_FEE: Expected number, received nan"›)).
Proof.
  intros Hu Hu' Hn Hn' Hs1 Hs2 He.
  unfold validateCelestiaConfig, celestiaEnvSchema_parse.
  fold (raw_url rt) (raw_ns rt) (raw_fee rt).
  rewrite Hu, Hn, (raw_fee_missing rt Hs1 Hs2 He).
  cbn -[js]. rewrite !bool_decide_false by assumption. reflexivity.
Qed.

Definition sample_env : gmap jsstring jsstring :=
  list_to_map [(URL_KEY, ‹"http://localhost:26658"›);
               (NAMESPACE_KEY, ‹"0x42690c204d39600fddd3"›)].

Lemma validateCelestiaConfig_missing_fee_witness :
  validateCelestiaConfig (mk_runtime ∅ ∅ sample_env) =
  inl (Error (‹"Celestia configuration validation failed:"› ++ [10] ++
              ‹"CELESTIA_DEFAULT_TX_FEE: Expected number, received nan"›)).
Proof.
  apply (validateCelestiaConfig_missing_fee _ ‹"http://localhost:26658"›
           ‹"0x42690c204d39600fddd3"›); vm_compute; try reflexivity; discriminate.
Defined.

(** ** parseFloat on decimal numerals *)

Definition digit (d : Z) : Prop := 0 <= d < 10.
Definition numeral (ds : list Z) : jsstring := map (fun d => 48 + d) ds.

Lemma take_digits_numeral ds rest :
  Forall digit ds -> (forall c r, rest = c :: r -> is_digit c = false) ->
  take_digits (numeral ds ++ rest) = (ds, rest).
Proof.
  intros Hds Hr. induction Hds as [|d ds Hd _ IH]; cbn [numeral map app take_digits].
  - destruct rest as [|c r]; [reflexivity|]. cbn [take_digits]. now rewrite (Hr c r eq_refl).
  - unfold digit in Hd. replace (is_digit (48 + d)) with true
      by (symmetry; unfold is_digit; apply andb_true_iff; split; apply Z.leb_le; lia).
    fold (numeral ds). rewrite IH. f_equal. f_equal. lia.
Qed.

Lemma digit_not_space d : 0 <= d < 10 -> is_js_space (48 + d) = false.
Proof.
  intros Hd.
  assert (d = 0 \/ d = 1 \/ d = 2 \/ d = 3 \/ d = 4 \/ d = 5 \/ d = 6 \/ d = 7 \/
          d = 8 \/ d = 9) as Hcases by lia.
  repeat destruct Hcases as [-> | Hcases]; try (subst d); reflexivity.
Qed.

Lemma parse_exponent_other s :
  (forall c r, s = c :: r -> c <> 101 /\ c <> 69) -> parse_exponent s = 0.
Proof.
  destruct s as [|c r]; [reflexivity|]. intros H. destruct (H c r eq_refl) as [He1 He2].
  unfold parse_exponent.
  rewrite (proj2 (Z.eqb_neq c 101) He1), (proj2 (Z.eqb_neq c 69) He2). reflexivity.
Qed.

(** [parseFloat] on a decimal numeral followed by other text. *)
Lemma parseFloat_numeral ip fp rest :
  Forall digit ip -> Forall digit fp -> ip <> [] ->
  (forall c r, rest = c :: r -> is_digit c = false /\ c <> 101 /\ c <> 69) ->
  parseFloat (numeral ip ++ [46] ++ numeral fp ++ rest) =
  Dec false (digits_to_Z (ip ++ fp)) (- Z.of_nat (length fp)).
Proof.
  intros Hip Hfp Hne Hr. destruct ip as [|d ip']; [congruence|].
  pose proof Hip as Hip'. apply Forall_cons in Hip' as [Hd _]. unfold digit in Hd.
  unfold parseFloat.
  change ‹"Infinity"› with [73; 110; 102; 105; 110; 105; 116; 121].
  rewrite trim_start_id by (cbn; intros c [= <-]; apply digit_not_space; exact Hd).
  unfold parse_sign. cbn [numeral map app].
  rewrite (proj2 (Z.eqb_neq (48 + d) 45)), (proj2 (Z.eqb_neq (48 + d) 43)) by lia.
  rewrite bool_decide_false.
  2:{ cbn. intros Heq. injection Heq as Hc _. lia. }
  fold (numeral ip'). change (48 + d :: numeral ip' ++ 46 :: numeral fp ++ rest)
    with (numeral (d :: ip') ++ [46] ++ numeral fp ++ rest).
  rewrite take_digits_numeral; [| exact Hip | intros c r [= <- _]; reflexivity].
  cbn [app]. rewrite Z.eqb_refl.
  rewrite take_digits_numeral; [| exact Hfp | intros c r Hc; apply (Hr c r Hc)].
  rewrite bool_decide_false by discriminate. cbn [andb].
  rewrite parse_exponent_other by (intros c r Hc; apply (Hr c r Hc)). reflexivity.
Qed.

(** C38. [parseFloat] reads the decimal numeral at the start of its
    argument exactly and ignores what follows it when that is not a digit
    or an exponent: [parseFloat("<ip>.<fp><rest>")] is [ip fp · 10^-|fp|];
    e.g. the fee ["0.002"], and also ["0.002 TIA"], is [2·10^-3]. *)
Theorem parseFloat_decimal ip fp rest :
  Forall digit ip -> Forall digit fp -> ip <> [] ->
  (forall c r, rest = c :: r -> is_digit c = false /\ c <> 101 /\ c <> 69) ->
  parseFloat (numeral ip ++ [46] ++ numeral fp ++ rest) =
  Dec false (digits_to_Z (ip ++ fp)) (- Z.of_nat (length fp)).
Proof. apply parseFloat_numeral. Qed.

Lemma parseFloat_decimal_witness :
  Forall digit [0] /\ Forall digit [0; 0; 2] /\ [0] <> [] /\
  (forall c r, ‹" TIA"› = c :: r -> is_digit c = false /\ c <> 101 /\ c <> 69) /\
  parseFloat (numeral [0] ++ [46] ++ numeral [0; 0; 2] ++ ‹" TIA"›) = Dec false 2 (-3).
Proof.
  assert (H1 : Forall digit [0]) by (repeat constructor; unfold digit; lia).
  assert (H2 : Forall digit [0; 0; 2]) by (repeat constructor; unfold digit; lia).
  assert (H3 : [0] <> []) by discriminate.
  assert (H4 : forall c r, ‹" TIA"› = c :: r -> is_digit c = false /\ c <> 101 /\ c <> 69).
  { intros c r Hc. vm_compute in Hc. injection Hc as <- _.
    split; [reflexivity|split; discriminate]. }
  split; [exact H1|]. split; [exact H2|]. split; [exact H3|]. split; [exact H4|].
  exact (parseFloat_decimal [0] [0; 0; 2] ‹" TIA"› H1 H2 H3 H4).
Defined.

(** Leading white space, a sign, an exponent and trailing garbage. *)
Example parseFloat_examples :
  parseFloat ‹"  -1.5e3x"› = Dec true 15 2 /\
  parseFloat ‹"undefined"› = NaN /\
  parseFloat [] = NaN /\
  parseFloat ‹"-Infinity"› = Infinity true /\
  parseFloat ‹"7e"› = Dec false 7 0.
Proof. vm_compute. repeat split. Qed.

(** The sign test at the underflow threshold: [-1e-400] rounds to [-0],
    which [min(0)] accepts; [-1e-300] is a representable negative double. *)
Example is_negative_underflow :
  is_negative (parseFloat ‹"-1e-400"›) = false /\
  is_negative (parseFloat ‹"-1e-300"›) = true.
Proof. vm_compute. split; reflexivity. Qed.
End Config.
