(* ===== verification/SubmitBlob.v ===== *)
(** * The [SUBMIT_BLOB] action

    [actions/submitBlob.ts]: the handler logs its start, composes the
    agent state when none is given, refreshes its recent messages, asks the
    model for [{data}] with [submitBlobTemplate], stops with
    ["No data to submit"] when [data] is falsy, and otherwise reads the
    three settings with [runtime.getSetting] (which falls back to [process.env]),
    encodes the data, calls [celestiaRequest] with
    [state.SubmitPayForBlob], and reports [result[0].tx_hash] as a Celenium
    link.  Every exception inside the [try] is reported through the
    callback and the handler resolves to [false]; it never rejects.
    [functions/getCeleniumURL.ts] is the link template.  The action's
    [examples] (lines 126-169) are modelled as data; the concrete runs and
    the check of the examples against the handler are in [Scenarios]. *)

From stdpp Require Import gmap.
From S2P Require Import Prelude JsString Json JsValue Encoder Io Auth Rpc Runtime Config.

Module SubmitBlob.
Import Utf16 Json JsValue Encoder Io Auth Rpc Runtime Config.
Local Open Scope Z_scope.

(** ** Constants of the action *)

Definition submitBlobTemplate : jsstring :=
  js_join [10]
    [‹"Respond with a JSON markdown block containing only the extracted values. Use null for any values that cannot be determined."›;
     []; ‹"Example response:"›; ‹"```json"›; ‹"{"›;
     jsq "    ^data^: ^Hello World, this is the data I submitted^";
     ‹"}"›; ‹"```"›; []; ‹"{{recentMessages}}"›; [];
     ‹"Given the recent messages, extract the following information about the requested Celestia blob submission:"›;
     ‹"- Data to be submitted"›; [];
     ‹"Respond with a JSON markdown block containing only the extracted values."›].

Definition start_msg : jsstring := ‹"Starting SUBMIT_BLOB handler..."›.
Definition no_data_msg : jsstring := ‹"No data to submit"›.
Definition error_log_msg : jsstring := ‹"Error during blob submission:"›.
Definition error_text : jsstring := ‹"Error during blob submission"›.

(** [getCeleniumURL(txHash)]: the template literal converts its argument
    with ToString. *)
Definition getCeleniumURL (txHash : value) : jsstring :=
  ‹"https://mocha-4.celenium.io/tx/"› ++ to_js_string txHash.

Definition success_text (txHash : value) : jsstring :=
  ‹"Blob submitted successfully! Check it out on Celenium: "› ++ getCeleniumURL txHash.

(** [celestiaResponse.result[0].tx_hash]. *)
Definition tx_hash_of (celestiaResponse : value) : exn + value :=
  match get_prop celestiaResponse ‹"result"› with
  | inl e => inl e
  | inr r =>
      match get_prop r ‹"0"› with
      | inl e => inl e
      | inr r0 => get_prop r0 ‹"tx_hash"›
      end
  end.

Definition submit_params (namespace fee : value) (encodedData : jsstring) : value :=
  VArr [VArr [VObj [(‹"namespace_id"›, namespace); (‹"data"›, VStr encodedData)]];
        VObj [(‹"gas_price"›, fee); (‹"is_gas_price_set"›, VBool true)]].

(** ** The handler, in the order of the source *)

(** Lines 58-59: [state || composeState(memory)], then
    [updateRecentMessageState]. *)
Definition init_state (memory state : value) : io value :=
  st <- (if truthy state then Ret state else ComposeState memory raise) ;;
  UpdateState st raise.

(** Lines 72-76. *)
Definition no_data (has_callback : bool) : io bool :=
  log LInfo no_data_msg ;;
  (if has_callback then callback no_data_msg (VObj []) else Ret tt) ;;
  Ret false.

(** Lines 78-103: read the settings, encode, submit. *)
Definition submit (rt : runtime) (submitBlobData : value) : io value :=
  encodedData <- raise (encodeDataToBase64String submitBlobData) ;;
  celestiaRequest (getSetting rt ‹"CELESTIA_LIGHT_NODE_RPC_URL"›)
    ‹"state.SubmitPayForBlob"›
    (submit_params (getSetting rt ‹"CELESTIA_AI_AGENT_NAMESPACE"›)
       (getSetting rt ‹"CELESTIA_DEFAULT_TX_FEE"›) encodedData).

(** Lines 105-116: the hash is read once for the log line and once more
    for the callback. *)
Definition report_success (celestiaResponse : value) (has_callback : bool) : io bool :=
  h <- raise (tx_hash_of celestiaResponse) ;;
  log LSuccess (success_text h) ;;
  (if has_callback then
     h' <- raise (tx_hash_of celestiaResponse) ;;
     callback (success_text h') (VObj [])
   else Ret tt) ;;
  Ret true.

(** Lines 117-124. *)
Definition report_error (has_callback : bool) (error : exn) : io bool :=
  log LError error_log_msg ;;
  (if has_callback then
     callback error_text (VObj [(‹"error"›, VStr (ex_message error))])
   else Ret tt) ;;
  Ret false.

Definition handler (rt : runtime) (memory state : value) (has_callback : bool) : io bool :=
  log LInfo start_msg ;;
  catch
    (st <- init_state memory state ;;
     submitBlobContent <- Generate st submitBlobTemplate raise ;;
     data <- raise (get_opt submitBlobContent ‹"data"›) ;;
     if negb (truthy data) then no_data has_callback
     else
       submitBlobData <- raise (get_prop submitBlobContent ‹"data"›) ;;
       celestiaResponse <- submit rt submitBlobData ;;
       report_success celestiaResponse has_callback)
    (report_error has_callback).

(** ** The action and the plugin ([index.ts]) *)

(** An [ActionExample]: a message of a sample conversation. *)
Record action_example := mk_example { ex_user : jsstring; ex_content : value }.

Definition text_msg (user text : jsstring) : action_example :=
  mk_example user (VObj [(‹"text"›, VStr text)]).

Definition action_msg (user text action : jsstring) : action_example :=
  mk_example user (VObj [(‹"text"›, VStr text); (‹"action"›, VStr action)]).

Definition example_hash : jsstring :=
  ‹"6AA8D09F878A03FEB541AB035A55568068587F59D7350C8C34D55779B71D30A4"›.

(** The [examples] of the action (lines 126-169): two conversations in
    which the user asks for a submission, the agent announces it, and the
    agent reports the Celenium link. *)
Definition submitBlobExamples : list (list action_example) :=
  [[text_msg ‹"{{user1}}"› ‹"Submit the following data to Celestia 'Hello World!'"›;
    action_msg ‹"{{agent}}"›
      ‹"Sure, I will send the data 'Hello World!' to Celestia now."› ‹"SUBMIT_BLOB"›;
    text_msg ‹"{{agent}}"›
      (‹"Blob submitted successfully! Check it out on Celenium: https://mocha-4.celenium.io/tx/"› ++
       example_hash)];
   [text_msg ‹"{{user1}}"› ‹"Submit 'Slow, big, ..., unstoppable' to Celestia"›;
    action_msg ‹"{{agent}}"›
      ‹"Sure, I will send the data 'Slow, big, ..., unstoppable' to Celestia now."›
      ‹"SUBMIT_BLOB"›;
    text_msg ‹"{{agent}}"›
      (‹"Blob submitted successfully! Check it out on Celenium: https://mocha-4.celenium.io/tx/"› ++
       example_hash)]].

Record action := mk_action {
  act_name : jsstring;
  act_similes : list jsstring;
  act_description : jsstring;
  act_validate : runtime -> exn + bool;
  act_handler : runtime -> value -> value -> bool -> io bool;
  act_examples : list (list action_example)
}.

Definition submitBlob : action := {|
  act_name := ‹"SUBMIT_BLOB"›;
  act_similes := [‹"SUBMIT_BLOB_TO_CELESTIA"›; ‹"SEND_BLOB"›; ‹"SUBMIT_BLOB"›];
  act_description := ‹"Submit a blob to Celestia"›;
  act_validate := validate;
  act_handler := handler;
  act_examples := submitBlobExamples
|}.

Record plugin := mk_plugin {
  pl_name : jsstring;
  pl_description : jsstring;
  pl_actions : list action
}.

Definition celestiaPlugin : plugin := {|
  pl_name := ‹"celestia"›;
  pl_description := ‹"Celestia DA integration plugin"›;
  pl_actions := [submitBlob]
|}.

(** ** The abstract specification of the handler *)

Definition init_state_spec (w : world) (memory state : value)
    : list event * (exn + value) :=
  if truthy state then ([EvUpdateState], w_update_state w state)
  else
    match w_compose_state w memory with
    | inl e => ([EvComposeState], inl e)
    | inr st => ([EvComposeState; EvUpdateState], w_update_state w st)
    end.

(** How the pipeline before the reporting step ends. *)
Inductive outcome :=
| NoData
| Submitted (txHash : value)
| Failed (e : exn).

Definition settings_url (rt : runtime) : value := getSetting rt ‹"CELESTIA_LIGHT_NODE_RPC_URL"›.

Definition settings_params (rt : runtime) (encodedData : jsstring) : value :=
  submit_params (getSetting rt ‹"CELESTIA_AI_AGENT_NAMESPACE"›)
    (getSetting rt ‹"CELESTIA_DEFAULT_TX_FEE"›) encodedData.

Definition pipeline_spec (w : world) (rt : runtime) (memory state : value)
    : list event * outcome :=
  let '(tr1, r1) := init_state_spec w memory state in
  match r1 with
  | inl e => (tr1, Failed e)
  | inr st =>
      let tr2 := tr1 ++ [EvGenerate submitBlobTemplate] in
      match w_generate w st submitBlobTemplate with
      | inl e => (tr2, Failed e)
      | inr content =>
          match get_opt content ‹"data"› with
          | inl e => (tr2, Failed e)
          | inr d =>
              if negb (truthy d) then (tr2, NoData)
              else
                match get_prop content ‹"data"› with
                | inl e => (tr2, Failed e)
                | inr data =>
                    match encodeDataToBase64String data with
                    | inl e => (tr2, Failed e)
                    | inr enc =>
                        let '(tr3, r3) :=
                          celestiaRequest_spec w (settings_url rt)
                            ‹"state.SubmitPayForBlob"› (settings_params rt enc) in
                        match r3 with
                        | inl e => (tr2 ++ tr3, Failed e)
                        | inr resp =>
                            match tx_hash_of resp with
                            | inl e => (tr2 ++ tr3, Failed e)
                            | inr h => (tr2 ++ tr3, Submitted h)
                            end
                        end
                    end
                end
          end
      end
  end.

Definition callback_events (has_callback : bool) (text : jsstring) (content : value) :=
  if has_callback then [EvCallback text content] else [].

Definition report_events (has_callback : bool) (o : outcome) : list event :=
  match o with
  | NoData => EvLog LInfo no_data_msg :: callback_events has_callback no_data_msg (VObj [])
  | Submitted h =>
      EvLog LSuccess (success_text h) ::
        callback_events has_callback (success_text h) (VObj [])
  | Failed e =>
      EvLog LError error_log_msg ::
        callback_events has_callback error_text (VObj [(‹"error"›, VStr (ex_message e))])
  end.

Definition outcome_result (o : outcome) : bool :=
  match o with Submitted _ => true | _ => false end.

Definition handler_spec (w : world) (rt : runtime) (memory state : value)
    (has_callback : bool) : list event * (exn + bool) :=
  let '(tr, o) := pipeline_spec w rt memory state in
  (EvLog LInfo start_msg :: tr ++ report_events has_callback o, inr (outcome_result o)).

(** ** The pieces implement their specifications *)

Section Pieces.
Context (w : world).

Lemma init_state_run memory state :
  run w (init_state memory state) = init_state_spec w memory state.
Proof.
  unfold init_state, init_state_spec. rewrite run_bind.
  destruct (truthy state); cbn [run]; [destruct (w_update_state w state); reflexivity|].
  destruct (w_compose_state w memory); cbn; [reflexivity|].
  rewrite run_raise. cbn. reflexivity.
Qed.

Lemma no_data_run cb :
  run w (no_data cb) = (report_events cb NoData, inr false).
Proof. destruct cb; reflexivity. Qed.

Lemma report_error_run cb e :
  run w (report_error cb e) = (report_events cb (Failed e), inr false).
Proof. destruct cb; reflexivity. Qed.

Lemma report_success_run resp cb :
  run w (report_success resp cb) =
  match tx_hash_of resp with
  | inl e => ([], inl e)
  | inr h => (report_events cb (Submitted h), inr true)
  end.
Proof.
  unfold report_success. rewrite run_bind, run_raise.
  destruct (tx_hash_of resp) as [e|h] eqn:Hh; [reflexivity|].
  destruct cb; cbn -[tx_hash_of success_text]; rewrite ?Hh; reflexivity.
Qed.

Lemma submit_run rt data :
  run w (submit rt data) =
  match encodeDataToBase64String data with
  | inl e => ([], inl e)
  | inr enc =>
      celestiaRequest_spec w (settings_url rt) ‹"state.SubmitPayForBlob"›
        (settings_params rt enc)
  end.
Proof.
  unfold submit. rewrite run_bind, run_raise.
  destruct (encodeDataToBase64String data); [reflexivity|].
  rewrite celestiaRequest_run. cbn [app]. destruct (celestiaRequest_spec _ _ _ _).
  reflexivity.
Qed.
End Pieces.

Ltac run_simpl :=
  repeat progress (
  rewrite ?run_bind, ?run_catch, ?run_raise, ?init_state_run, ?no_data_run,
            ?report_error_run, ?report_success_run, ?submit_run;
  cbn -[getSetting success_text tx_hash_of encodeDataToBase64String
        celestiaRequest_spec report_events js jsq submitBlobTemplate
        get_opt get_prop truthy start_msg settings_url settings_params
        report_error report_success no_data submit init_state]).

Ltac close := rewrite ?app_nil_r; rewrite <- ?app_assoc; reflexivity.

Lemma handler_run w rt memory state cb :
  run w (handler rt memory state cb) = handler_spec w rt memory state cb.
Proof.
  unfold handler, handler_spec, pipeline_spec. run_simpl.
  destruct (init_state_spec w memory state) as [tr1 [e|st]]; run_simpl; [close|].
  destruct (w_generate w st submitBlobTemplate) as [e|content]; run_simpl;
    [close|].
  destruct (get_opt content ‹"data"›) as [e|d]; run_simpl;
    [close|].
  destruct (truthy d); run_simpl; [|close].
  destruct (get_prop content ‹"data"›) as [e|data]; run_simpl;
    [close|].
  destruct (encodeDataToBase64String data) as [e|enc]; run_simpl;
    [close|].
  destruct (celestiaRequest_spec _ _ _ _) as [tr3 [e|resp]]; run_simpl;
    [close|].
  destruct (tx_hash_of resp) as [e|h]; run_simpl; close.
Qed.

(** C3. Refinement: in every world, the trace and the result of the
    [SUBMIT_BLOB] handler are those of its specification [handler_spec]:
    the start log, the pipeline's operations in source order, then exactly
    one report (success, no data, or error) with its callback. *)
Theorem handler_refines w rt memory state cb :
  run w (handler rt memory state cb) = handler_spec w rt memory state cb.
Proof. apply handler_run. Qed.

(** ** Properties of the handler *)

(** C6. The handler never rejects: it resolves to [true] exactly when
    the pipeline read a transaction hash, and to [false] otherwise. *)
Theorem handler_result w rt memory state cb :
  snd (run w (handler rt memory state cb)) =
  inr (outcome_result (snd (pipeline_spec w rt memory state))).
Proof.
  rewrite handler_run. unfold handler_spec.
  destruct (pipeline_spec w rt memory state). reflexivity.
Qed.

Ltac spec_cbn :=
  cbn -[get_opt get_prop submitBlobTemplate js jsq celestiaRequest_spec
        encodeDataToBase64String truthy tx_hash_of success_text].

(** A run that reaches the model: the state is composed and the model
    answered [content]. *)
Section Reached.
Context (w : world) (rt : runtime) (memory state st content : value).
Context (tr1 : list event).
Hypothesis Hinit : init_state_spec w memory state = (tr1, inr st).
Hypothesis Hgen : w_generate w st submitBlobTemplate = inr content.

Lemma pipeline_reached :
  pipeline_spec w rt memory state =
  let tr2 := tr1 ++ [EvGenerate submitBlobTemplate] in
  match get_opt content ‹"data"› with
  | inl e => (tr2, Failed e)
  | inr d =>
      if negb (truthy d) then (tr2, NoData)
      else
        match get_prop content ‹"data"› with
        | inl e => (tr2, Failed e)
        | inr data =>
            match encodeDataToBase64String data with
            | inl e => (tr2, Failed e)
            | inr enc =>
                let '(tr3, r3) :=
                  celestiaRequest_spec w (settings_url rt)
                    ‹"state.SubmitPayForBlob"› (settings_params rt enc) in
                match r3 with
                | inl e => (tr2 ++ tr3, Failed e)
                | inr resp =>
                    match tx_hash_of resp with
                    | inl e => (tr2 ++ tr3, Failed e)
                    | inr h => (tr2 ++ tr3, Submitted h)
                    end
                end
            end
        end
  end.
Proof.
  unfold pipeline_spec. rewrite Hinit.
  spec_cbn. now rewrite Hgen.
Qed.

(** C19. No data: when the model's [data] is falsy, the handler sends
    nothing to the node (no command, no HTTP request), says
    ["No data to submit"] and resolves to [false]. *)
Theorem handler_no_data cb d :
  get_opt content ‹"data"› = inr d -> truthy d = false ->
  run w (handler rt memory state cb) =
  (EvLog LInfo start_msg :: tr1 ++ [EvGenerate submitBlobTemplate] ++
     EvLog LInfo no_data_msg :: callback_events cb no_data_msg (VObj []),
   inr false).
Proof.
  intros Hd Ht. rewrite handler_run. unfold handler_spec.
  rewrite pipeline_reached. spec_cbn. rewrite Hd, Ht. spec_cbn.
  rewrite <- app_assoc. reflexivity.
Qed.

(** The data path: the data is truthy, readable and encodes to [enc]. *)
Context (d data : value) (enc : jsstring).
Hypothesis Hd : get_opt content ‹"data"› = inr d.
Hypothesis Htruthy : truthy d = true.
Hypothesis Hdata : get_prop content ‹"data"› = inr data.
Hypothesis Henc : encodeDataToBase64String data = inr enc.

Lemma pipeline_request tr3 r3 :
  celestiaRequest_spec w (settings_url rt) ‹"state.SubmitPayForBlob"›
    (settings_params rt enc) = (tr3, r3) ->
  pipeline_spec w rt memory state =
  (tr1 ++ [EvGenerate submitBlobTemplate] ++ tr3,
   match r3 with
   | inl e => Failed e
   | inr resp => match tx_hash_of resp with inl e => Failed e | inr h => Submitted h end
   end).
Proof.
  intros Hc. rewrite pipeline_reached, Hd, Htruthy. cbn [negb].
  rewrite Hdata, Henc, Hc. rewrite <- app_assoc.
  destruct r3 as [e|resp]; [reflexivity|]. destruct (tx_hash_of resp); reflexivity.
Qed.

(** C17. Soft success is not success: when the node's answer is
    normalised to the empty result, reading [result[0].tx_hash] throws,
    the callback receives the error, and the handler resolves to
    [false]. *)
Theorem handler_empty_result tr3 :
  celestiaRequest_spec w (settings_url rt) ‹"state.SubmitPayForBlob"›
    (settings_params rt enc) = (tr3, inr normalized_empty) ->
  run w (handler rt memory state true) =
  (EvLog LInfo start_msg :: tr1 ++ [EvGenerate submitBlobTemplate] ++ tr3 ++
     [EvLog LError error_log_msg;
      EvCallback error_text
        (VObj [(‹"error"›, VStr ‹"Cannot read properties of undefined (reading 'tx_hash')"›)])],
   inr false).
Proof.
  intros Hc. rewrite handler_run. unfold handler_spec.
  rewrite (pipeline_request _ _ Hc). cbn. rewrite <- !app_assoc. reflexivity.
Qed.

(** C18. A response whose first result has no [tx_hash] is reported as
    a success, with a link ending in [/tx/undefined]. *)
Theorem handler_missing_tx_hash tr3 resp :
  celestiaRequest_spec w (settings_url rt) ‹"state.SubmitPayForBlob"›
    (settings_params rt enc) = (tr3, inr resp) ->
  tx_hash_of resp = inr VUndefined ->
  run w (handler rt memory state true) =
  (EvLog LInfo start_msg :: tr1 ++ [EvGenerate submitBlobTemplate] ++ tr3 ++
     [EvLog LSuccess (success_text VUndefined);
      EvCallback
        (‹"Blob submitted successfully! Check it out on Celenium: https://mocha-4.celenium.io/tx/undefined"›)
        (VObj [])],
   inr true).
Proof.
  intros Hc Hh. rewrite handler_run. unfold handler_spec.
  rewrite (pipeline_request _ _ Hc), Hh. cbn -[success_text]. rewrite <- !app_assoc.
  reflexivity.
Qed.

(** C20. An endpoint setting that [isURL] rejects stops the submission
    before the token command and the request: the callback receives
    [bad_request] and the handler resolves to [false].  This covers a URL
    set in none of the three sources, for which [getSetting] returns
    [null], and a malformed one such as ["not a url"]. *)
Theorem handler_invalid_url :
  isURL (getSetting rt ‹"CELESTIA_LIGHT_NODE_RPC_URL"›) = false ->
  run w (handler rt memory state true) =
  (EvLog LInfo start_msg :: tr1 ++ [EvGenerate submitBlobTemplate] ++
     [EvLog LError error_log_msg;
      EvCallback error_text (VObj [(‹"error"›, VStr ‹"bad_request"›)])],
   inr false).
Proof.
  intros Hu. rewrite handler_run. unfold handler_spec.
  assert (Hb : celestiaRequest_spec w (settings_url rt) ‹"state.SubmitPayForBlob"›
                 (settings_params rt enc) = ([], inl bad_request)).
  { unfold celestiaRequest_spec, settings_url. now rewrite Hu. }
  rewrite (pipeline_request _ _ Hb). spec_cbn. close.
Qed.
End Reached.

End SubmitBlob.
