(* ===== verification/Scenarios.v ===== *)
(** * Concrete runtimes and worlds

    The configurations of the specification's scenario and of the
    findings, and the witnesses that instantiate the general theorems of
    [Auth] and [SubmitBlob] at them.  [hello_runtime] holds the scenario's
    settings in the character settings, [env_runtime] the same values in
    [process.env] only, [no_url_runtime] no endpoint anywhere,
    [no_fee_runtime] no fee, and [unit_fee_runtime] a fee written with its
    unit; [handler_world] answers every operation successfully, with the
    model's [content] and the node's [answer] as parameters. *)

From stdpp Require Import gmap.
From S2P Require Import Prelude JsString Json JsValue Encoder Io Auth Rpc Runtime Config SubmitBlob.

Module Scenarios.
Import Utf16 Json JsValue Encoder Io Auth Rpc Runtime Config SubmitBlob.
Local Open Scope Z_scope.

Definition hello_runtime : runtime :=
  mk_runtime ∅ (list_to_map
    [(‹"CELESTIA_LIGHT_NODE_RPC_URL"›, ‹"http://localhost:26658"›);
     (‹"CELESTIA_AI_AGENT_NAMESPACE"›, ‹"0x42690c204d39600fddd3"›);
     (‹"CELESTIA_DEFAULT_TX_FEE"›, ‹"0.002"›)]) ∅.

(** The same configuration given through [process.env] only. *)
Definition env_runtime : runtime :=
  mk_runtime ∅ ∅ (list_to_map
    [(‹"CELESTIA_LIGHT_NODE_RPC_URL"›, ‹"http://localhost:26658"›);
     (‹"CELESTIA_AI_AGENT_NAMESPACE"›, ‹"0x42690c204d39600fddd3"›);
     (‹"CELESTIA_DEFAULT_TX_FEE"›, ‹"0.002"›)]).

(** No endpoint in any source; an empty fee in the character settings. *)
Definition no_url_runtime : runtime :=
  mk_runtime ∅ (list_to_map [(‹"CELESTIA_DEFAULT_TX_FEE"›, [])])
    (list_to_map [(‹"CELESTIA_DEFAULT_TX_FEE"›, ‹"0.002"›)]).

(** The model answers [content]; the token command prints [TOKEN] and a
    newline; the node answers [answer]. *)
Definition handler_world (content : value) (answer : http_answer) : world := {|
  w_compose_state := fun m => inr m;
  w_update_state := fun st => inr st;
  w_generate := fun _ _ => inr content;
  w_exec := fun _ => inr (‹"TOKEN"› ++ [10]);
  w_fetch := fun _ _ => answer
|}.

Definition hello_content : value := VObj [(‹"data"›, VStr ‹"Hello World!"›)].

(** The token command of [handler_world] prints [TOKEN] and a newline. *)
Lemma fetchAuthKeyFromLightNode_spec_witness :
  let w := handler_world hello_content (HttpResponse None) in
  w_exec w GET_AUTH_KEY_COMMAND = inr (‹"TOKEN"› ++ [10]) /\
  exists pre token suf, snd (run w fetchAuthKeyFromLightNode) = inr token /\
    ‹"TOKEN"› ++ [10] = pre ++ token ++ suf /\ Forall js_space pre /\ Forall js_space suf /\
    (forall c, head token = Some c -> is_js_space c = false) /\
    (forall c, last token = Some c -> is_js_space c = false).
Proof.
  intros w. assert (He : w_exec w GET_AUTH_KEY_COMMAND = inr (‹"TOKEN"› ++ [10])) by reflexivity.
  split; [exact He|]. exact (proj2 (proj2 (fetchAuthKeyFromLightNode_spec w)) _ He).
Defined.

Lemma handler_no_data_witness :
  run (handler_world (VObj [(‹"data"›, VStr [])]) (HttpResponse None))
      (handler hello_runtime VNull VNull true) =
  (EvLog LInfo start_msg :: [EvComposeState; EvUpdateState] ++
     [EvGenerate submitBlobTemplate] ++
     EvLog LInfo no_data_msg :: callback_events true no_data_msg (VObj []),
   inr false).
Proof.
  apply (handler_no_data (handler_world (VObj [(‹"data"›, VStr [])]) (HttpResponse None))
           hello_runtime VNull VNull VNull (VObj [(‹"data"›, VStr [])])
           [EvComposeState; EvUpdateState] eq_refl eq_refl true (VStr [])
           eq_refl eq_refl).
Defined.

Definition empty_world : world :=
  handler_world hello_content (HttpResponse (Some (VObj []))).


Lemma handler_empty_result_witness :
  run empty_world (handler hello_runtime VNull VNull true) =
  (EvLog LInfo start_msg :: [EvComposeState; EvUpdateState] ++
     [EvGenerate submitBlobTemplate] ++
     fst (celestiaRequest_spec empty_world (settings_url hello_runtime)
            ‹"state.SubmitPayForBlob"›
            (settings_params hello_runtime ‹"IkhlbGxvIFdvcmxkISI="›)) ++
     [EvLog LError error_log_msg;
      EvCallback error_text
        (VObj [(‹"error"›, VStr ‹"Cannot read properties of undefined (reading 'tx_hash')"›)])],
   inr false).
Proof.
  apply (handler_empty_result empty_world hello_runtime VNull VNull VNull hello_content
           [EvComposeState; EvUpdateState] eq_refl eq_refl
           (VStr ‹"Hello World!"›) (VStr ‹"Hello World!"›) ‹"IkhlbGxvIFdvcmxkISI="›
           eq_refl eq_refl eq_refl); vm_compute; reflexivity.
Defined.

Definition no_hash_response : value := VObj [(‹"result"›, VArr [VObj []])].
Definition no_hash_world : world :=
  handler_world hello_content (HttpResponse (Some no_hash_response)).

Lemma handler_missing_tx_hash_witness :
  run no_hash_world (handler hello_runtime VNull VNull true) =
  (EvLog LInfo start_msg :: [EvComposeState; EvUpdateState] ++
     [EvGenerate submitBlobTemplate] ++
     fst (celestiaRequest_spec no_hash_world (settings_url hello_runtime)
            ‹"state.SubmitPayForBlob"›
            (settings_params hello_runtime ‹"IkhlbGxvIFdvcmxkISI="›)) ++
     [EvLog LSuccess (success_text VUndefined);
      EvCallback
        (‹"Blob submitted successfully! Check it out on Celenium: https://mocha-4.celenium.io/tx/undefined"›)
        (VObj [])],
   inr true).
Proof.
  apply (handler_missing_tx_hash no_hash_world hello_runtime VNull VNull VNull hello_content
           [EvComposeState; EvUpdateState] eq_refl eq_refl
           (VStr ‹"Hello World!"›) (VStr ‹"Hello World!"›) ‹"IkhlbGxvIFdvcmxkISI="›
           eq_refl eq_refl eq_refl eq_refl _ no_hash_response); vm_compute; reflexivity.
Defined.

Lemma handler_invalid_url_witness :
  run (handler_world hello_content (HttpResponse None))
      (handler no_url_runtime VNull VNull true) =
  (EvLog LInfo start_msg :: [EvComposeState; EvUpdateState] ++
     [EvGenerate submitBlobTemplate] ++
     [EvLog LError error_log_msg;
      EvCallback error_text (VObj [(‹"error"›, VStr ‹"bad_request"›)])],
   inr false).
Proof.
  apply (handler_invalid_url (handler_world hello_content (HttpResponse None))
           no_url_runtime VNull VNull VNull hello_content [EvComposeState; EvUpdateState]
           eq_refl eq_refl (VStr ‹"Hello World!"›) (VStr ‹"Hello World!"›)
           ‹"IkhlbGxvIFdvcmxkISI="› eq_refl eq_refl eq_refl eq_refl); vm_compute; reflexivity.
Defined.

(** A runtime with the endpoint and the namespace but no fee. *)
Definition no_fee_runtime : runtime :=
  mk_runtime ∅ (list_to_map
    [(‹"CELESTIA_LIGHT_NODE_RPC_URL"›, ‹"http://localhost:26658"›);
     (‹"CELESTIA_AI_AGENT_NAMESPACE"›, ‹"0x42690c204d39600fddd3"›)]) ∅.

(** The configuration of the scenario with a fee written with its unit. *)
Definition unit_fee_runtime : runtime :=
  mk_runtime ∅ (list_to_map
    [(‹"CELESTIA_LIGHT_NODE_RPC_URL"›, ‹"http://localhost:26658"›);
     (‹"CELESTIA_AI_AGENT_NAMESPACE"›, ‹"0x42690c204d39600fddd3"›);
     (‹"CELESTIA_DEFAULT_TX_FEE"›, ‹"0.002 TIA"›)]) ∅.

End Scenarios.
