(* ===== verification/Traces.v ===== *)
(** * Executions of the DA client and of the handler

    The small-step semantics of [Semantics] applied to [celestiaRequest]
    and to the [SUBMIT_BLOB] handler: what every partial execution has
    done so far (an invariant of the reachable configurations), how long
    an execution can be (no retries, no loops, at most one request and
    only after the token command), and what every execution eventually
    does (the user is answered exactly once).  The proofs read the traces
    off the refinement lemmas [celestiaRequest_run] and [handler_run]
    through [steps_prefix] and [steps_run].  The handler's data path is
    then followed end to end ([handler_data_path]) and composed with the
    validator of [Config]: what [validate] accepts against what the
    handler sends. *)

From S2P Require Import Prelude JsString JsValue Encoder Io Semantics Auth Rpc Runtime Config SubmitBlob Scenarios.

Module Traces.
Import Utf16 JsValue Encoder Io Semantics Auth Rpc Runtime Config SubmitBlob Scenarios.

Definition is_callback (e : event) : bool :=
  match e with EvCallback _ _ => true | _ => false end.

(** The number of callbacks in a trace. *)
Definition callbacks (tr : list event) : nat := length (filter is_callback tr).

(** A trace part without callbacks and of at most [n] events. *)
Definition quiet (n : nat) (tr : list event) : Prop :=
  (length tr <= n)%nat /\ callbacks tr = 0%nat.

Lemma callbacks_app l1 l2 : callbacks (l1 ++ l2) = (callbacks l1 + callbacks l2)%nat.
Proof. unfold callbacks. by rewrite filter_app, length_app. Qed.

Lemma callbacks_nil : callbacks [] = 0%nat.
Proof. reflexivity. Qed.

Lemma callbacks_cons e l :
  callbacks (e :: l) = ((if is_callback e then 1 else 0) + callbacks l)%nat.
Proof. unfold callbacks. cbn. by destruct (is_callback e). Qed.

(** A literal trace part. *)
Ltac quiet_lit := split; cbn; [lia|reflexivity].

Lemma quiet_app n1 n2 l1 l2 : quiet n1 l1 -> quiet n2 l2 -> quiet (n1 + n2) (l1 ++ l2).
Proof. intros [] []. split; [rewrite length_app|rewrite callbacks_app]; lia. Qed.

Lemma quiet_mono n1 n2 l : (n1 <= n2)%nat -> quiet n1 l -> quiet n2 l.
Proof. intros ? []. split; [lia|done]. Qed.

Lemma quiet_prefix n l1 l2 : l1 `prefix_of` l2 -> quiet n l2 -> quiet n l1.
Proof.
  intros [k ->] [Hl Hc]. rewrite length_app in Hl. rewrite callbacks_app in Hc.
  split; lia.
Qed.

(** ** The client's trace *)

(** The trace of the client's specification: at most the token command
    and one POST to the endpoint. *)
Lemma rpc_spec_trace w url method params :
  exists init, fst (celestiaRequest_spec w url method params) `prefix_of`
               [EvExec GET_AUTH_KEY_COMMAND; EvFetch (to_js_string url) init].
Proof.
  unfold celestiaRequest_spec.
  destruct (negb (isURL url)); [exists (request_init [] []); apply prefix_nil|].
  destruct (w_exec w GET_AUTH_KEY_COMMAND) as [e|out]; cbn [fst].
  - exists (request_init [] []). by exists [EvFetch (to_js_string url) (request_init [] [])].
  - eexists. reflexivity.
Qed.

Lemma rpc_spec_quiet w url method params :
  quiet 2 (fst (celestiaRequest_spec w url method params)).
Proof.
  destruct (rpc_spec_trace w url method params) as [init Hp].
  eapply quiet_prefix; [exact Hp|]. quiet_lit.
Qed.

(** ** The handler's trace *)

Lemma init_state_spec_quiet w memory state : quiet 2 (fst (init_state_spec w memory state)).
Proof.
  unfold init_state_spec. repeat case_match; quiet_lit.
Qed.

Ltac quiet_close :=
  repeat match goal with
  | H : init_state_spec ?w ?m ?s = (?t, _) |- _ =>
      let Hq := fresh "Hq" in
      pose proof (init_state_spec_quiet w m s) as Hq; rewrite H in Hq; cbn [fst] in Hq;
      clear H
  | H : celestiaRequest_spec ?w ?u ?m ?p = (?t, _) |- _ =>
      let Hq := fresh "Hq" in
      pose proof (rpc_spec_quiet w u m p) as Hq; rewrite H in Hq; cbn [fst] in Hq;
      clear H
  end;
  unfold quiet in *; destruct_and?;
  rewrite ?length_app, ?callbacks_app, ?callbacks_cons, ?callbacks_nil in *;
  cbn [length is_callback] in *; split; lia.

(** The pipeline performs at most five operations, none a callback. *)
Lemma pipeline_quiet w rt memory state : quiet 5 (fst (pipeline_spec w rt memory state)).
Proof.
  unfold pipeline_spec.
  repeat (case_match; simplify_eq/=); quiet_close.
Qed.

Lemma report_events_length cb o : (length (report_events cb o) <= 2)%nat.
Proof. destruct cb, o; cbn; lia. Qed.

Lemma report_events_callbacks o : callbacks (report_events true o) = 1%nat.
Proof. by destruct o. Qed.

(** The handler's specified trace: the start log, the pipeline's
    operations, the report. *)
Lemma handler_spec_parts w rt memory state cb :
  handler_spec w rt memory state cb =
  (EvLog LInfo start_msg :: fst (pipeline_spec w rt memory state) ++
     report_events cb (snd (pipeline_spec w rt memory state)),
   inr (outcome_result (snd (pipeline_spec w rt memory state)))).
Proof. unfold handler_spec. by destruct (pipeline_spec w rt memory state). Qed.

Lemma final_inr {A} (q : io A) (a : A) : final q = Some (inr a) -> q = Ret a.
Proof. destruct q; cbn; intros; simplify_eq; reflexivity. Qed.

(** ** The hash read once

    Lines 105-114 evaluate [celestiaResponse.result[0].tx_hash] twice, once
    for the log line and once for the callback.  The reference below reads
    it once; [handler_once] is the handler with that report. *)

Definition report_success_once (celestiaResponse : value) (has_callback : bool) : io bool :=
  h <- raise (tx_hash_of celestiaResponse) ;;
  log LSuccess (success_text h) ;;
  (if has_callback then callback (success_text h) (VObj []) else Ret tt) ;;
  Ret true.

Definition handler_once (rt : runtime) (memory state : value) (has_callback : bool) : io bool :=
  log LInfo start_msg ;;
  catch
    (st <- init_state memory state ;;
     submitBlobContent <- Generate st submitBlobTemplate raise ;;
     data <- raise (get_opt submitBlobContent ‹"data"›) ;;
     if negb (truthy data) then no_data has_callback
     else
       submitBlobData <- raise (get_prop submitBlobContent ‹"data"›) ;;
       celestiaResponse <- submit rt submitBlobData ;;
       report_success_once celestiaResponse has_callback)
    (report_error has_callback).

Lemma report_success_once_equiv resp cb :
  report_success resp cb ≡io report_success_once resp cb.
Proof.
  intros w. rewrite report_success_run. unfold report_success_once.
  rewrite run_bind, run_raise. destruct (tx_hash_of resp); [reflexivity|].
  destruct cb; reflexivity.
Qed.

(** A trace part without callbacks is kept whole when the callbacks are
    removed. *)
Lemma filter_no_callbacks l :
  callbacks l = 0%nat -> filter (fun e => negb (is_callback e)) l = l.
Proof.
  induction l as [|e l IH]; [done|]. rewrite callbacks_cons.
  destruct (is_callback e) eqn:He; [cbn; lia|]. intros Hl.
  rewrite filter_cons_True by (rewrite He; exact I). f_equal. exact (IH Hl).
Qed.

Lemma report_events_without_callback o :
  filter (fun e => negb (is_callback e)) (report_events true o) = report_events false o.
Proof. destruct o; reflexivity. Qed.

(** ** Requests in the handler's trace *)

Definition is_fetch (e : event) : bool :=
  match e with EvFetch _ _ => true | _ => false end.

(** The number of HTTP requests in a trace. *)
Definition fetches (tr : list event) : nat := length (filter is_fetch tr).

Lemma fetches_app l1 l2 : fetches (l1 ++ l2) = (fetches l1 + fetches l2)%nat.
Proof. unfold fetches. by rewrite filter_app, length_app. Qed.

Lemma fetches_split pre u i post :
  fetches (pre ++ EvFetch u i :: post) = S (fetches pre + fetches post).
Proof. rewrite fetches_app. unfold fetches. rewrite filter_cons_True by done. cbn [length]. lia. Qed.

Lemma fetches_cons_le e l : (fetches l <= fetches (e :: l))%nat.
Proof. unfold fetches. rewrite filter_cons. case_decide; cbn [length]; lia. Qed.

Lemma fetches_generate t : fetches [EvGenerate t] = 0%nat.
Proof. unfold fetches. rewrite filter_cons_False; [reflexivity|]. cbn. tauto. Qed.

Lemma fetches_exec c : fetches [EvExec c] = 0%nat.
Proof. unfold fetches. rewrite filter_cons_False; [reflexivity|]. cbn. tauto. Qed.

Lemma fetches_exec_fetch c u i : fetches [EvExec c; EvFetch u i] = 1%nat.
Proof.
  change [EvExec c; EvFetch u i] with ([EvExec c] ++ EvFetch u i :: []).
  rewrite fetches_split, fetches_exec. reflexivity.
Qed.

Lemma init_state_spec_no_fetch w memory state : fetches (fst (init_state_spec w memory state)) = 0%nat.
Proof. unfold init_state_spec. repeat case_match; reflexivity. Qed.

Lemma report_events_no_fetch cb o : fetches (report_events cb o) = 0%nat.
Proof. by destruct cb, o. Qed.

Lemma prefix_two {A} (y : list A) a b : y `prefix_of` [a; b] -> y = [] \/ y = [a] \/ y = [a; b].
Proof. intros [k Hk]. destruct y as [|y1 [|y2 [|y3 y]]]; simplify_eq/=; auto. Qed.

(** In a trace made of a part without requests, the token command and one
    request, and another part without requests, the request is the one
    right after the token command. *)
Lemma fetch_after_exec X c u0 i0 Z pre u i post :
  fetches X = 0%nat -> fetches Z = 0%nat ->
  X ++ EvExec c :: EvFetch u0 i0 :: Z = pre ++ EvFetch u i :: post ->
  last pre = Some (EvExec c).
Proof.
  revert pre. induction X as [|x X IH]; intros pre HX HZ Heq.
  - destruct pre as [|p [|p' pre]]; simplify_eq/=; try done.
    rewrite fetches_split in HZ. lia.
  - assert (HX' : fetches X = 0%nat) by (pose proof (fetches_cons_le x X); lia).
    destruct pre as [|p pre]; cbn in Heq; injection Heq as Hx Heq.
    + subst x. unfold fetches in HX. rewrite filter_cons_True in HX by done. discriminate.
    + specialize (IH pre HX' HZ Heq). destruct pre; [discriminate|]. exact IH.
Qed.

Ltac shape_close :=
  lazymatch goal with
  | H : celestiaRequest_spec ?w ?u ?m ?p = (?l, _) |- exists X Y, ?T ++ ?l = X ++ Y /\ _ =>
      exists T, l; split; [reflexivity|]; split; [rewrite ?fetches_app, ?fetches_generate; lia|];
      destruct (rpc_spec_trace w u m p) as [init Hp]; rewrite H in Hp; eauto
  | |- exists X Y, ?T = X ++ Y /\ _ =>
      exists T, []; split; [by rewrite app_nil_r|]; split; [rewrite ?fetches_app, ?fetches_generate; lia|];
      exists (to_js_string VNull), (request_init [] []); apply prefix_nil
  end.

(** The pipeline's trace: operations that are not requests, then a part of
    "token command, then one request". *)
Lemma pipeline_shape w rt memory state :
  exists X Y, fst (pipeline_spec w rt memory state) = X ++ Y /\ fetches X = 0%nat /\
    exists url init, Y `prefix_of` [EvExec GET_AUTH_KEY_COMMAND; EvFetch url init].
Proof.
  pose proof (init_state_spec_no_fetch w memory state) as Hi.
  unfold pipeline_spec. destruct (init_state_spec w memory state) as [tr1 r1]. cbn [fst] in Hi.
  repeat (case_match; simplify_eq/=); shape_close.
Qed.

Lemma handler_trace_shape w rt memory state cb :
  exists X Y Z, fst (run w (handler rt memory state cb)) = X ++ Y ++ Z /\
    fetches X = 0%nat /\ fetches Z = 0%nat /\
    exists url init, Y `prefix_of` [EvExec GET_AUTH_KEY_COMMAND; EvFetch url init].
Proof.
  destruct (pipeline_shape w rt memory state) as (X & Y & HP & HX & HY).
  exists (EvLog LInfo start_msg :: X), Y,
    (report_events cb (snd (pipeline_spec w rt memory state))).
  rewrite handler_run, handler_spec_parts. cbn [fst]. rewrite HP, <- app_assoc.
  split; [reflexivity|]. split; [exact HX|]. split; [apply report_events_no_fetch|exact HY].
Qed.

(** ** The data path end to end *)

(** The request the handler sends for token output [out] and encoded
    data [enc]. *)
Definition submit_init (rt : runtime) (out enc : jsstring) : fetch_init :=
  request_init (trim out) (envelope_body ‹"state.SubmitPayForBlob"› (settings_params rt enc)).

(** How the pipeline ends for the node's answer [a]. *)
Definition answer_outcome (a : http_answer) : outcome :=
  match response_outcome a with
  | inl e => Failed e
  | inr resp => match tx_hash_of resp with inl e => Failed e | inr h => Submitted h end
  end.

(** The whole run when the model's data is a non-empty string, the
    endpoint a URL and the token command succeeds. *)
Lemma handler_data_path w rt memory state st content tr1 s out cb :
  init_state_spec w memory state = (tr1, inr st) ->
  w_generate w st submitBlobTemplate = inr content ->
  get_prop content ‹"data"› = inr (VStr s) -> s <> [] -> Forall code_unit s ->
  isURL (settings_url rt) = true ->
  w_exec w GET_AUTH_KEY_COMMAND = inr out ->
  exists enc, decode_payload enc = Some s /\
    let a := w_fetch w (to_js_string (settings_url rt)) (submit_init rt out enc) in
    run w (handler rt memory state cb) =
    (EvLog LInfo start_msg :: tr1 ++
       [EvGenerate submitBlobTemplate; EvExec GET_AUTH_KEY_COMMAND;
        EvFetch (to_js_string (settings_url rt)) (submit_init rt out enc)] ++
       report_events cb (answer_outcome a),
     inr (outcome_result (answer_outcome a))).
Proof.
  intros Hinit Hgen Hdata Hs Hu Hurl Hexec.
  destruct (encode_string_payload s Hu) as (enc & Henc & Hdec).
  exists enc. split; [exact Hdec|]. intros a.
  assert (Htr : truthy (VStr s) = true) by (cbn; by rewrite bool_decide_false).
  rewrite handler_run. unfold handler_spec.
  erewrite (pipeline_request w rt memory state st content tr1 Hinit Hgen _ _ enc
              (get_opt_prop _ _ _ Hdata) Htr Hdata Henc).
  2: { unfold celestiaRequest_spec. rewrite Hurl, Hexec. reflexivity. }
  cbn [app]. rewrite <- !app_assoc. reflexivity.
Qed.

Lemma request_in_trace {A} (e0 : A) tr1 a b c rest : c ∈ e0 :: tr1 ++ [a; b; c] ++ rest.
Proof.
  apply list_elem_of_In. right. apply in_or_app. right. apply in_or_app. left.
  right. right. left. reflexivity.
Qed.

(** A first result carrying a string [tx_hash] is not normalised away. *)
Lemma tx_hash_response resp h :
  tx_hash_of resp = inr (VStr h) -> response_outcome (HttpResponse (Some resp)) = inr resp.
Proof.
  unfold tx_hash_of, response_outcome. destruct (get_prop resp ‹"result"›) as [e|r]; [done|].
  destruct r as [| |b|n|str|xs|ps]; cbn; try done; destruct str; cbn; done.
Qed.

(** ** Properties *)

(** C9. Invariant of the client's reachable configurations: whatever
    has been done so far is a prefix of "run the token command, then POST
    to the endpoint": no request leaves before the token is fetched, and at
    most one request leaves. *)
Theorem celestiaRequest_reachable w url method params tr q :
  steps w (celestiaRequest url method params) tr q ->
  exists init, tr `prefix_of` [EvExec GET_AUTH_KEY_COMMAND; EvFetch (to_js_string url) init].
Proof.
  intros H%steps_prefix. rewrite celestiaRequest_run in H.
  destruct (rpc_spec_trace w url method params) as [init Hp].
  exists init. by transitivity (fst (celestiaRequest_spec w url method params)).
Qed.

Lemma celestiaRequest_reachable_witness :
  let p := celestiaRequest node_url ‹"m"› VNull in
  exists q, steps ok_world p (fst (run ok_world p)) q /\
  exists init, fst (run ok_world p) `prefix_of`
                 [EvExec GET_AUTH_KEY_COMMAND; EvFetch (to_js_string node_url) init].
Proof.
  intros p. destruct (run_terminates ok_world p) as (q & Hs & _).
  exists q. split; [exact Hs|]. exact (celestiaRequest_reachable _ _ _ _ _ _ Hs).
Defined.

(** C10. Termination with a bound: every execution of the handler performs
    at most eight operations (start log, state composition and update, model
    call, token command, POST, report log, callback): nothing is retried. *)
Theorem handler_steps_bounded w rt memory state cb tr q :
  steps w (handler rt memory state cb) tr q -> (length tr <= 8)%nat.
Proof.
  intros H%steps_prefix. rewrite handler_run, handler_spec_parts in H.
  apply prefix_length in H. cbn [fst length] in H. rewrite length_app in H.
  pose proof (pipeline_quiet w rt memory state) as [Hp _].
  pose proof (report_events_length cb (snd (pipeline_spec w rt memory state))).
  lia.
Qed.

Lemma handler_steps_bounded_witness :
  let p := handler hello_runtime VNull VNull true in
  let w := handler_world hello_content (HttpResponse (Some sample_response)) in
  exists q, steps w p (fst (run w p)) q /\ (length (fst (run w p)) <= 8)%nat.
Proof.
  intros p w. destruct (run_terminates w p) as (q & Hs & _).
  exists q. split; [exact Hs|]. exact (handler_steps_bounded _ _ _ _ _ _ _ Hs).
Defined.

(** C8. Liveness: from every reachable configuration of the handler with
    a callback, the execution goes on to resolve (it never rejects), and
    over the whole execution the callback is called exactly once: the
    user always gets one answer. *)
Theorem handler_answers_once w rt memory state tr q :
  steps w (handler rt memory state true) tr q ->
  exists tr' b, steps w q tr' (Ret b) /\ callbacks (tr ++ tr') = 1%nat.
Proof.
  intros H. pose proof (steps_run w _ _ _ H) as Hrun.
  rewrite handler_run, handler_spec_parts in Hrun.
  destruct (run_terminates w q) as (q' & Hs & Hf).
  injection Hrun as Htr Hr.
  rewrite <- Hr in Hf. apply final_inr in Hf as ->.
  eexists _, _. split; [exact Hs|].
  rewrite <- Htr, callbacks_cons, callbacks_app, report_events_callbacks.
  pose proof (pipeline_quiet w rt memory state) as [_ Hc]. cbn [is_callback]. lia.
Qed.

Lemma handler_answers_once_witness :
  let p := handler hello_runtime VNull VNull true in
  let w := handler_world hello_content (HttpResponse (Some sample_response)) in
  steps w p [] p /\ exists tr' b, steps w p tr' (Ret b) /\ callbacks ([] ++ tr') = 1%nat.
Proof.
  intros p w. assert (H : steps w p [] p) by constructor.
  split; [exact H|]. exact (handler_answers_once _ _ _ _ _ _ H).
Defined.
(** C28. Equivalence with the reference: the handler, which reads
    [result[0].tx_hash] twice, has in every world the same trace and result
    as the handler that reads it once; the two reads cannot disagree. *)
Theorem handler_reads_hash_once rt memory state cb :
  handler rt memory state cb ≡io handler_once rt memory state cb.
Proof.
  unfold handler, handler_once.
  apply bind_proper; [reflexivity|intros _].
  apply catch_proper; [|reflexivity].
  apply bind_proper; [reflexivity|intros st].
  apply bind_proper; [reflexivity|intros content].
  apply bind_proper; [reflexivity|intros data].
  destruct (negb (truthy data)); [reflexivity|].
  apply bind_proper; [reflexivity|intros d].
  apply bind_proper; [reflexivity|intros resp].
  apply report_success_once_equiv.
Qed.
(** C11. Composition of the model's answer, the encoder, the settings and
    the client: when the model's [data] is a non-empty string [s] and the
    endpoint setting is a URL, the handler runs the token command and then
    POSTs to that endpoint a [state.SubmitPayForBlob] call whose
    [namespace_id] and [gas_price] are the runtime's settings and whose
    [data] is a text that decodes back to [s]. *)
Theorem handler_request_carries_payload w rt memory state st content tr1 s out cb :
  init_state_spec w memory state = (tr1, inr st) ->
  w_generate w st submitBlobTemplate = inr content ->
  get_prop content ‹"data"› = inr (VStr s) -> s <> [] -> Forall code_unit s ->
  isURL (getSetting rt ‹"CELESTIA_LIGHT_NODE_RPC_URL"›) = true ->
  w_exec w GET_AUTH_KEY_COMMAND = inr out ->
  exists enc, decode_payload enc = Some s /\
    (EvLog LInfo start_msg :: tr1 ++
      [EvGenerate submitBlobTemplate; EvExec GET_AUTH_KEY_COMMAND;
       EvFetch (to_js_string (getSetting rt ‹"CELESTIA_LIGHT_NODE_RPC_URL"›))
         (request_init (trim out)
            (envelope_body ‹"state.SubmitPayForBlob"›
               (submit_params (getSetting rt ‹"CELESTIA_AI_AGENT_NAMESPACE"›)
                  (getSetting rt ‹"CELESTIA_DEFAULT_TX_FEE"›) enc)))])
    `prefix_of` fst (run w (handler rt memory state cb)).
Proof.
  intros Hinit Hgen Hdata Hs Hu Hurl Hexec.
  destruct (handler_data_path w rt memory state st content tr1 s out cb
              Hinit Hgen Hdata Hs Hu Hurl Hexec) as (enc & Hdec & Hrun).
  exists enc. split; [exact Hdec|]. cbv zeta in Hrun. rewrite Hrun. cbn [fst].
  eexists. cbn [app]. rewrite <- !app_assoc. reflexivity.
Qed.

Lemma handler_request_carries_payload_witness :
  let w := handler_world hello_content (HttpResponse (Some sample_response)) in
  init_state_spec w VNull VNull = ([EvComposeState; EvUpdateState], inr VNull) /\
  w_generate w VNull submitBlobTemplate = inr hello_content /\
  get_prop hello_content ‹"data"› = inr (VStr ‹"Hello World!"›) /\
  ‹"Hello World!"› <> [] /\ Forall code_unit ‹"Hello World!"› /\
  isURL (getSetting hello_runtime ‹"CELESTIA_LIGHT_NODE_RPC_URL"›) = true /\
  w_exec w GET_AUTH_KEY_COMMAND = inr (‹"TOKEN"› ++ [10%Z]) /\
  exists enc, decode_payload enc = Some ‹"Hello World!"› /\
    (EvLog LInfo start_msg :: [EvComposeState; EvUpdateState] ++
      [EvGenerate submitBlobTemplate; EvExec GET_AUTH_KEY_COMMAND;
       EvFetch (to_js_string (getSetting hello_runtime ‹"CELESTIA_LIGHT_NODE_RPC_URL"›))
         (request_init (trim (‹"TOKEN"› ++ [10%Z]))
            (envelope_body ‹"state.SubmitPayForBlob"›
               (submit_params (getSetting hello_runtime ‹"CELESTIA_AI_AGENT_NAMESPACE"›)
                  (getSetting hello_runtime ‹"CELESTIA_DEFAULT_TX_FEE"›) enc)))])
    `prefix_of` fst (run w (handler hello_runtime VNull VNull true)).
Proof.
  intros w.
  assert (H1 : init_state_spec w VNull VNull = ([EvComposeState; EvUpdateState], inr VNull))
    by reflexivity.
  assert (H2 : w_generate w VNull submitBlobTemplate = inr hello_content) by reflexivity.
  assert (H3 : get_prop hello_content ‹"data"› = inr (VStr ‹"Hello World!"›)) by reflexivity.
  assert (H4 : ‹"Hello World!"› <> []) by discriminate.
  assert (H5 : Forall code_unit ‹"Hello World!"›) by vm_decide.
  assert (H6 : isURL (getSetting hello_runtime ‹"CELESTIA_LIGHT_NODE_RPC_URL"›) = true)
    by (vm_compute; reflexivity).
  assert (H7 : w_exec w GET_AUTH_KEY_COMMAND = inr (‹"TOKEN"› ++ [10%Z])) by reflexivity.
  do 7 (split; [assumption|]).
  exact (handler_request_carries_payload w hello_runtime VNull VNull VNull hello_content
           _ _ _ true H1 H2 H3 H4 H5 H6 H7).
Defined.
(** C7. The specification's scenario, for every input: when the model's
    [data] is a non-empty string [s], the endpoint setting is a URL, the
    token command prints [out] and the node answers [resp] whose
    [result[0].tx_hash] is the string [h], the handler performs exactly the
    start log, the state operations, the model call, the token command, one
    POST of a [state.SubmitPayForBlob] call whose data decodes back to [s],
    then the success log and one callback, both with the Celenium link of
    [h]; it resolves to [true]. *)
Theorem handler_success w rt memory state st content tr1 s out resp h :
  init_state_spec w memory state = (tr1, inr st) ->
  w_generate w st submitBlobTemplate = inr content ->
  get_prop content ‹"data"› = inr (VStr s) -> s <> [] -> Forall code_unit s ->
  isURL (getSetting rt ‹"CELESTIA_LIGHT_NODE_RPC_URL"›) = true ->
  w_exec w GET_AUTH_KEY_COMMAND = inr out ->
  (forall init, w_fetch w (to_js_string (getSetting rt ‹"CELESTIA_LIGHT_NODE_RPC_URL"›)) init =
                HttpResponse (Some resp)) ->
  tx_hash_of resp = inr (VStr h) ->
  exists enc, decode_payload enc = Some s /\
  run w (handler rt memory state true) =
  (EvLog LInfo start_msg :: tr1 ++
     [EvGenerate submitBlobTemplate; EvExec GET_AUTH_KEY_COMMAND;
      EvFetch (to_js_string (getSetting rt ‹"CELESTIA_LIGHT_NODE_RPC_URL"›))
        (request_init (trim out)
           (envelope_body ‹"state.SubmitPayForBlob"›
              (submit_params (getSetting rt ‹"CELESTIA_AI_AGENT_NAMESPACE"›)
                 (getSetting rt ‹"CELESTIA_DEFAULT_TX_FEE"›) enc)));
      EvLog LSuccess
        (‹"Blob submitted successfully! Check it out on Celenium: https://mocha-4.celenium.io/tx/"› ++ h);
      EvCallback
        (‹"Blob submitted successfully! Check it out on Celenium: https://mocha-4.celenium.io/tx/"› ++ h)
        (VObj [])],
   inr true).
Proof.
  intros Hinit Hgen Hdata Hs Hu Hurl Hexec Hfetch Hh.
  destruct (handler_data_path w rt memory state st content tr1 s out true
              Hinit Hgen Hdata Hs Hu Hurl Hexec) as (enc & Hdec & Hrun).
  exists enc. split; [exact Hdec|]. cbv zeta in Hrun. rewrite Hrun.
  unfold answer_outcome, settings_url. rewrite Hfetch, (tx_hash_response _ _ Hh), Hh.
  reflexivity.
Qed.

Lemma handler_success_witness :
  let w := handler_world hello_content (HttpResponse (Some sample_response)) in
  exists enc, decode_payload enc = Some ‹"Hello World!"› /\
  run w (handler hello_runtime VNull VNull true) =
  (EvLog LInfo start_msg :: [EvComposeState; EvUpdateState] ++
     [EvGenerate submitBlobTemplate; EvExec GET_AUTH_KEY_COMMAND;
      EvFetch (to_js_string (getSetting hello_runtime ‹"CELESTIA_LIGHT_NODE_RPC_URL"›))
        (request_init (trim (‹"TOKEN"› ++ [10%Z]))
           (envelope_body ‹"state.SubmitPayForBlob"›
              (submit_params (getSetting hello_runtime ‹"CELESTIA_AI_AGENT_NAMESPACE"›)
                 (getSetting hello_runtime ‹"CELESTIA_DEFAULT_TX_FEE"›) enc)));
      EvLog LSuccess
        (‹"Blob submitted successfully! Check it out on Celenium: https://mocha-4.celenium.io/tx/"› ++ ‹"ABC123"›);
      EvCallback
        (‹"Blob submitted successfully! Check it out on Celenium: https://mocha-4.celenium.io/tx/"› ++ ‹"ABC123"›)
        (VObj [])],
   inr true).
Proof.
  intros w.
  apply (handler_success w hello_runtime VNull VNull VNull hello_content _ _ _ sample_response);
    first [reflexivity | discriminate | vm_decide].
Defined.
(** C21. The action's [validate] and its handler agree on the settings:
    when [validateCelestiaConfig] accepts a configuration, whether its
    values come from the character or from [process.env], the handler's
    request goes to the validated URL with the validated namespace, and its
    [gas_price] is the fee setting as a string, one that [parseFloat] reads
    as the validated fee: the validated number itself is never sent. *)
Theorem validated_config_sent w rt memory state st content tr1 s out cb cfg :
  validateCelestiaConfig rt = inr cfg ->
  init_state_spec w memory state = (tr1, inr st) ->
  w_generate w st submitBlobTemplate = inr content ->
  get_prop content ‹"data"› = inr (VStr s) -> s <> [] -> Forall code_unit s ->
  isURL (VStr (CELESTIA_LIGHT_NODE_RPC_URL cfg)) = true ->
  w_exec w GET_AUTH_KEY_COMMAND = inr out ->
  exists enc fee, decode_payload enc = Some s /\ parseFloat fee = CELESTIA_DEFAULT_TX_FEE cfg /\
    EvFetch (CELESTIA_LIGHT_NODE_RPC_URL cfg)
      (request_init (trim out)
         (envelope_body ‹"state.SubmitPayForBlob"›
            (submit_params (VStr (CELESTIA_AI_AGENT_NAMESPACE cfg)) (VStr fee) enc)))
    ∈ fst (run w (handler rt memory state cb)).
Proof.
  intros Hv Hinit Hgen Hdata Hs Hu Hurl Hexec.
  destruct (validated_settings rt cfg Hv) as (HU & HN & fee & HF & Hp).
  assert (Hurl' : isURL (settings_url rt) = true).
  { unfold settings_url. change ‹"CELESTIA_LIGHT_NODE_RPC_URL"› with URL_KEY. by rewrite HU. }
  destruct (handler_data_path w rt memory state st content tr1 s out cb
              Hinit Hgen Hdata Hs Hu Hurl' Hexec) as (enc & Hdec & Hrun).
  exists enc, fee. split; [exact Hdec|]. split; [exact Hp|].
  cbv zeta in Hrun. rewrite Hrun. unfold submit_init, settings_params, settings_url.
  change ‹"CELESTIA_LIGHT_NODE_RPC_URL"› with URL_KEY.
  change ‹"CELESTIA_AI_AGENT_NAMESPACE"› with NAMESPACE_KEY.
  change ‹"CELESTIA_DEFAULT_TX_FEE"› with FEE_KEY.
  rewrite HU, HN, HF. cbn [fst to_js_string]. apply request_in_trace.
Qed.

Lemma validated_config_sent_witness :
  let w := handler_world hello_content (HttpResponse (Some sample_response)) in
  exists enc fee, decode_payload enc = Some ‹"Hello World!"› /\
    parseFloat fee = Dec false 2 (-3) /\
    EvFetch ‹"http://localhost:26658"›
      (request_init (trim (‹"TOKEN"› ++ [10%Z]))
         (envelope_body ‹"state.SubmitPayForBlob"›
            (submit_params (VStr ‹"0x42690c204d39600fddd3"›) (VStr fee) enc)))
    ∈ fst (run w (handler env_runtime VNull VNull true)).
Proof.
  intros w.
  apply (validated_config_sent w env_runtime VNull VNull VNull hello_content
           [EvComposeState; EvUpdateState] ‹"Hello World!"› (‹"TOKEN"› ++ [10%Z]) true
           (mk_config ‹"http://localhost:26658"› ‹"0x42690c204d39600fddd3"› (Dec false 2 (-3))));
    first [reflexivity | discriminate | vm_decide | vm_compute; reflexivity].
Defined.

(** C22. The handler does not validate the configuration: with a fee set
    in none of the three sources, [validate] rejects the configuration, yet
    the handler still sends the request, with [gas_price] [null]. *)
Theorem handler_sends_unvalidated_fee w rt memory state st content tr1 s out cb :
  rt_secrets rt !! FEE_KEY = None -> rt_settings rt !! FEE_KEY = None ->
  process_env rt !! FEE_KEY = None ->
  init_state_spec w memory state = (tr1, inr st) ->
  w_generate w st submitBlobTemplate = inr content ->
  get_prop content ‹"data"› = inr (VStr s) -> s <> [] -> Forall code_unit s ->
  isURL (getSetting rt URL_KEY) = true ->
  w_exec w GET_AUTH_KEY_COMMAND = inr out ->
  (exists e, validate rt = inl e) /\
  exists enc, decode_payload enc = Some s /\
    EvFetch (to_js_string (getSetting rt URL_KEY))
      (request_init (trim out)
         (envelope_body ‹"state.SubmitPayForBlob"›
            (submit_params (getSetting rt NAMESPACE_KEY) VNull enc)))
    ∈ fst (run w (handler rt memory state cb)).
Proof.
  intros Hs1 Hs2 He Hinit Hgen Hdata Hs Hu Hurl Hexec.
  split; [exact (validate_rejects_nan rt (raw_fee_missing rt Hs1 Hs2 He))|].
  destruct (handler_data_path w rt memory state st content tr1 s out cb
              Hinit Hgen Hdata Hs Hu Hurl Hexec) as (enc & Hdec & Hrun).
  exists enc. split; [exact Hdec|].
  cbv zeta in Hrun. rewrite Hrun. unfold submit_init, settings_params.
  change ‹"CELESTIA_DEFAULT_TX_FEE"› with FEE_KEY. rewrite (getSetting_none rt FEE_KEY Hs1 Hs2 He).
  cbn [fst]. apply request_in_trace.
Qed.

Lemma handler_sends_unvalidated_fee_witness :
  let w := handler_world hello_content (HttpResponse (Some sample_response)) in
  (exists e, validate no_fee_runtime = inl e) /\
  exists enc, decode_payload enc = Some ‹"Hello World!"› /\
    EvFetch (to_js_string (getSetting no_fee_runtime URL_KEY))
      (request_init (trim (‹"TOKEN"› ++ [10%Z]))
         (envelope_body ‹"state.SubmitPayForBlob"›
            (submit_params (getSetting no_fee_runtime NAMESPACE_KEY) VNull enc)))
    ∈ fst (run w (handler no_fee_runtime VNull VNull true)).
Proof.
  intros w.
  apply (handler_sends_unvalidated_fee w no_fee_runtime VNull VNull VNull hello_content
           [EvComposeState; EvUpdateState] ‹"Hello World!"› (‹"TOKEN"› ++ [10%Z]) true);
    first [reflexivity | discriminate | vm_decide | vm_compute; reflexivity].
Defined.
(** C37. The fee that is validated and the fee that is sent differ for
    every fee written as a decimal numeral followed by text that is not a
    digit or an exponent, such as ["0.002 TIA"]: [validateCelestiaConfig]
    accepts the configuration with the number the numeral spells
    ([parseFloat] stops at the text), while the handler sends the whole
    setting, text included, as the string [gas_price]. *)
Theorem fee_validated_differs_from_sent w rt memory state st content tr1 s out cb
    u n ip fp rest :
  getSetting rt URL_KEY = VStr u -> u <> [] ->
  getSetting rt NAMESPACE_KEY = VStr n -> n <> [] ->
  getSetting rt FEE_KEY = VStr (numeral ip ++ [46%Z] ++ numeral fp ++ rest) ->
  Forall digit ip -> Forall digit fp -> ip <> [] ->
  (forall c r, rest = c :: r -> is_digit c = false /\ c <> 101%Z /\ c <> 69%Z) ->
  init_state_spec w memory state = (tr1, inr st) ->
  w_generate w st submitBlobTemplate = inr content ->
  get_prop content ‹"data"› = inr (VStr s) -> s <> [] -> Forall code_unit s ->
  isURL (VStr u) = true ->
  w_exec w GET_AUTH_KEY_COMMAND = inr out ->
  validateCelestiaConfig rt =
    inr (mk_config u n (Dec false (digits_to_Z (ip ++ fp)) (- Z.of_nat (length fp))%Z)) /\
  exists enc, decode_payload enc = Some s /\
    EvFetch u
      (request_init (trim out)
         (envelope_body ‹"state.SubmitPayForBlob"›
            (submit_params (VStr n) (VStr (numeral ip ++ [46%Z] ++ numeral fp ++ rest)) enc)))
    ∈ fst (run w (handler rt memory state cb)).
Proof.
  intros HU Hu' HN Hn' HF Hip Hfp Hne Hr Hinit Hgen Hdata Hs Hu Hurl Hexec.
  assert (Hf' : numeral ip ++ [46%Z] ++ numeral fp ++ rest <> []).
  { destruct ip; [congruence|discriminate]. }
  split.
  - apply validateCelestiaConfig_intro;
      [exact (raw_setting_str _ _ _ HU Hu') | exact Hu' | exact (raw_setting_str _ _ _ HN Hn')
      | exact Hn' | | discriminate | reflexivity].
    unfold raw_fee. rewrite (raw_setting_str _ _ _ HF Hf'). exact (parseFloat_numeral _ _ _ Hip Hfp Hne Hr).
  - assert (Hurl' : isURL (settings_url rt) = true).
    { unfold settings_url. change ‹"CELESTIA_LIGHT_NODE_RPC_URL"› with URL_KEY. by rewrite HU. }
    destruct (handler_data_path w rt memory state st content tr1 s out cb
                Hinit Hgen Hdata Hs Hu Hurl' Hexec) as (enc & Hdec & Hrun).
    exists enc. split; [exact Hdec|].
    cbv zeta in Hrun. rewrite Hrun. unfold submit_init, settings_params, settings_url.
    change ‹"CELESTIA_LIGHT_NODE_RPC_URL"› with URL_KEY.
    change ‹"CELESTIA_AI_AGENT_NAMESPACE"› with NAMESPACE_KEY.
    change ‹"CELESTIA_DEFAULT_TX_FEE"› with FEE_KEY.
    rewrite HU, HN, HF. cbn [fst to_js_string]. apply request_in_trace.
Qed.

Lemma fee_validated_differs_from_sent_witness :
  let w := handler_world hello_content (HttpResponse (Some sample_response)) in
  validateCelestiaConfig unit_fee_runtime =
    inr (mk_config ‹"http://localhost:26658"› ‹"0x42690c204d39600fddd3"›
           (Dec false (digits_to_Z ([0] ++ [0; 0; 2])%Z) (- Z.of_nat (length [0; 0; 2]))%Z)) /\
  exists enc, decode_payload enc = Some ‹"Hello World!"› /\
    EvFetch ‹"http://localhost:26658"›
      (request_init (trim (‹"TOKEN"› ++ [10%Z]))
         (envelope_body ‹"state.SubmitPayForBlob"›
            (submit_params (VStr ‹"0x42690c204d39600fddd3"›)
               (VStr (numeral [0%Z] ++ [46%Z] ++ numeral [0; 0; 2]%Z ++ ‹" TIA"›)) enc)))
    ∈ fst (run w (handler unit_fee_runtime VNull VNull true)).
Proof.
  intros w.
  assert (Hr : forall c r, ‹" TIA"› = c :: r -> is_digit c = false /\ c <> 101%Z /\ c <> 69%Z).
  { intros c r Hc. vm_compute in Hc. injection Hc as <- _. split; [reflexivity|split; discriminate]. }
  apply (fee_validated_differs_from_sent w unit_fee_runtime VNull VNull VNull hello_content
           [EvComposeState; EvUpdateState] ‹"Hello World!"› (‹"TOKEN"› ++ [10%Z]) true
           ‹"http://localhost:26658"› ‹"0x42690c204d39600fddd3"› [0%Z] [0; 0; 2]%Z ‹" TIA"›);
    first [exact Hr | reflexivity | discriminate | vm_decide | vm_compute; reflexivity
          | repeat constructor; unfold digit; lia].
Defined.

(** C27. Safety of every reachable configuration of the handler: what it
    has done so far contains at most one request to the node, and a request
    always comes right after the token command.  No request leaves without
    a fresh token, nothing is retried, and the reporting code sends
    nothing. *)
Theorem handler_single_request w rt memory state cb tr q :
  steps w (handler rt memory state cb) tr q ->
  (fetches tr <= 1)%nat /\
  forall pre u i post, tr = pre ++ EvFetch u i :: post ->
    last pre = Some (EvExec GET_AUTH_KEY_COMMAND).
Proof.
  intros [ext Hext]%steps_prefix.
  destruct (handler_trace_shape w rt memory state cb) as (X & Y & Z & HT & HX & HZ & url & init & HY).
  rewrite HT in Hext. pose proof (f_equal fetches Hext) as Hc. rewrite !fetches_app in Hc.
  split.
  - destruct (prefix_two _ _ _ HY) as [-> | [-> | ->]];
      rewrite ?fetches_exec, ?fetches_exec_fetch in Hc; cbn in Hc; lia.
  - intros pre u i post ->. rewrite fetches_split in Hc.
    destruct (prefix_two _ _ _ HY) as [-> | [-> | ->]];
      rewrite ?fetches_exec, ?fetches_exec_fetch in Hc; [cbn in Hc; lia | lia |].
    rewrite <- app_assoc in Hext. cbn [app] in Hext.
    exact (fetch_after_exec _ _ _ _ _ _ _ _ _ HX HZ Hext).
Qed.

Lemma handler_single_request_witness :
  let p := handler hello_runtime VNull VNull true in
  let w := handler_world hello_content (HttpResponse (Some sample_response)) in
  exists q, steps w p (fst (run w p)) q /\
    (fetches (fst (run w p)) <= 1)%nat /\
    forall pre u i post, fst (run w p) = pre ++ EvFetch u i :: post ->
      last pre = Some (EvExec GET_AUTH_KEY_COMMAND).
Proof.
  intros p w. destruct (run_terminates w p) as (q & Hs & _).
  exists q. split; [exact Hs|]. exact (handler_single_request _ _ _ _ _ _ _ Hs).
Defined.
(** C39. The callback is optional, and lines 74, 109 and 120 guard every
    use of it with [if (callback)]: without a callback the handler performs
    the same operations except the callbacks, in the same order, and
    resolves to the same result, in every world. *)
Theorem handler_without_callback w rt memory state :
  run w (handler rt memory state false) =
  (filter (fun e => negb (is_callback e)) (fst (run w (handler rt memory state true))),
   snd (run w (handler rt memory state true))).
Proof.
  rewrite !handler_run, !handler_spec_parts. cbn [fst snd].
  pose proof (pipeline_quiet w rt memory state) as [_ Hq].
  rewrite filter_cons_True by exact I. rewrite filter_app, (filter_no_callbacks _ Hq).
  by rewrite report_events_without_callback.
Qed.
End Traces.
